(** * Personal Calendar Manager: a shallow embedding of [without_ui_colors.py]

    The program keeps date-stamped events in a flat text file, one record
    ["YYYY-MM-DD | description"] per line, and offers four menu actions:
    display a month, add an event, view the events of a date, delete events.

    Conventions of the embedding.
    - A Python [str] is a Rocq [string]; a character is one of the code
      points U+0000..U+00FF.
    - The platform is Linux.  A file is its text: the events file is
      taken to hold text in the encoding of the locale, so that decoding
      does not fail (a file of other bytes, on which reading raises
      [UnicodeDecodeError], is outside the model).  Reading in text mode
      gives the line ends CR LF and CR as LF; writing stores the text as
      it is given.
    - The console input is the text typed; [input] takes one line of it,
      up to the next LF.
    - [strftime] writes the year as the C library does, without leading
      zeros.
    - [dateutil.parser.parse] is a third-party function: it is a parameter
      of the development ([parse]), returning a [datetime] or raising.
    - An exception is a value: a computation returns [Returns a] or
      [Raises e], and the effects performed before the raise are kept. *)

From Stdlib Require Import String Ascii List Bool Arith ZArith Lia.
Import ListNotations.
Open Scope list_scope.
Open Scope string_scope.

(** ** Python string primitives *)

Module PyStr.

Definition LF : ascii := ascii_of_nat 10.
Definition newline : string := String LF "".
Arguments LF : simpl never.

Definition CR : ascii := ascii_of_nat 13.
Arguments CR : simpl never.

(** [str.isspace] on one character, for the code points below 256. *)
Definition isspace (c : ascii) : bool :=
  let n := nat_of_ascii c in
  (((9 <=? n) && (n <=? 13)) || ((28 <=? n) && (n <=? 32))
   || (n =? 133) || (n =? 160))%nat.

Definition isdigit (c : ascii) : bool :=
  let n := nat_of_ascii c in ((48 <=? n) && (n <=? 57))%nat.

Fixpoint lstrip (s : string) : string :=
  match s with
  | "" => ""
  | String c s' => if isspace c then lstrip s' else s
  end.

Fixpoint rstrip (s : string) : string :=
  match s with
  | "" => ""
  | String c s' =>
      match rstrip s' with
      | "" => if isspace c then "" else String c ""
      | r => String c r
      end
  end.

(** [s.strip()] *)
Definition strip (s : string) : string := rstrip (lstrip s).

(** [s.startswith(p)] *)
Fixpoint startswith (s p : string) {struct p} : bool :=
  match p, s with
  | "", _ => true
  | String _ _, "" => false
  | String a p', String b s' => Ascii.eqb a b && startswith s' p'
  end.

(** [sub in s] *)
Fixpoint contains (sub s : string) : bool :=
  startswith s sub
  || match s with
     | "" => false
     | String _ s' => contains sub s'
     end.

Fixpoint drop (n : nat) (s : string) : string :=
  match n, s with
  | 0, _ => s
  | S _, "" => ""
  | S n', String _ s' => drop n' s'
  end.

(** The first occurrence of [sep] in [s]: the text before it and after it. *)
Fixpoint partition (sep s : string) : option (string * string) :=
  if startswith s sep then Some ("", drop (String.length sep) s)
  else match s with
       | "" => None
       | String c s' =>
           match partition sep s' with
           | Some (a, b) => Some (String c a, b)
           | None => None
           end
       end.

(** [s.split(sep, 1)] for a non-empty separator. *)
Definition split1 (s sep : string) : list string :=
  match partition sep s with
  | Some (a, b) => [a; b]
  | None => [s]
  end.

(** The text cut after every LF: the lines with their terminator; only
    the last one may lack it. *)
Fixpoint split_lines (s : string) : list string :=
  match s with
  | "" => []
  | String c s' =>
      if Ascii.eqb c LF then newline :: split_lines s'
      else match split_lines s' with
           | [] => [String c ""]
           | l :: ls => String c l :: ls
           end
  end.

(** What a file opened with [open(filename, 'r')] hands over of its
    text: the line ends CR LF and CR are given as LF. *)
Fixpoint universal_newlines (s : string) : string :=
  match s with
  | "" => ""
  | String c s' =>
      if Ascii.eqb c CR then
        match s' with
        | "" => newline
        | String c' _ =>
            if Ascii.eqb c' LF then universal_newlines s'
            else String LF (universal_newlines s')
        end
      else String c (universal_newlines s')
  end.

(** [f.readlines()] and [for line in f] on the text of a file. *)
Definition readlines (s : string) : list string :=
  split_lines (universal_newlines s).

(** The text written by [f.write(line)] for each line in turn. *)
Fixpoint join (ls : list string) : string :=
  match ls with
  | [] => ""
  | l :: ls' => l ++ join ls'
  end.

Fixpoint has_char (p : ascii -> bool) (s : string) : bool :=
  match s with
  | "" => false
  | String c s' => p c || has_char p s'
  end.

Definition has_newline (s : string) : bool :=
  has_char (fun c => Ascii.eqb c LF) s.

Definition has_blank (s : string) : bool :=
  has_char (fun c => Ascii.eqb c " ") s.

Definition has_cr (s : string) : bool :=
  has_char (fun c => Ascii.eqb c CR) s.

Definition all_digits (s : string) : bool :=
  negb (has_char (fun c => negb (isdigit c)) s).

(** No blank at the start, at the end; nothing but blanks. *)
Definition starts_nonspace (s : string) : bool :=
  match s with
  | "" => false
  | String c _ => negb (isspace c)
  end.

Fixpoint ends_nonspace (s : string) : bool :=
  match s with
  | "" => false
  | String c "" => negb (isspace c)
  | String _ s' => ends_nonspace s'
  end.

Definition all_space (s : string) : bool :=
  negb (has_char (fun c => negb (isspace c)) s).

(** The line up to its first LF, and what follows that LF. *)
Fixpoint break_line (s : string) : string * string :=
  match s with
  | "" => ("", "")
  | String c s' =>
      if Ascii.eqb c LF then ("", s')
      else let (l, r) := break_line s' in (String c l, r)
  end.

(** A line without its terminator. *)
Definition chomp (l : string) : string := fst (break_line l).

Fixpoint take (n : nat) (s : string) : string :=
  match n, s with
  | 0, _ => ""
  | S _, "" => ""
  | S n', String c s' => String c (take n' s')
  end.

(** The shape of what [readlines] returns: no line holds a CR, every line
    ends with LF and has no other, except that the last one may be a
    non-empty text without LF. *)
Inductive line_list : list string -> Prop :=
| line_list_nil : line_list []
| line_list_last (l : string) :
    l <> "" -> has_newline l = false -> has_cr l = false -> line_list [l]
| line_list_cons (b : string) (ls : list string) :
    has_newline b = false -> has_cr b = false -> line_list ls ->
    line_list ((b ++ newline) :: ls).

End PyStr.
Import PyStr.

(** ** Dates: the part of [datetime] that ["%Y-%m-%d"] shows *)

Module Datetime.

Definition isleap (y : Z) : bool :=
  ((y mod 4 =? 0) && (negb (y mod 100 =? 0) || (y mod 400 =? 0)))%Z.

Definition days_in_month (y m : Z) : Z :=
  match m with
  | 1 => 31 | 2 => if isleap y then 29 else 28 | 3 => 31 | 4 => 30
  | 5 => 31 | 6 => 30 | 7 => 31 | 8 => 31 | 9 => 30 | 10 => 31
  | 11 => 30 | 12 => 31 | _ => 0
  end%Z.

(** The range check of the [datetime] constructor (MINYEAR = 1,
    MAXYEAR = 9999). *)
Definition valid_date (y m d : Z) : bool :=
  ((1 <=? y) && (y <=? 9999) && (1 <=? m) && (m <=? 12)
   && (1 <=? d) && (d <=? days_in_month y m))%Z.

(** A [datetime] object exists only within range; the time of day plays no
    part in the program and is left out. *)
Record datetime : Type := {
  year : Z;
  month : Z;
  day : Z;
  in_range : valid_date year month day = true
}.

Definition digit (n : Z) : ascii := ascii_of_nat (Z.to_nat (48 + n mod 10)).

Definition pad2 (n : Z) : string :=
  String (digit (n / 10)) (String (digit n) "").

Definition pad4 (n : Z) : string :=
  String (digit (n / 1000)) (String (digit (n / 100))
    (String (digit (n / 10)) (String (digit n) ""))).

(** The canonical text of a date: four digits, two digits, two digits. *)
Definition iso_format (y m d : Z) : string :=
  pad4 y ++ "-" ++ pad2 m ++ "-" ++ pad2 d.

Fixpoint digits_of_pos (fuel : nat) (n : Z) (acc : string) : string :=
  match fuel with
  | O => acc
  | S fuel' =>
      let acc' := String (digit n) acc in
      if (n <? 10)%Z then acc' else digits_of_pos fuel' (n / 10)%Z acc'
  end.

(** [str(n)] for an integer: its decimal digits, after a minus sign when
    it is negative. *)
Definition str_of_int (n : Z) : string :=
  let fuel := S (Z.to_nat (Z.log2 (Z.abs n))) in
  if (n <? 0)%Z then String "-" (digits_of_pos fuel (- n)%Z "")
  else digits_of_pos fuel n "".

(** What [strftime] writes for a month and a day: a dash and two digits,
    twice. *)
Definition month_day_text (m d : Z) : string :=
  "-" ++ pad2 m ++ "-" ++ pad2 d.

(** [dt.strftime("%Y-%m-%d")] with the C library of Linux: the year is
    written as a plain number, 999 and not 0999. *)
Definition strftime_Ymd (dt : datetime) : string :=
  str_of_int (year dt) ++ month_day_text (month dt) (day dt).

Definition digit_value (c : ascii) : Z := Z.of_nat (nat_of_ascii c) - 48.

(** Reads a 10-character [YYYY-MM-DD] token as a year, month and day. *)
Definition read_iso (s : string) : option (Z * Z * Z) :=
  match s with
  | String y1 (String y2 (String y3 (String y4 (String h1
      (String m1 (String m2 (String h2 (String d1 (String d2 ""))))))))) =>
      if isdigit y1 && isdigit y2 && isdigit y3 && isdigit y4
         && Ascii.eqb h1 "-" && isdigit m1 && isdigit m2
         && Ascii.eqb h2 "-" && isdigit d1 && isdigit d2
      then Some (1000 * digit_value y1 + 100 * digit_value y2
                 + 10 * digit_value y3 + digit_value y4,
                 10 * digit_value m1 + digit_value m2,
                 10 * digit_value d1 + digit_value d2)%Z
      else None
  | _ => None
  end.

(** A valid calendar date written exactly as [YYYY-MM-DD]. *)
Definition is_iso_date (s : string) : bool :=
  match read_iso s with
  | Some (y, m, d) => valid_date y m d
  | None => false
  end.

End Datetime.
Import Datetime.

(** ** Exceptions, results and the world *)

Inductive exn : Type :=
| ValueError | ParserError | OverflowError | EOFError | IOError
| FileNotFoundError.

Definition exn_eqb (a b : exn) : bool :=
  match a, b with
  | ValueError, ValueError | ParserError, ParserError
  | OverflowError, OverflowError | EOFError, EOFError
  | IOError, IOError | FileNotFoundError, FileNotFoundError => true
  | _, _ => false
  end.

(** [isinstance(e, cls)]: [ParserError] derives from [ValueError], and
    [FileNotFoundError] from [IOError] (an alias of [OSError]). *)
Definition isinstance (e cls : exn) : bool :=
  match e, cls with
  | ParserError, ValueError => true
  | FileNotFoundError, IOError => true
  | _, _ => exn_eqb e cls
  end.

Inductive res (A : Type) : Type :=
| Returns (a : A)
| Raises (e : exn).
Arguments Returns {A} a.
Arguments Raises {A} e.

(** The console and the events file.  [file = None] when the file does not
    exist. *)
Record world : Type := {
  stdin : string;
  stdout : list string;
  file : option string
}.

Definition io (A : Type) : Type := world -> res A * world.

Definition ret {A} (a : A) : io A := fun w => (Returns a, w).

Definition bind {A B} (m : io A) (k : A -> io B) : io B :=
  fun w => match m w with
           | (Returns a, w') => k a w'
           | (Raises e, w') => (Raises e, w')
           end.

Definition raise {A} (e : exn) : io A := fun w => (Raises e, w).

Definition lift {A} (r : res A) : io A := fun w => (r, w).

Notation "x <- m ;; k" := (bind m (fun x => k))
  (at level 61, m at next level, right associativity).
Notation "m ;;; k" := (bind m (fun _ => k))
  (at level 61, right associativity).

(** [try: body except cls as e: handler e] *)
Definition try_except {A} (body : io A) (cls : exn) (handler : exn -> io A)
  : io A :=
  fun w => match body w with
           | (Raises e, w') =>
               if isinstance e cls then handler e w' else (Raises e, w')
           | r => r
           end.

Definition write_out (s : string) : io unit :=
  fun w => (Returns tt,
            {| stdin := stdin w; stdout := (stdout w ++ [s])%list;
               file := file w |}).

(** [print(s)] and [print(s, end=" ")] *)
Definition print (s : string) : io unit := write_out (s ++ newline).
Definition print_end_space (s : string) : io unit := write_out (s ++ " ").

(** [input(prompt)]: shows the prompt and reads one line, without its
    terminator; at the end of the input it raises [EOFError]. *)
Definition input (prompt : string) : io string :=
  fun w =>
    let out := (stdout w ++ [prompt])%list in
    match stdin w with
    | "" => (Raises EOFError, {| stdin := ""; stdout := out; file := file w |})
    | s => let (l, r) := break_line s in
           (Returns l, {| stdin := r; stdout := out; file := file w |})
    end.

(** [open(filename, 'r')] followed by reading the whole text. *)
Definition read_file : io string :=
  fun w => match file w with
           | Some c => (Returns c, w)
           | None => (Raises FileNotFoundError, w)
           end.

(** [open(filename, 'w')]: the file is created or emptied. *)
Definition open_truncate : io unit :=
  fun w => (Returns tt,
            {| stdin := stdin w; stdout := stdout w; file := Some "" |}).

(** [f.write(text)] on a file opened with ['w'] or ['a']: the text goes to
    the end; opening with ['a'] creates a missing file. *)
Definition f_write (text : string) : io unit :=
  fun w => (Returns tt,
            {| stdin := stdin w; stdout := stdout w;
               file := Some (match file w with
                             | Some c => c ++ text
                             | None => text
                             end) |}).

(** ** The pieces of the Python library that the program calls *)

Module PyLib.

Local Open Scope Z_scope.

Fixpoint digits_value (acc : Z) (after_digit : bool) (s : string)
  : option Z :=
  match s with
  | "" => if after_digit then Some acc else None
  | String c s' =>
      if isdigit c then digits_value (10 * acc + digit_value c) true s'
      else if Ascii.eqb c "_" && after_digit then digits_value acc false s'
      else None
  end%string.

Fixpoint count_digits (s : string) : nat :=
  match s with
  | "" => O
  | String c s' => if isdigit c then S (count_digits s') else count_digits s'
  end%string.

(** [sys.int_info.default_max_str_digits] *)
Definition max_str_digits : nat := 4300.

(** [int(s)] on a string: surrounding whitespace, an optional sign, decimal
    digits with single underscores between them, and no more digits than
    the interpreter converts; otherwise [ValueError]. *)
Definition py_int (s : string) : res Z :=
  let body := strip s in
  let parsed :=
    match body with
    | String "+" r => digits_value 0 false r
    | String "-" r => option_map Z.opp (digits_value 0 false r)
    | _ => digits_value 0 false body
    end%string in
  match parsed with
  | Some z =>
      if (count_digits body <=? max_str_digits)%nat then Returns z
      else Raises ValueError
  | None => Raises ValueError
  end.

Definition quote : ascii := "'".
Definition double_quote : ascii := ascii_of_nat 34.
Definition backslash : ascii := ascii_of_nat 92.

Definition hex_digit (n : nat) : ascii :=
  match String.get n "0123456789abcdef" with
  | Some c => c
  | None => "0"%char
  end.

(** [str.isprintable] on one character, for the code points below 256. *)
Definition isprintable (c : ascii) : bool :=
  let n := nat_of_ascii c in
  (((32 <=? n) && (n <? 127)) || ((161 <=? n) && negb (n =? 173)))%nat.

Definition repr_char (q c : ascii) : string :=
  let n := nat_of_ascii c in
  if Ascii.eqb c q || Ascii.eqb c backslash
  then String backslash (String c "")
  else if (n =? 9)%nat then String backslash "t"
  else if (n =? 10)%nat then String backslash "n"
  else if (n =? 13)%nat then String backslash "r"
  else if isprintable c then String c ""
  else String backslash
         (String "x" (String (hex_digit (n / 16))
                        (String (hex_digit (n mod 16)) ""))).

Fixpoint repr_chars (q : ascii) (s : string) : string :=
  match s with
  | "" => ""
  | String c s' => (repr_char q c ++ repr_chars q s')%string
  end%string.

(** [repr(s)] of a string: between single quotes, or between double quotes
    when it holds a single quote and no double quote. *)
Definition py_repr (s : string) : string :=
  let q := if has_char (Ascii.eqb quote) s
              && negb (has_char (Ascii.eqb double_quote) s)
           then double_quote else quote in
  String q (repr_chars q s ++ String q "")%string.

(** [f"{day:2d}"]: right-aligned in two columns. *)
Definition format_2d (n : Z) : string :=
  let s := str_of_int n in
  if (String.length s <? 2)%nat then (" " ++ s)%string else s.

(** [calendar.month_name[month]] in the English locale. *)
Definition month_name (m : Z) : string :=
  match m with
  | 1 => "January" | 2 => "February" | 3 => "March" | 4 => "April"
  | 5 => "May" | 6 => "June" | 7 => "July" | 8 => "August"
  | 9 => "September" | 10 => "October" | 11 => "November"
  | 12 => "December" | _ => ""
  end%string.

Definition days_before_year (y : Z) : Z :=
  let y1 := y - 1 in y1 * 365 + y1 / 4 - y1 / 100 + y1 / 400.

Fixpoint days_before_month (y : Z) (m : nat) : Z :=
  match m with
  | O => 0
  | S m' => days_before_month y m' + days_in_month y (Z.of_nat m')
  end.

(** [calendar.weekday(year, month, day)]: 0 is Monday.  A year outside
    [1, 9999] is replaced by one of the same 400-year cycle. *)
Definition weekday (y m d : Z) : Z :=
  let y' := if (1 <=? y) && (y <=? 9999) then y else 2000 + y mod 400 in
  (days_before_year y' + days_before_month y' (Z.to_nat m) + d + 6) mod 7.

Fixpoint chunks7 (fuel : nat) (days : list Z) : list (list Z) :=
  match fuel, days with
  | O, _ | _, [] => []
  | S fuel', _ => firstn 7 days :: chunks7 fuel' (skipn 7 days)
  end.

(** [calendar.monthcalendar(year, month)] for a month in [1, 12], weeks
    starting on Monday, the days outside the month being 0. *)
Definition monthcalendar (y m : Z) : list (list Z) :=
  let day1 := weekday y m 1 in
  let ndays := days_in_month y m in
  let days_before := Z.to_nat (day1 mod 7) in
  let days_after := Z.to_nat ((- day1 - ndays) mod 7) in
  let days := (repeat 0 days_before
               ++ map Z.of_nat (seq 1 (Z.to_nat ndays))
               ++ repeat 0 days_after)%list in
  chunks7 (List.length days) days.

End PyLib.
Import PyLib.

(** ** The class [CalendarManager] *)

Section CalendarManager.

(** [parser.parse(date_str, fuzzy=False)] of dateutil. *)
Variable parse : string -> res datetime.

(** [self.filename] *)
Variable filename : string.

(** [str(e)] for the I/O error that the model can raise: the file name
    is shown as [repr] gives it. *)
Definition str_exn (e : exn) : string :=
  match e with
  | FileNotFoundError =>
      "[Errno 2] No such file or directory: " ++ py_repr filename
  | _ => ""
  end.

(** [__init__]: the file is created empty when it does not exist. *)
Definition init : io unit :=
  fun w => match file w with
           | None => open_truncate w
           | Some _ => (Returns tt, w)
           end.

Definition validate_date (date_str : string) : res bool :=
  match parse date_str with
  | Returns parsed_date => Returns (strftime_Ymd parsed_date =? date_str)
  | Raises e => if isinstance e ValueError then Returns false else Raises e
  end.

Definition invalid_date_message : string :=
  "Invalid date format. Please use YYYY-MM-DD (e.g., 2025-05-20)".

(** The [while True] loop of [get_valid_date].  Every turn reads a line of
    the input or stops at its end, so that a bound on the number of turns
    is known beforehand; the turn without fuel is never reached (lemma
    [get_valid_date_loop_fuel]). *)
Fixpoint get_valid_date_loop (fuel : nat) (prompt : string) : io string :=
  match fuel with
  | O => raise EOFError
  | S fuel' =>
      raw <- input prompt ;;
      let date_str := strip raw in
      ok <- lift (validate_date date_str) ;;
      if ok : bool then ret date_str
      else print invalid_date_message ;;; get_valid_date_loop fuel' prompt
  end.

Definition get_valid_date (prompt : string) : io string :=
  fun w => get_valid_date_loop (S (String.length (stdin w))) prompt w.

Fixpoint print_week (week : list Z) : io unit :=
  match week with
  | [] => ret tt
  | d :: rest =>
      (if (d =? 0)%Z then print_end_space "  "
       else print_end_space (format_2d d)) ;;;
      print_week rest
  end.

Fixpoint print_weeks (cal : list (list Z)) : io unit :=
  match cal with
  | [] => ret tt
  | week :: rest => print_week week ;;; print "" ;;; print_weeks rest
  end.

Definition invalid_month_message : string :=
  "Invalid month. Please enter a number between 1 and 12.".

Definition display_calendar : io unit :=
  try_except
    (ytext <- input "Enter year (e.g., 2025): " ;;
     year <- lift (py_int (strip ytext)) ;;
     mtext <- input "Enter month (1-12): " ;;
     month <- lift (py_int (strip mtext)) ;;
     if ((month <? 1) || (month >? 12))%Z then print invalid_month_message
     else
       print (newline ++ month_name month ++ " " ++ str_of_int year) ;;;
       print "Mo Tu We Th Fr Sa Su" ;;;
       print_weeks (monthcalendar year month))
    ValueError
    (fun _ =>
       print "Invalid input. Please enter numeric values for year and month.").

(** The record written for an event. *)
Definition event_line (date_str description : string) : string :=
  date_str ++ " | " ++ description ++ newline.

Definition added_message (date_str : string) : string :=
  "Event added successfully for " ++ date_str ++ "!".

(** Lines 77-82: the event is appended to the file. *)
Definition append_event (date_str description : string) : io unit :=
  try_except
    (f_write (event_line date_str description) ;;;
     print (added_message date_str))
    IOError
    (fun e =>
       print ("Error writing to file: " ++ str_exn e ++ ". Please try again.")).

Definition empty_description_message : string :=
  "Event description cannot be empty.".

Definition add_event : io unit :=
  date_str <- get_valid_date "Enter event date (YYYY-MM-DD): " ;;
  raw <- input "Enter event description: " ;;
  let description := strip raw in
  if description =? "" then print empty_description_message
  else append_event date_str description.

(** The unpacking [_, description = parts]. *)
Definition unpack2 (parts : list string) : res (string * string) :=
  match parts with
  | [a; b] => Returns (a, b)
  | _ => Raises ValueError
  end.

(** Lines 93-97: the loop over the lines of the file. *)
Fixpoint view_loop (date_str : string) (lines : list string)
    (events_found : bool) : io bool :=
  match lines with
  | [] => ret events_found
  | line :: rest =>
      if startswith line date_str then
        p <- lift (unpack2 (split1 (strip line) " | ")) ;;
        print ("- " ++ snd p) ;;;
        view_loop date_str rest true
      else view_loop date_str rest events_found
  end.

Definition rule40 : string := "----------------------------------------".

Definition no_events_message : string := "No events found for this date.".

(** Lines 89-101: the events of a date are listed. *)
Definition find_events (date_str : string) : io unit :=
  try_except
    (content <- read_file ;;
     print (newline ++ "Events for " ++ date_str ++ ":") ;;;
     print rule40 ;;;
     events_found <- view_loop date_str (readlines content) false ;;
     if negb events_found then print no_events_message else ret tt)
    IOError
    (fun e =>
       print ("Error reading from file: " ++ str_exn e
              ++ ". Please try again.")).

Definition view_events : io unit :=
  date_str <- get_valid_date "Enter date to view events (YYYY-MM-DD): " ;;
  find_events date_str.

(** The test of line 122. *)
Definition matches (date_str description line : string) : bool :=
  startswith line date_str && contains description line.

(** Lines 121-125: the loop that writes back the lines that stay. *)
Fixpoint rewrite_loop (date_str description : string) (events : list string)
    (event_found : bool) : io bool :=
  match events with
  | [] => ret event_found
  | line :: rest =>
      if negb (matches date_str description line) then
        f_write line ;;; rewrite_loop date_str description rest event_found
      else rewrite_loop date_str description rest true
  end.

Definition deleted_message (date_str : string) : string :=
  "Event deleted successfully for " ++ date_str ++ "!".

Definition no_match_message : string :=
  "No matching event found with the provided date and description.".

(** Lines 112-132: the file is read, then written again without the
    matching lines. *)
Definition delete_matching (date_str description : string) : io unit :=
  try_except
    (content <- read_file ;;
     let events := readlines content in
     open_truncate ;;;
     event_found <- rewrite_loop date_str description events false ;;
     if event_found : bool then print (deleted_message date_str)
     else print no_match_message)
    IOError
    (fun e =>
       print ("Error accessing file: " ++ str_exn e ++ ". Please try again.")).

Definition delete_event : io unit :=
  date_str <- get_valid_date "Enter event date (YYYY-MM-DD): " ;;
  raw <- input "Enter event description to delete: " ;;
  let description := strip raw in
  if description =? "" then print empty_description_message
  else delete_matching date_str description.

Definition display_menu : io unit :=
  print (newline ++ "=== Personal Calendar Manager ===") ;;;
  print "1. Display Calendar" ;;;
  print "2. Add Event" ;;;
  print "3. View Events" ;;;
  print "4. Delete Event" ;;;
  print "5. Exit" ;;;
  print "================================".

Definition goodbye_message : string :=
  "Thank you for using Personal Calendar Manager. Goodbye!".

Definition invalid_choice_message : string :=
  "Invalid choice. Please select a number between 1 and 5.".

(** The [while True] loop of [run].  Every turn reads the choice, so a
    bound on the number of turns is known beforehand; the turn without
    fuel is never reached (lemma [run_loop_fuel]). *)
Fixpoint run_loop (fuel : nat) : io unit :=
  match fuel with
  | O => raise EOFError
  | S fuel' =>
      display_menu ;;;
      raw <- input "Enter your choice (1-5): " ;;
      let choice := strip raw in
      if choice =? "1" then display_calendar ;;; run_loop fuel'
      else if choice =? "2" then add_event ;;; run_loop fuel'
      else if choice =? "3" then view_events ;;; run_loop fuel'
      else if choice =? "4" then delete_event ;;; run_loop fuel'
      else if choice =? "5" then print goodbye_message
      else print invalid_choice_message ;;; run_loop fuel'
  end.

Definition run : io unit :=
  fun w => run_loop (S (String.length (stdin w))) w.

End CalendarManager.

Definition welcome_message : string :=
  "Welcome to Personal Calendar Manager!".

(** [main]: the manager is made with the default file name. *)
Definition main (parse : string -> res datetime) : io unit :=
  print welcome_message ;;; init ;;; run parse "events.txt".


(** ** The record format *)

Section RecordFormat.

(** The world after some texts have been shown. *)
Definition printed (w : world) (texts : list string) : world :=
  {| stdin := stdin w; stdout := (stdout w ++ texts)%list; file := file w |}.

(** The world with another content in the file. *)
Definition with_file (w : world) (content : string) : world :=
  {| stdin := stdin w; stdout := stdout w; file := Some content |}.

(** A line that [delete_event] writes back. *)
Definition kept (date_str description line : string) : bool :=
  negb (matches date_str description line).

(** The number of lines that [delete_event] leaves out. *)
Definition removed_count (date_str description content : string) : nat :=
  List.length (filter (matches date_str description) (readlines content)).

(** A computation that leaves the file as it is, whatever it returns. *)
Definition keeps_file {A} (m : io A) : Prop :=
  forall w, file (snd (m w)) = file w.

(** A record without its terminator: a valid date in ten characters, the
    delimiter, a non-empty description. *)
Definition record_body (body : string) : bool :=
  is_iso_date (take 10 body) && startswith (drop 10 body) " | "
  && negb (drop 13 body =? "").

Definition line_ok (line : string) : bool := record_body (chomp line).

Definition file_ok (content : string) : bool :=
  forallb line_ok (readlines content).

(** The invariant of the store: every line of the file, when there is a
    file, is a record. *)
Definition store_ok (w : world) : bool :=
  match file w with
  | Some content => file_ok content
  | None => true
  end.

(** What [add_event] hands over as a description: a stripped, non-empty
    line of input. *)
Definition stored_description (description : string) : bool :=
  starts_nonspace description && ends_nonspace description
  && negb (has_newline description).

(** The file after the events have been appended one after the other. *)
Definition appended (content : string) (events : list (string * string))
  : string :=
  fold_left (fun c e => c ++ event_line (fst e) (snd e)) events content.

(** The same appends performed by the program, as in lines 77-82. *)
Fixpoint append_events (filename : string) (events : list (string * string))
  : io unit :=
  match events with
  | [] => ret tt
  | e :: rest =>
      append_event filename (fst e) (snd e) ;;; append_events filename rest
  end.

(** What the program knows of an event when it writes it: a validated
    date and a description as [add_event] hands it over. *)
Definition recorded (parse : string -> res datetime) (e : string * string)
  : Prop :=
  validate_date parse (fst e) = Returns true
  /\ stored_description (snd e) = true.

(** An event whose description holds no carriage return. *)
Definition plain (parse : string -> res datetime) (e : string * string)
  : Prop :=
  recorded parse e /\ has_cr (snd e) = false.

(** The line shown for a description. *)
Definition bullet (description : string) : string :=
  "- " ++ description ++ newline.

(** The two lines shown above the events of a date. *)
Definition listing_header (date_str : string) : list string :=
  [(newline ++ "Events for " ++ date_str ++ ":") ++ newline;
   rule40 ++ newline].

(** The descriptions recorded under a date, in order. *)
Definition descriptions_of (date_str : string)
    (events : list (string * string)) : list string :=
  map snd (filter (fun e => fst e =? date_str) events).

(** A computation whose final world is related to its first one. *)
Definition preserves {A} (R : world -> world -> Prop) (m : io A) : Prop :=
  forall w, R w (snd (m w)).

(** Input is taken from the front and nothing is put back. *)
Definition reads_forward (w w1 : world) : Prop :=
  String.length (stdin w1) <= String.length (stdin w).

(** A file that exists still exists. *)
Definition file_stays (w w1 : world) : Prop :=
  file w <> None -> file w1 <> None.

(** The file is what it was. *)
Definition same_file (w w1 : world) : Prop := file w1 = file w.

(** What was shown stays shown; more may follow. *)
Definition output_grows (w w1 : world) : Prop :=
  exists out, stdout w1 = (stdout w ++ out)%list.

(** The seven lines of the menu. *)
Definition menu_lines : list string :=
  [(newline ++ "=== Personal Calendar Manager ===") ++ newline;
   "1. Display Calendar" ++ newline;
   "2. Add Event" ++ newline;
   "3. View Events" ++ newline;
   "4. Delete Event" ++ newline;
   "5. Exit" ++ newline;
   "================================" ++ newline].

(** The world when the menu has been shown and the choice is awaited. *)
Definition at_menu (w : world) : world := printed w menu_lines.

(** The lines typed at the console, without their terminators. *)
Definition typed_lines (text : string) : list string :=
  map chomp (split_lines text).

(** What [display_calendar] writes for a day, for a week and for the
    month. *)
Definition cell (d : Z) : string :=
  (if (d =? 0)%Z then "  " else format_2d d) ++ " ".

Definition week_row (week : list Z) : list string :=
  (map cell week ++ [newline])%list.

Definition grid (cal : list (list Z)) : list string :=
  flat_map week_row cal.

Definition calendar_title (year month : Z) : string :=
  (newline ++ month_name month ++ " " ++ str_of_int year) ++ newline.

Definition weekday_row : string := "Mo Tu We Th Fr Sa Su" ++ newline.

Definition numeric_input_message : string :=
  "Invalid input. Please enter numeric values for year and month.".

(** What the loop of [view_events] shows for the lines of a file, and what
    it returns or raises, as a function of the lines alone. *)
Fixpoint listing (date_str : string) (lines : list string)
    (events_found : bool) : list string * res bool :=
  match lines with
  | [] => ([], Returns events_found)
  | line :: rest =>
      if startswith line date_str then
        match unpack2 (split1 (strip line) " | ") with
        | Returns p =>
            let (out, r) := listing date_str rest true in
            (bullet (snd p) :: out, r)
        | Raises e => ([], Raises e)
        end
      else listing date_str rest events_found
  end.

(** What [view_events] answers about a date, as a function of the file:
    the result and the texts shown. *)
Definition find_report (filename date_str : string) (f : option string)
  : res unit * list string :=
  match f with
  | None =>
      (Returns tt,
       [("Error reading from file: " ++ str_exn filename FileNotFoundError
         ++ ". Please try again.") ++ newline])
  | Some content =>
      match listing date_str (readlines content) false with
      | (out, Returns found) =>
          (Returns tt,
           (listing_header date_str ++ out
            ++ if found then []
               else [(no_events_message ++ newline)%string])%list)
      | (out, Raises e) => (Raises e, (listing_header date_str ++ out)%list)
      end
  end.

(** A text that is empty or ends with LF. *)
Fixpoint ends_with_newline (s : string) : bool :=
  match s with
  | "" => true
  | String c "" => Ascii.eqb c LF
  | String _ s' => ends_with_newline s'
  end.

End RecordFormat.

(** ** A small permissive parser

    It stands for dateutil on the inputs of the examples: numbers joined by
    dashes are a year, a month and a day, whatever their widths, and an
    impossible date raises [ParserError]; a bare number too large for a C
    integer raises [OverflowError], as the documentation of
    [dateutil.parser.parse] says. *)

Module Sample.

Fixpoint split_dash (s : string) : list string :=
  match s with
  | "" => [""]
  | String c s' =>
      if Ascii.eqb c "-" then "" :: split_dash s'
      else match split_dash s' with
           | [] => [String c ""]
           | t :: ts => String c t :: ts
           end
  end.

Fixpoint number (acc : Z) (s : string) : option Z :=
  match s with
  | "" => Some acc
  | String c s' =>
      if isdigit c then number (10 * acc + digit_value c)%Z s' else None
  end.

Definition numeral (s : string) : option Z :=
  match s with
  | "" => None
  | _ => number 0 s
  end.

Definition make_datetime (y m d : Z) : res datetime :=
  match valid_date y m d as b return valid_date y m d = b -> res datetime with
  | true => fun H =>
      Returns {| year := y; month := m; day := d; in_range := H |}
  | false => fun _ => Raises ParserError
  end eq_refl.

Definition parse (s : string) : res datetime :=
  match map numeral (split_dash s) with
  | [Some y; Some m; Some d] => make_datetime y m d
  | [Some n] =>
      if (n >? 2147483647)%Z then Raises OverflowError
      else Raises ParserError
  | _ => Raises ParserError
  end.

Definition filename : string := "events.txt".

Definition console (text : string) (content : option string) : world :=
  {| stdin := text; stdout := []; file := content |}.

(** What a user types, line by line. *)
Definition typed (lines : list string) : string :=
  join (map (fun l => l ++ newline) lines).

Definition two_events : list (string * string) :=
  [("2025-05-20", "Team meeting"); ("2025-05-20", "Dentist")].

End Sample.
(** ** Facts about the string primitives *)

Section StringFacts.

Lemma app_empty_r (s : string) : s ++ "" = s.
Proof. induction s as [|c s IH]; simpl; [reflexivity | now rewrite IH]. Qed.

Lemma app_assoc (a b c : string) : (a ++ b) ++ c = a ++ b ++ c.
Proof. induction a as [|x a IH]; simpl; [reflexivity | now rewrite IH]. Qed.

Lemma length_app (a b : string) :
  String.length (a ++ b) = String.length a + String.length b.
Proof. induction a as [|x a IH]; simpl; [reflexivity | now rewrite IH]. Qed.

Lemma startswith_app (p r : string) : startswith (p ++ r) p = true.
Proof.
  induction p as [|c p IH]; simpl; [reflexivity|].
  now rewrite Ascii.eqb_refl, IH.
Qed.

Lemma startswith_inv (s p : string) :
  startswith s p = true -> s = p ++ drop (String.length p) s.
Proof.
  revert s; induction p as [|c p IH]; intros s H; simpl in *.
  - reflexivity.
  - destruct s as [|b s]; [discriminate|].
    apply andb_true_iff in H as [Hc Hs].
    apply Ascii.eqb_eq in Hc; subst b.
    now rewrite <- (IH s Hs).
Qed.

Lemma startswith_weaken (s p t : string) :
  startswith s p = true -> startswith (s ++ t) p = true.
Proof.
  intros H. rewrite (startswith_inv _ _ H), app_assoc.
  apply startswith_app.
Qed.

Lemma drop_app (p r : string) : drop (String.length p) (p ++ r) = r.
Proof. induction p as [|c p IH]; simpl; [reflexivity | exact IH]. Qed.

(** A prefix as long as the first field is that field. *)
Lemma startswith_same_length (d p r : string) :
  String.length d = String.length p ->
  startswith (d ++ r) p = (d =? p).
Proof.
  revert p; induction d as [|c d IH]; intros [|b p] Hlen;
    simpl in *; try discriminate; try reflexivity.
  injection Hlen as Hlen. rewrite (IH p Hlen).
  rewrite (Ascii.eqb_sym b c). reflexivity.
Qed.

Lemma has_char_app (p : ascii -> bool) (a b : string) :
  has_char p (a ++ b) = has_char p a || has_char p b.
Proof.
  induction a as [|c a IH]; simpl; [reflexivity|].
  now rewrite IH, orb_assoc.
Qed.

Lemma contains_app_l (sub a t : string) :
  contains sub a = true -> contains sub (a ++ t) = true.
Proof.
  induction a as [|c a IH]; simpl; intros H.
  - rewrite orb_false_r in H. destruct sub; [|discriminate].
    destruct t; reflexivity.
  - apply orb_true_iff in H as [H|H].
    + change (String c (a ++ t)) with (String c a ++ t).
      now rewrite (startswith_weaken _ _ t H).
    + rewrite (IH H). apply orb_true_r.
Qed.

Lemma contains_app_r (sub a t : string) :
  contains sub t = true -> contains sub (a ++ t) = true.
Proof.
  intros H. induction a as [|c a IH]; simpl; [exact H|].
  rewrite IH. apply orb_true_r.
Qed.

Lemma partition_none (sep s : string) :
  contains sep s = false -> partition sep s = None.
Proof.
  induction s as [|c s IH]; simpl; intros H;
    apply orb_false_iff in H as [H1 H2]; rewrite H1.
  - reflexivity.
  - now rewrite (IH H2).
Qed.

Lemma partition_some (sep s a b : string) :
  partition sep s = Some (a, b) -> s = a ++ sep ++ b.
Proof.
  revert a; induction s as [|c s IH]; intros a; simpl.
  - destruct (startswith "" sep) eqn:E; [|discriminate].
    intros [= <- <-]. apply (startswith_inv _ _ E).
  - destruct (startswith (String c s) sep) eqn:E.
    + intros [= <- <-]. apply (startswith_inv _ _ E).
    + destruct (partition sep s) as [[a' b']|]; [|discriminate].
      intros [= <- <-]. simpl. now rewrite <- (IH a' eq_refl).
Qed.

(** The separator is found right after a field that has no blank. *)
Lemma partition_first_field (d r : string) :
  has_blank d = false ->
  partition " | " (d ++ " | " ++ r) = Some (d, r).
Proof.
  unfold has_blank. induction d as [|c d IH]; intros H.
  - reflexivity.
  - simpl in H. apply orb_false_iff in H as [Hc Hd].
    rewrite Ascii.eqb_sym in Hc. specialize (IH Hd).
    cbn [append partition startswith] in *.
    rewrite Hc. cbn [andb]. now rewrite IH.
Qed.

End StringFacts.

(** ** Stripping *)

Section StripFacts.

Lemma lstrip_id (s : string) : starts_nonspace s = true -> lstrip s = s.
Proof.
  destruct s as [|c s]; simpl; [reflexivity|].
  now destruct (isspace c).
Qed.

Lemma ends_nonspace_cons (c : ascii) (s : string) :
  ends_nonspace s = true -> ends_nonspace (String c s) = true.
Proof. destruct s; simpl; [discriminate | trivial]. Qed.

Lemma rstrip_id (s : string) : ends_nonspace s = true -> rstrip s = s.
Proof.
  induction s as [|c s IH]; [reflexivity|].
  intros H. simpl in H. destruct s as [|b s].
  - simpl. now destruct (isspace c).
  - change (rstrip (String c (String b s)))
      with (match rstrip (String b s) with
            | "" => if isspace c then "" else String c ""
            | r => String c r
            end).
    now rewrite (IH H).
Qed.

Lemma ends_nonspace_app (a b : string) :
  ends_nonspace b = true -> ends_nonspace (a ++ b) = true.
Proof.
  intros H. induction a as [|c a IH]; simpl; [exact H|].
  destruct (a ++ b) eqn:E; [discriminate | exact IH].
Qed.

Lemma lstrip_starts (s : string) :
  lstrip s = "" \/ starts_nonspace (lstrip s) = true.
Proof.
  induction s as [|c s IH]; simpl; [now left|].
  destruct (isspace c) eqn:E; [exact IH|].
  right. simpl. now rewrite E.
Qed.

Lemma rstrip_ends (s : string) :
  rstrip s = "" \/ ends_nonspace (rstrip s) = true.
Proof.
  induction s as [|c s IH]; simpl; [now left|].
  destruct (rstrip s) as [|b r] eqn:E.
  - destruct (isspace c) eqn:Ec; [now left|].
    right. simpl. now rewrite Ec.
  - right. destruct IH as [IH|IH]; [discriminate|].
    now apply ends_nonspace_cons.
Qed.

Lemma rstrip_starts (s : string) :
  starts_nonspace s = true -> starts_nonspace (rstrip s) = true.
Proof.
  destruct s as [|c s]; simpl; [discriminate|].
  intros H. destruct (rstrip s); [|exact H].
  apply negb_true_iff in H. rewrite H. simpl. now rewrite H.
Qed.

Lemma rstrip_nonempty (s : string) :
  starts_nonspace s = true -> rstrip s <> "".
Proof.
  intros H E. apply rstrip_starts in H. now rewrite E in H.
Qed.

(** What [strip] returns has no blank at either end. *)
Lemma strip_shape (s : string) :
  strip s = ""
  \/ (starts_nonspace (strip s) = true /\ ends_nonspace (strip s) = true).
Proof.
  unfold strip. destruct (lstrip_starts s) as [E|E].
  - left. now rewrite E.
  - right. split; [now apply rstrip_starts|].
    destruct (rstrip_ends (lstrip s)) as [F|F]; [|exact F].
    now apply rstrip_nonempty in E.
Qed.

Lemma lstrip_all_space (a b : string) :
  all_space a = true -> lstrip (a ++ b) = lstrip b.
Proof.
  unfold all_space. induction a as [|c a IH]; simpl; [reflexivity|].
  intros H. apply negb_true_iff, orb_false_iff in H as [Hc Ha].
  apply negb_false_iff in Hc. rewrite Hc.
  apply IH. now rewrite Ha.
Qed.

Lemma rstrip_all_space_only (a : string) :
  all_space a = true -> rstrip a = "".
Proof.
  unfold all_space. induction a as [|c a IH]; simpl; [reflexivity|].
  intros H. apply negb_true_iff, orb_false_iff in H as [Hc Ha].
  apply negb_false_iff in Hc. rewrite IH, Hc; [reflexivity | now rewrite Ha].
Qed.

Lemma rstrip_all_space (a b : string) :
  all_space b = true -> rstrip (a ++ b) = rstrip a.
Proof.
  intros H. induction a as [|c a IH]; simpl.
  - now apply rstrip_all_space_only.
  - now rewrite IH.
Qed.

Lemma strip_all_space (s : string) : all_space s = true -> strip s = "".
Proof.
  intros H. unfold strip.
  rewrite <- (app_empty_r s), (lstrip_all_space _ "" H). reflexivity.
Qed.

(** Blanks around a token that has none at its ends are removed, and
    nothing else. *)
Lemma strip_padded (pre tok post : string) :
  all_space pre = true -> all_space post = true ->
  starts_nonspace tok = true -> ends_nonspace tok = true ->
  strip (pre ++ tok ++ post) = tok.
Proof.
  intros Hpre Hpost Hs He. unfold strip.
  rewrite (lstrip_all_space _ _ Hpre).
  rewrite lstrip_id.
  - rewrite (rstrip_all_space _ _ Hpost). now apply rstrip_id.
  - destruct tok; [discriminate | exact Hs].
Qed.

Lemma has_char_lstrip (p : ascii -> bool) (s : string) :
  has_char p s = false -> has_char p (lstrip s) = false.
Proof.
  induction s as [|c s IH]; simpl; [trivial|].
  intros H. destruct (isspace c); [|exact H].
  apply orb_false_iff in H as [_ H]. now apply IH.
Qed.

Lemma has_char_rstrip (p : ascii -> bool) (s : string) :
  has_char p s = false -> has_char p (rstrip s) = false.
Proof.
  induction s as [|c s IH]; simpl; [trivial|].
  intros H. apply orb_false_iff in H as [Hc Hs]. specialize (IH Hs).
  destruct (rstrip s) as [|b r].
  - destruct (isspace c); simpl; [reflexivity | now rewrite Hc].
  - simpl in *. now rewrite Hc, IH.
Qed.

Lemma has_char_strip (p : ascii -> bool) (s : string) :
  has_char p s = false -> has_char p (strip s) = false.
Proof. intros H. now apply has_char_rstrip, has_char_lstrip. Qed.

Lemma lstrip_suffix (s : string) : exists a, s = a ++ lstrip s.
Proof.
  induction s as [|c s [a IH]]; simpl; [now exists ""|].
  destruct (isspace c).
  - exists (String c a). simpl. now rewrite <- IH.
  - now exists "".
Qed.

Lemma rstrip_prefix (s : string) : exists t, s = rstrip s ++ t.
Proof.
  induction s as [|c s [t IH]]; simpl; [now exists ""|].
  destruct (rstrip s) as [|b r].
  - destruct (isspace c).
    + exists (String c s). reflexivity.
    + exists s. reflexivity.
  - exists t. simpl in *. now rewrite <- IH.
Qed.

(** A text absent from a line is absent from the stripped line. *)
Lemma contains_strip (sub s : string) :
  contains sub s = false -> contains sub (strip s) = false.
Proof.
  intros H. destruct (contains sub (strip s)) eqn:E; [|reflexivity].
  unfold strip in E.
  destruct (rstrip_prefix (lstrip s)) as [t Ht].
  destruct (lstrip_suffix s) as [a Ha].
  apply (contains_app_l _ _ t) in E. rewrite <- Ht in E.
  apply (contains_app_r _ a) in E. rewrite <- Ha in E.
  congruence.
Qed.

End StripFacts.

(** ** Lines *)

Section LineFacts.

Lemma take_drop (n : nat) (s : string) : take n s ++ drop n s = s.
Proof.
  revert s; induction n as [|n IH]; intros [|c s]; simpl;
    try reflexivity. now rewrite IH.
Qed.

Lemma take_app (d r : string) : take (String.length d) (d ++ r) = d.
Proof. induction d as [|c d IH]; simpl; [now destruct r | now rewrite IH]. Qed.

Lemma drop_drop (n m : nat) (s : string) : drop n (drop m s) = drop (m + n) s.
Proof.
  revert s; induction m as [|m IH]; intros s; simpl; [reflexivity|].
  destruct s as [|c s]; [now destruct n | apply IH].
Qed.

Lemma join_split_lines (s : string) : join (split_lines s) = s.
Proof.
  induction s as [|c s IH]; simpl; [reflexivity|].
  destruct (Ascii.eqb_spec c LF) as [->|Hc].
  - simpl. now rewrite IH.
  - destruct (split_lines s) as [|l ls]; simpl in *; now rewrite <- IH.
Qed.

Lemma has_cr_cons (c : ascii) (s : string) :
  has_cr (String c s) = Ascii.eqb c CR || has_cr s.
Proof. reflexivity. Qed.

Lemma has_cr_app (a b : string) : has_cr (a ++ b) = has_cr a || has_cr b.
Proof. apply has_char_app. Qed.

Lemma has_cr_newline : has_cr newline = false.
Proof. reflexivity. Qed.

Lemma split_lines_line_list (s : string) :
  has_cr s = false -> line_list (split_lines s).
Proof.
  induction s as [|c s IH]; intros Hcr; simpl; [constructor|].
  rewrite has_cr_cons in Hcr. apply orb_false_iff in Hcr as [Hc0 Hcr].
  specialize (IH Hcr).
  destruct (Ascii.eqb_spec c LF) as [->|Hc].
  - now apply (line_list_cons "" (split_lines s)).
  - assert (Hn : Ascii.eqb c LF = false) by now apply Ascii.eqb_neq.
    destruct (split_lines s) as [|l ls].
    + apply line_list_last; [discriminate | cbn; now rewrite Hn|].
      now rewrite has_cr_cons, Hc0.
    + inversion IH as [|l' Hne Hnl Hcl|b ls' Hb Hcb Hls]; subst.
      * apply line_list_last; [discriminate| |].
        -- unfold has_newline in *; simpl; now rewrite Hn, Hnl.
        -- now rewrite has_cr_cons, Hc0, Hcl.
      * apply (line_list_cons (String c b) ls); [| |exact Hls].
        -- unfold has_newline in *; simpl; now rewrite Hn, Hb.
        -- now rewrite has_cr_cons, Hc0, Hcb.
Qed.

Lemma line_list_filter (f : string -> bool) (ls : list string) :
  line_list ls -> line_list (filter f ls).
Proof.
  induction 1 as [|l Hne Hnl Hcl|b ls Hb Hcb Hls IH]; simpl.
  - constructor.
  - destruct (f l); now constructor.
  - destruct (f (b ++ newline)); [now constructor | exact IH].
Qed.

Lemma split_lines_terminated (b t : string) :
  has_newline b = false ->
  split_lines (b ++ newline ++ t) = (b ++ newline) :: split_lines t.
Proof.
  unfold has_newline.
  induction b as [|c b IH]; simpl; intros H; [reflexivity|].
  apply orb_false_iff in H as [Hc Hb].
  rewrite Hc. specialize (IH Hb). simpl in IH. now rewrite IH.
Qed.

Lemma split_lines_unterminated (l : string) :
  l <> "" -> has_newline l = false -> split_lines l = [l].
Proof.
  unfold has_newline.
  induction l as [|c l IH]; intros Hne H; [congruence|].
  simpl in *. apply orb_false_iff in H as [Hc Hl].
  rewrite Hc.
  destruct l as [|b l]; [reflexivity|].
  now rewrite IH.
Qed.

Lemma split_lines_join (ls : list string) :
  line_list ls -> split_lines (join ls) = ls.
Proof.
  induction 1 as [|l Hne Hnl Hcl|b ls Hb Hcb Hls IH]; simpl.
  - reflexivity.
  - rewrite app_empty_r. now apply split_lines_unterminated.
  - rewrite app_assoc, (split_lines_terminated _ _ Hb). now rewrite IH.
Qed.

Lemma has_cr_join (ls : list string) : line_list ls -> has_cr (join ls) = false.
Proof.
  induction 1 as [|l Hne Hnl Hcl|b ls Hb Hcb Hls IH]; simpl.
  - reflexivity.
  - now rewrite app_empty_r.
  - now rewrite !has_cr_app, Hcb, has_cr_newline, IH.
Qed.

(** What is read has no CR left. *)
Lemma universal_newlines_no_cr (s : string) :
  has_cr (universal_newlines s) = false.
Proof.
  induction s as [|c s IH]; [reflexivity|].
  cbn [universal_newlines]. destruct (Ascii.eqb c CR) eqn:Ec.
  - destruct s as [|c' s']; [reflexivity|].
    destruct (Ascii.eqb c' LF); [exact IH|].
    rewrite has_cr_cons, IH. reflexivity.
  - now rewrite has_cr_cons, Ec, IH.
Qed.

(** A text without CR is read as it is. *)
Lemma universal_newlines_id (s : string) :
  has_cr s = false -> universal_newlines s = s.
Proof.
  induction s as [|c s IH]; intros H; [reflexivity|].
  rewrite has_cr_cons in H. apply orb_false_iff in H as [Hc Hs].
  cbn [universal_newlines]. now rewrite Hc, IH.
Qed.

(** Reading a text and then another one is reading them in a row, unless
    the second one starts with the LF of a CR LF. *)
Lemma universal_newlines_app (a b : string) :
  startswith b newline = false ->
  universal_newlines (a ++ b)
  = universal_newlines a ++ universal_newlines b.
Proof.
  intros Hb. induction a as [|c a IH]; [reflexivity|].
  cbn [append universal_newlines]. destruct (Ascii.eqb c CR).
  - destruct a as [|c' a']; cbn [append].
    + destruct b as [|c' b']; [reflexivity|].
      cbn [startswith newline] in Hb.
      destruct (Ascii.eqb_spec c' LF) as [->|Hc'].
      * rewrite Ascii.eqb_refl in Hb. now destruct b'.
      * reflexivity.
    + cbn [append] in IH. destruct (Ascii.eqb c' LF);
        [exact IH | now rewrite IH].
  - now rewrite IH.
Qed.

Lemma startswith_newline (d r : string) :
  has_newline d = false -> d <> "" -> startswith (d ++ r) newline = false.
Proof.
  destruct d as [|c d]; [congruence|]. unfold has_newline. cbn.
  intros H _. apply orb_false_iff in H as [Hc _].
  destruct (Ascii.eqb_spec c LF) as [->|Hn]; [discriminate|].
  destruct (Ascii.eqb_spec LF c) as [E|_]; [now subst | reflexivity].
Qed.

Lemma readlines_plain (s : string) :
  has_cr s = false -> readlines s = split_lines s.
Proof. intros H. unfold readlines. now rewrite universal_newlines_id. Qed.

Lemma join_readlines (s : string) :
  join (readlines s) = universal_newlines s.
Proof. apply join_split_lines. Qed.

Lemma readlines_line_list (s : string) : line_list (readlines s).
Proof. apply split_lines_line_list, universal_newlines_no_cr. Qed.

(** Reading back what was written line by line gives the lines. *)
Lemma readlines_join (ls : list string) :
  line_list ls -> readlines (join ls) = ls.
Proof.
  intros H. rewrite readlines_plain by now apply has_cr_join.
  now apply split_lines_join.
Qed.

Lemma readlines_terminated (b t : string) :
  has_newline b = false -> has_cr b = false -> has_cr t = false ->
  readlines (b ++ newline ++ t) = (b ++ newline) :: readlines t.
Proof.
  intros Hb Hcb Hct.
  rewrite !readlines_plain; trivial.
  - now apply split_lines_terminated.
  - now rewrite !has_cr_app, Hcb, Hct.
Qed.

Lemma readlines_unterminated (l : string) :
  l <> "" -> has_newline l = false -> has_cr l = false -> readlines l = [l].
Proof.
  intros Hne Hn Hc. rewrite readlines_plain by exact Hc.
  now apply split_lines_unterminated.
Qed.

Lemma break_line_terminated (b t : string) :
  has_newline b = false -> break_line (b ++ newline ++ t) = (b, t).
Proof.
  unfold has_newline.
  induction b as [|c b IH]; simpl; intros H; [reflexivity|].
  apply orb_false_iff in H as [Hc Hb].
  rewrite Hc. specialize (IH Hb). simpl in IH. now rewrite IH.
Qed.

Lemma break_line_unterminated (b : string) :
  has_newline b = false -> break_line b = (b, "").
Proof.
  unfold has_newline.
  induction b as [|c b IH]; simpl; intros H; [reflexivity|].
  apply orb_false_iff in H as [Hc Hb].
  rewrite Hc. specialize (IH Hb). simpl in IH. now rewrite IH.
Qed.

Lemma break_line_no_newline (s : string) :
  has_newline (fst (break_line s)) = false.
Proof.
  unfold has_newline.
  induction s as [|c s IH]; simpl; [reflexivity|].
  destruct (Ascii.eqb_spec c LF) as [->|Hc]; [reflexivity|].
  destruct (break_line s) as [l r]. simpl in *.
  rewrite IH, orb_false_r. now apply Ascii.eqb_neq.
Qed.

Lemma break_line_shorter (c : ascii) (s : string) :
  String.length (snd (break_line (String c s))) <= String.length s.
Proof.
  revert c; induction s as [|b s IH]; intros c; simpl.
  - destruct (Ascii.eqb c LF); simpl; lia.
  - destruct (Ascii.eqb c LF); [simpl; lia|].
    specialize (IH b). simpl in IH.
    destruct (Ascii.eqb b LF); [simpl in *; lia|].
    destruct (break_line s) as [l r]. simpl in *. lia.
Qed.

End LineFacts.

(** ** The canonical text of a date *)

Section DateFacts.

Local Open Scope Z_scope.

Lemma nat_of_digit (n : Z) :
  Z.of_nat (nat_of_ascii (digit n)) = 48 + n mod 10.
Proof.
  unfold digit. pose proof (Z.mod_pos_bound n 10 eq_refl) as Hb.
  rewrite nat_ascii_embedding; lia.
Qed.

Lemma isdigit_digit (n : Z) : isdigit (digit n) = true.
Proof.
  unfold isdigit. pose proof (nat_of_digit n) as H.
  pose proof (Z.mod_pos_bound n 10 eq_refl) as Hb.
  apply andb_true_iff; split; apply Nat.leb_le; lia.
Qed.

Lemma digit_value_digit (n : Z) : digit_value (digit n) = n mod 10.
Proof. unfold digit_value. rewrite nat_of_digit. lia. Qed.

Lemma two_digits (n : Z) :
  0 <= n <= 99 -> 10 * ((n / 10) mod 10) + n mod 10 = n.
Proof. intros H. Z.div_mod_to_equations. lia. Qed.

Lemma four_digits (n : Z) :
  0 <= n <= 9999 ->
  1000 * ((n / 1000) mod 10) + 100 * ((n / 100) mod 10)
  + 10 * ((n / 10) mod 10) + n mod 10 = n.
Proof.
  intros H.
  replace (n / 1000) with (n / 10 / 10 / 10) by (rewrite !Z.div_div by lia; reflexivity).
  replace (n / 100) with (n / 10 / 10) by (rewrite !Z.div_div by lia; reflexivity).
  Z.div_mod_to_equations. lia.
Qed.

Lemma read_iso_format (y m d : Z) :
  0 <= y <= 9999 -> 0 <= m <= 99 -> 0 <= d <= 99 ->
  read_iso (iso_format y m d) = Some (y, m, d).
Proof.
  intros Hy Hm Hd. unfold iso_format, pad4, pad2, read_iso.
  cbn [append]. rewrite !isdigit_digit, !digit_value_digit.
  cbn [andb Ascii.eqb Bool.eqb].
  now rewrite four_digits, !two_digits.
Qed.

Lemma digit_of_value (c : ascii) :
  isdigit c = true ->
  0 <= digit_value c <= 9 /\ digit (digit_value c) = c.
Proof.
  unfold isdigit, digit_value, digit. intros H.
  apply andb_true_iff in H as [H1 H2]. apply Nat.leb_le in H1, H2.
  split; [lia|].
  rewrite Z.mod_small by lia.
  replace (Z.to_nat (48 + (Z.of_nat (nat_of_ascii c) - 48)))
    with (nat_of_ascii c) by lia.
  apply ascii_nat_embedding.
Qed.

Lemma digit_mod (n : Z) (c : ascii) :
  isdigit c = true -> n mod 10 = digit_value c -> digit n = c.
Proof.
  intros Hc Hn. destruct (digit_of_value c Hc) as [Hb <-].
  unfold digit. rewrite Hn. now rewrite (Z.mod_small _ 10) by lia.
Qed.

Lemma four_digit_places (a b c d : Z) :
  0 <= a <= 9 -> 0 <= b <= 9 -> 0 <= c <= 9 -> 0 <= d <= 9 ->
  let n := 1000 * a + 100 * b + 10 * c + d in
  (n / 1000) mod 10 = a /\ (n / 100) mod 10 = b
  /\ (n / 10) mod 10 = c /\ n mod 10 = d.
Proof.
  intros Ha Hb Hc Hd n.
  assert (E3 : n / 1000 = a)
    by (symmetry; apply (Z.div_unique n 1000 a (100 * b + 10 * c + d));
        unfold n; lia).
  assert (E2 : n / 100 = 10 * a + b)
    by (symmetry; apply (Z.div_unique n 100 _ (10 * c + d)); unfold n; lia).
  assert (E1 : n / 10 = 100 * a + 10 * b + c)
    by (symmetry; apply (Z.div_unique n 10 _ d); unfold n; lia).
  rewrite E3, E2, E1. unfold n.
  repeat split; Z.div_mod_to_equations; lia.
Qed.

Lemma two_digit_places (a b : Z) :
  0 <= a <= 9 -> 0 <= b <= 9 ->
  ((10 * a + b) / 10) mod 10 = a /\ (10 * a + b) mod 10 = b.
Proof. intros Ha Hb. split; Z.div_mod_to_equations; lia. Qed.

(** A token that reads as a date is the canonical text of that date. *)
Lemma read_iso_canonical (s : string) (y m d : Z) :
  read_iso s = Some (y, m, d) -> iso_format y m d = s.
Proof.
  unfold read_iso. intros H.
  do 10 (destruct s as [|? s]; [discriminate|]).
  destruct s; [|discriminate].
  match type of H with
  | (if ?b then _ else _) = _ => destruct b eqn:E; [|discriminate]
  end.
  injection H as <- <- <-.
  rewrite !andb_true_iff in E.
  destruct E as [[[[[[[[[E1 E2] E3] E4] E5] E6] E7] E8] E9] E10].
  apply Ascii.eqb_eq in E5, E8. subst.
  pose proof (digit_of_value _ E1) as [B1 _].
  pose proof (digit_of_value _ E2) as [B2 _].
  pose proof (digit_of_value _ E3) as [B3 _].
  pose proof (digit_of_value _ E4) as [B4 _].
  pose proof (digit_of_value _ E6) as [B6 _].
  pose proof (digit_of_value _ E7) as [B7 _].
  pose proof (digit_of_value _ E9) as [B9 _].
  pose proof (digit_of_value _ E10) as [B10 _].
  destruct (four_digit_places _ _ _ _ B1 B2 B3 B4) as (F1 & F2 & F3 & F4).
  destruct (two_digit_places _ _ B6 B7) as (G1 & G2).
  destruct (two_digit_places _ _ B9 B10) as (K1 & K2).
  unfold iso_format, pad4, pad2. cbn [append].
  repeat f_equal; apply digit_mod; assumption.
Qed.

Lemma valid_date_bounds (y m d : Z) :
  valid_date y m d = true -> 1 <= y <= 9999 /\ 1 <= m <= 12 /\ 1 <= d <= 31.
Proof.
  unfold valid_date. rewrite !andb_true_iff, !Z.leb_le.
  intros [[[[[H1 H2] H3] H4] H5] H6].
  assert (days_in_month y m <= 31); [|lia].
  assert (Hm : m = 1 \/ m = 2 \/ m = 3 \/ m = 4 \/ m = 5 \/ m = 6 \/ m = 7
               \/ m = 8 \/ m = 9 \/ m = 10 \/ m = 11 \/ m = 12) by lia.
  unfold days_in_month.
  repeat (destruct Hm as [->|Hm]); subst;
    try destruct (isleap y); lia.
Qed.

Lemma iso_format_is_iso (y m d : Z) :
  valid_date y m d = true -> is_iso_date (iso_format y m d) = true.
Proof.
  intros H. unfold is_iso_date.
  destruct (valid_date_bounds _ _ _ H) as (Hy & Hm & Hd).
  rewrite read_iso_format by lia. exact H.
Qed.

Lemma all_digits_cons (c : ascii) (s : string) :
  all_digits (String c s) = isdigit c && all_digits s.
Proof.
  unfold all_digits. cbn [has_char]. now destruct (isdigit c).
Qed.

Lemma digits_of_pos_digits (fuel : nat) (n : Z) (acc : string) :
  all_digits acc = true -> all_digits (digits_of_pos fuel n acc) = true.
Proof.
  revert n acc; induction fuel as [|fuel IH]; intros n acc H; [exact H|].
  cbn [digits_of_pos].
  assert (H1 : all_digits (String (digit n) acc) = true)
    by now rewrite all_digits_cons, isdigit_digit.
  destruct (n <? 10); [exact H1 | now apply IH].
Qed.

Lemma digits_of_pos_nonempty (fuel : nat) (n : Z) (acc : string) :
  acc <> "" -> digits_of_pos fuel n acc <> "".
Proof.
  revert n acc; induction fuel as [|fuel IH]; intros n acc H; [exact H|].
  cbn [digits_of_pos]. destruct (n <? 10); [discriminate|].
  now apply IH.
Qed.

(** The text of a number that is not negative: digits, at least one. *)
Lemma str_of_int_digits (n : Z) :
  0 <= n -> all_digits (str_of_int n) = true /\ str_of_int n <> "".
Proof.
  intros Hn. unfold str_of_int.
  destruct (n <? 0) eqn:E; [apply Z.ltb_lt in E; lia|].
  cbn [digits_of_pos]. split.
  - destruct (n <? 10); [|apply digits_of_pos_digits];
      now rewrite all_digits_cons, isdigit_digit.
  - destruct (n <? 10); [discriminate|].
    now apply digits_of_pos_nonempty.
Qed.

Lemma str_of_int_four_digits (y : Z) :
  1 <= y <= 9999 -> String.length (str_of_int y) = 4%nat ->
  str_of_int y = pad4 y.
Proof.
  intros Hy.
  assert (Hall : forallb
                   (fun k => negb (Nat.eqb (String.length (str_of_int k)) 4)
                             || String.eqb (str_of_int k) (pad4 k))
                   (map Z.of_nat (seq 1 (Z.to_nat 9999))) = true)
    by (vm_compute; reflexivity).
  rewrite forallb_forall in Hall.
  assert (Hin : In y (map Z.of_nat (seq 1 (Z.to_nat 9999)))).
  { apply in_map_iff. exists (Z.to_nat y). split; [lia|].
    apply in_seq. lia. }
  specialize (Hall y Hin). intros Hlen.
  rewrite Hlen in Hall. cbn [Nat.eqb negb orb] in Hall.
  now apply String.eqb_eq.
Qed.

(** The year of a date before the year 1000 is written on fewer than four
    characters. *)
Lemma str_of_int_short (y : Z) :
  1 <= y < 1000 -> (String.length (str_of_int y) <= 3)%nat.
Proof.
  intros Hy.
  assert (Hall : forallb
                   (fun k => Nat.leb (String.length (str_of_int k)) 3)
                   (map Z.of_nat (seq 1 (Z.to_nat 999))) = true)
    by (vm_compute; reflexivity).
  rewrite forallb_forall in Hall.
  assert (Hin : In y (map Z.of_nat (seq 1 (Z.to_nat 999)))).
  { apply in_map_iff. exists (Z.to_nat y). split; [lia|].
    apply in_seq. lia. }
  now apply Nat.leb_le, Hall.
Qed.

Lemma digit_char (c : ascii) :
  isdigit c = true ->
  isspace c = false /\ Ascii.eqb c " " = false /\ Ascii.eqb c LF = false.
Proof. now destruct c as [[|] [|] [|] [|] [|] [|] [|] [|]]. Qed.

(** The shape of a canonical date: ten characters, none of them a blank or
    an end of line. *)
Lemma iso_date_shape (s : string) :
  is_iso_date s = true ->
  String.length s = 10%nat
  /\ has_blank s = false
  /\ has_newline s = false
  /\ starts_nonspace s = true
  /\ ends_nonspace s = true.
Proof.
  unfold is_iso_date, read_iso. intros H.
  do 10 (destruct s as [|? s]; [discriminate|]).
  destruct s; [|discriminate].
  match type of H with
  | match (if ?b then _ else _) with _ => _ end = _ =>
      destruct b eqn:E; [|discriminate]
  end.
  rewrite !andb_true_iff in E.
  destruct E as [[[[[[[[[E1 E2] E3] E4] E5] E6] E7] E8] E9] E10].
  apply Ascii.eqb_eq in E5, E8. subst.
  apply digit_char in E1 as (? & ? & ?), E2 as (? & ? & ?),
      E3 as (? & ? & ?), E4 as (? & ? & ?), E6 as (? & ? & ?),
      E7 as (? & ? & ?), E9 as (? & ? & ?), E10 as (? & ? & ?).
  unfold has_newline, has_blank, starts_nonspace. simpl.
  repeat match goal with
         | E : _ = false |- _ => rewrite E; clear E
         end.
  repeat split; reflexivity.
Qed.

Lemma digit_not_cr (c : ascii) : isdigit c = true -> Ascii.eqb c CR = false.
Proof. now destruct c as [[|] [|] [|] [|] [|] [|] [|] [|]]. Qed.

Lemma iso_date_no_cr (s : string) : is_iso_date s = true -> has_cr s = false.
Proof.
  unfold is_iso_date, read_iso. intros H.
  do 10 (destruct s as [|? s]; [discriminate|]).
  destruct s; [|discriminate].
  match type of H with
  | match (if ?b then _ else _) with _ => _ end = _ =>
      destruct b eqn:E; [|discriminate]
  end.
  rewrite !andb_true_iff in E.
  destruct E as [[[[[[[[[E1 E2] E3] E4] E5] E6] E7] E8] E9] E10].
  apply Ascii.eqb_eq in E5, E8. subst.
  apply digit_not_cr in E1, E2, E3, E4, E6, E7, E9, E10.
  rewrite !has_cr_cons, E1, E2, E3, E4, E6, E7, E9, E10. reflexivity.
Qed.

Lemma has_char_digits (p : ascii -> bool) (s : string) :
  (forall c, isdigit c = true -> p c = false) ->
  all_digits s = true -> has_char p s = false.
Proof.
  intros Hp. induction s as [|c s IH]; intros H; [reflexivity|].
  rewrite all_digits_cons in H. apply andb_true_iff in H as [Hc Hs].
  cbn [has_char]. now rewrite (Hp c Hc), IH.
Qed.

Lemma has_char_month_day (p : ascii -> bool) (m d : Z) :
  (forall c, isdigit c = true -> p c = false) -> p "-"%char = false ->
  has_char p (month_day_text m d) = false.
Proof.
  intros Hp Hd. unfold month_day_text, pad2. cbn [append has_char].
  now rewrite Hd, !(Hp _ (isdigit_digit _)).
Qed.

Lemma ends_nonspace_month_day (m d : Z) :
  ends_nonspace (month_day_text m d) = true.
Proof.
  unfold month_day_text, pad2. cbn [append ends_nonspace].
  destruct (digit_char _ (isdigit_digit d)) as (H & _). now rewrite H.
Qed.

(** The text that [strftime] gives: digits and two dashes, hence no
    blank and no line end, and something else than a blank at both
    ends. *)
Lemma strftime_shape (dt : datetime) :
  has_blank (strftime_Ymd dt) = false
  /\ has_newline (strftime_Ymd dt) = false
  /\ has_cr (strftime_Ymd dt) = false
  /\ starts_nonspace (strftime_Ymd dt) = true
  /\ ends_nonspace (strftime_Ymd dt) = true.
Proof.
  pose proof (valid_date_bounds _ _ _ (in_range dt)) as (Hy & _ & _).
  destruct (str_of_int_digits (year dt)) as [Hdig Hne]; [lia|].
  unfold strftime_Ymd, has_blank, has_newline, has_cr.
  rewrite !has_char_app.
  assert (Hp : forall p : ascii -> bool,
             (forall c, isdigit c = true -> p c = false) ->
             p "-"%char = false ->
             has_char p (str_of_int (year dt))
             || has_char p (month_day_text (month dt) (day dt)) = false).
  { intros p Hp Hd.
    now rewrite (has_char_digits p _ Hp Hdig), has_char_month_day. }
  repeat split.
  - apply Hp; [|reflexivity]. intros c Hc. now apply digit_char in Hc.
  - apply Hp; [|reflexivity]. intros c Hc. now apply digit_char in Hc.
  - apply Hp; [|reflexivity]. intros c Hc. now apply digit_not_cr.
  - destruct (str_of_int (year dt)) as [|c y]; [congruence|].
    cbn [append starts_nonspace]. rewrite all_digits_cons in Hdig.
    apply andb_true_iff in Hdig as [Hc _].
    apply digit_char in Hc as (Hc & _). now rewrite Hc.
  - apply ends_nonspace_app, ends_nonspace_month_day.
Qed.

(** Two texts of digits followed by a dash: one starts the other only
    when the digits are the same. *)
Lemma startswith_digits (yd yq X Y : string) :
  all_digits yd = true -> all_digits yq = true ->
  startswith (yd ++ String "-" X) (yq ++ String "-" Y) = true ->
  yd = yq /\ startswith X Y = true.
Proof.
  revert yd; induction yq as [|a yq IH]; intros [|c yd] Hd Hq H;
    cbn [append startswith] in H.
  - now split.
  - rewrite all_digits_cons in Hd. apply andb_true_iff in Hd as [Hc _].
    apply andb_true_iff in H as [E _]. apply Ascii.eqb_eq in E. subst c.
    discriminate.
  - rewrite all_digits_cons in Hq. apply andb_true_iff in Hq as [Ha _].
    apply andb_true_iff in H as [E _]. apply Ascii.eqb_eq in E. subst a.
    discriminate.
  - rewrite all_digits_cons in Hd, Hq.
    apply andb_true_iff in Hd as [_ Hd]. apply andb_true_iff in Hq as [_ Hq].
    apply andb_true_iff in H as [E H]. apply Ascii.eqb_eq in E. subst c.
    destruct (IH yd Hd Hq H) as [-> HX]. now split.
Qed.

(** A line that starts with the text of a date starts with no other
    one. *)
Lemma startswith_strftime (dt dq : datetime) (r : string) :
  startswith (strftime_Ymd dt ++ r) (strftime_Ymd dq)
  = (strftime_Ymd dt =? strftime_Ymd dq)%string.
Proof.
  destruct (strftime_Ymd dt =? strftime_Ymd dq)%string eqn:E.
  - apply String.eqb_eq in E. rewrite <- E. apply startswith_app.
  - destruct (startswith _ _) eqn:S; [|reflexivity].
    apply String.eqb_neq in E. exfalso. apply E.
    pose proof (valid_date_bounds _ _ _ (in_range dt)) as (Hy & _ & _).
    pose proof (valid_date_bounds _ _ _ (in_range dq)) as (Hq & _ & _).
    destruct (str_of_int_digits (year dt)) as [Hdt _]; [lia|].
    destruct (str_of_int_digits (year dq)) as [Hdq _]; [lia|].
    unfold strftime_Ymd, month_day_text in *.
    rewrite app_assoc in S. cbn [append] in S.
    destruct (startswith_digits _ _ _ _ Hdt Hdq S) as [-> HX].
    f_equal. cbn [append]. f_equal.
    rewrite startswith_same_length in HX by reflexivity.
    now apply String.eqb_eq.
Qed.

End DateFacts.

(** ** Computations that do not touch the file *)

Section KeepsFile.

Context {A B : Type}.

Lemma keeps_ret (a : A) : keeps_file (ret a).
Proof. now intros w. Qed.

Lemma keeps_raise (e : exn) : keeps_file (raise (A := A) e).
Proof. now intros w. Qed.

Lemma keeps_lift (r : res A) : keeps_file (lift r).
Proof. now intros w. Qed.

Lemma keeps_bind (m : io A) (k : A -> io B) :
  keeps_file m -> (forall a, keeps_file (k a)) -> keeps_file (bind m k).
Proof.
  intros Hm Hk w. unfold bind. specialize (Hm w).
  destruct (m w) as [[a|e] w1]; simpl in *; [|exact Hm].
  now rewrite Hk.
Qed.

Lemma keeps_try (body : io A) (cls : exn) (handler : exn -> io A) :
  keeps_file body -> (forall e, keeps_file (handler e)) ->
  keeps_file (try_except body cls handler).
Proof.
  intros Hb Hh w. unfold try_except. specialize (Hb w).
  destruct (body w) as [[a|e] w1]; simpl in *; [exact Hb|].
  destruct (isinstance e cls); [now rewrite Hh | exact Hb].
Qed.

End KeepsFile.

Lemma keeps_write_out (s : string) : keeps_file (write_out s).
Proof. now intros w. Qed.

Lemma keeps_print (s : string) : keeps_file (print s).
Proof. now intros w. Qed.

Lemma keeps_input (prompt : string) : keeps_file (input prompt).
Proof.
  intros w. unfold input. destruct (stdin w) as [|c s]; [reflexivity|].
  cbv iota beta. now destruct (break_line (String c s)).
Qed.

Lemma keeps_read_file : keeps_file read_file.
Proof.
  intros w. unfold read_file. destruct (file w) eqn:E; simpl; congruence.
Qed.

(** ** Reading a line *)

Section InputFacts.

Lemma input_line (prompt line rest : string) (w : world) :
  has_newline line = false ->
  stdin w = line ++ newline ++ rest ->
  input prompt w
  = (Returns line,
     {| stdin := rest; stdout := (stdout w ++ [prompt])%list;
        file := file w |}).
Proof.
  intros Hl Hs. unfold input. rewrite Hs.
  pose proof (break_line_terminated _ rest Hl) as E.
  destruct (line ++ newline ++ rest) as [|c s] eqn:F.
  - destruct line; discriminate.
  - now rewrite E.
Qed.

Lemma input_returns (prompt line : string) (w w1 : world) :
  input prompt w = (Returns line, w1) ->
  has_newline line = false /\ file w1 = file w
  /\ String.length (stdin w1) < String.length (stdin w).
Proof.
  unfold input. destruct (stdin w) as [|c s] eqn:E; [discriminate|].
  pose proof (break_line_no_newline (String c s)) as Hn.
  pose proof (break_line_shorter c s) as Hl.
  destruct (break_line (String c s)) as [l r].
  intros [= <- <-]. simpl in *. repeat split; [exact Hn | lia].
Qed.

Lemma input_stdout (prompt line : string) (w w1 : world) :
  input prompt w = (Returns line, w1) ->
  stdout w1 = (stdout w ++ [prompt])%list.
Proof.
  unfold input. destruct (stdin w) as [|c s]; [discriminate|].
  destruct (break_line (String c s)) as [l r]. now intros [= <- <-].
Qed.

End InputFacts.

(** ** The date validator *)

Section Validator.

Variable parse : string -> res datetime.

Lemma validate_date_true (s : string) :
  validate_date parse s = Returns true <->
  exists dt, parse s = Returns dt /\ strftime_Ymd dt = s.
Proof.
  unfold validate_date. split.
  - destruct (parse s) as [dt|e].
    + intros [= H]. exists dt. split; [reflexivity|].
      now apply String.eqb_eq.
    + destruct (isinstance e ValueError); discriminate.
  - intros (dt & -> & <-). now rewrite String.eqb_refl.
Qed.

Lemma validated_shape (s : string) :
  validate_date parse s = Returns true ->
  has_blank s = false /\ has_newline s = false /\ has_cr s = false
  /\ starts_nonspace s = true /\ ends_nonspace s = true.
Proof.
  intros H. apply validate_date_true in H as (dt & _ & <-).
  apply strftime_shape.
Qed.

(** A validated date of ten characters is a valid date written as
    YYYY-MM-DD. *)
Lemma validated_ten_is_iso (s : string) :
  validate_date parse s = Returns true -> String.length s = 10 ->
  is_iso_date s = true.
Proof.
  intros H Hlen. apply validate_date_true in H as (dt & _ & <-).
  pose proof (valid_date_bounds _ _ _ (in_range dt)) as (Hy & _ & _).
  unfold strftime_Ymd in *. rewrite length_app in Hlen.
  change (String.length (month_day_text (month dt) (day dt))) with 6
    in Hlen.
  rewrite (str_of_int_four_digits (year dt)) by lia.
  apply (iso_format_is_iso _ _ _ (in_range dt)).
Qed.

Lemma startswith_validated (d q r : string) :
  validate_date parse d = Returns true ->
  validate_date parse q = Returns true ->
  startswith (d ++ r) q = (d =? q).
Proof.
  intros Hd Hq.
  apply validate_date_true in Hd as (dt & _ & <-).
  apply validate_date_true in Hq as (dq & _ & <-).
  apply startswith_strftime.
Qed.

(** An exception that is not a [ValueError] leaves [validate_date]. *)
Lemma validate_date_propagates (s : string) (e : exn) :
  parse s = Raises e -> isinstance e ValueError = false ->
  validate_date parse s = Raises e.
Proof. intros H He. unfold validate_date. now rewrite H, He. Qed.

(** When the parser raises nothing but [ValueError]s, the validator always
    answers. *)
Lemma validate_date_answers (s : string) :
  (forall e, parse s = Raises e -> isinstance e ValueError = true) ->
  exists b, validate_date parse s = Returns b.
Proof.
  intros H. unfold validate_date. destruct (parse s) as [dt|e].
  - eexists; reflexivity.
  - rewrite (H e eq_refl). now exists false.
Qed.

(** The loop of [get_valid_date] leaves the file alone. *)
Lemma keeps_get_valid_date_loop (fuel : nat) (prompt : string) :
  keeps_file (get_valid_date_loop parse fuel prompt).
Proof.
  induction fuel as [|fuel IH]; simpl; [apply keeps_raise|].
  apply keeps_bind; [apply keeps_input|]. intros raw.
  apply keeps_bind; [apply keeps_lift|]. intros [|]; [apply keeps_ret|].
  apply keeps_bind; [apply keeps_print | intros _; exact IH].
Qed.

Lemma keeps_get_valid_date (prompt : string) :
  keeps_file (get_valid_date parse prompt).
Proof. intros w. apply keeps_get_valid_date_loop. Qed.

(** It returns nothing but validated dates. *)
Lemma get_valid_date_loop_valid (fuel : nat) (prompt d : string)
    (w w1 : world) :
  get_valid_date_loop parse fuel prompt w = (Returns d, w1) ->
  validate_date parse d = Returns true.
Proof.
  revert w; induction fuel as [|fuel IH]; intros w; simpl; [discriminate|].
  unfold bind, lift.
  destruct (input prompt w) as [[raw|e] w2]; [|discriminate].
  destruct (validate_date parse (strip raw)) as [[|]|e] eqn:V;
    [| |discriminate].
  - unfold ret. now intros [= <- <-].
  - unfold print, write_out. apply IH.
Qed.

Lemma get_valid_date_valid (prompt d : string) (w w1 : world) :
  get_valid_date parse prompt w = (Returns d, w1) ->
  validate_date parse d = Returns true.
Proof. apply get_valid_date_loop_valid. Qed.

(** The fuel given by [get_valid_date] is enough: more changes nothing. *)
Lemma get_valid_date_loop_fuel (n m : nat) (prompt : string) (w : world) :
  String.length (stdin w) < n -> String.length (stdin w) < m ->
  get_valid_date_loop parse n prompt w = get_valid_date_loop parse m prompt w.
Proof.
  revert m w; induction n as [|n IH]; intros [|m] w Hn Hm; try lia.
  simpl. unfold bind, lift.
  destruct (input prompt w) as [[raw|e] w2] eqn:I; [|reflexivity].
  apply input_returns in I as (_ & _ & Hlen).
  destruct (validate_date parse (strip raw)) as [[|]|e]; try reflexivity.
  unfold print, write_out. apply IH; simpl; lia.
Qed.

(** A line that validates once stripped is accepted at once. *)
Lemma get_valid_date_accepts (prompt raw : string) (w w1 : world) :
  input prompt w = (Returns raw, w1) ->
  validate_date parse (strip raw) = Returns true ->
  get_valid_date parse prompt w = (Returns (strip raw), w1).
Proof.
  intros I V. unfold get_valid_date. simpl. unfold bind, lift.
  now rewrite I, V.
Qed.

End Validator.

(** ** Writing and listing events *)

Section Events.

Variable filename : string.

Lemma printed_nil (w : world) : printed w [] = w.
Proof. destruct w. unfold printed. simpl. now rewrite List.app_nil_r. Qed.

Lemma printed_printed (w : world) (a b : list string) :
  printed (printed w a) b = printed w (a ++ b)%list.
Proof. unfold printed. simpl. now rewrite List.app_assoc. Qed.

Lemma event_line_terminated (d desc : string) :
  event_line d desc = (d ++ " | " ++ desc) ++ newline.
Proof. unfold event_line. now rewrite !app_assoc. Qed.

Lemma appended_join (c : string) (events : list (string * string)) :
  appended c events
  = c ++ join (map (fun e => event_line (fst e) (snd e)) events).
Proof.
  unfold appended. revert c; induction events as [|e events IH]; intros c.
  - simpl. now rewrite app_empty_r.
  - simpl. now rewrite IH, app_assoc.
Qed.

Lemma append_events_run (events : list (string * string)) (w : world)
    (c : string) :
  file w = Some c ->
  fst (append_events filename events w) = Returns tt
  /\ file (snd (append_events filename events w))
     = Some (appended c events).
Proof.
  revert w c; induction events as [|e events IH]; intros w c Hf.
  - simpl. now split.
  - simpl. unfold bind, append_event, try_except, f_write, print, write_out.
    simpl. rewrite Hf. apply IH. reflexivity.
Qed.

Lemma stored_description_inv (desc : string) :
  stored_description desc = true ->
  starts_nonspace desc = true /\ ends_nonspace desc = true
  /\ has_newline desc = false.
Proof.
  unfold stored_description. rewrite !andb_true_iff, negb_true_iff.
  tauto.
Qed.

Lemma event_lines_line_list (parse : string -> res datetime)
    (events : list (string * string)) :
  Forall (plain parse) events ->
  line_list (map (fun e => event_line (fst e) (snd e)) events).
Proof.
  induction 1 as [|[d desc] events [[Hd Hdesc] Hcr] _ IH]; simpl;
    [constructor|].
  rewrite event_line_terminated. simpl in Hd, Hdesc, Hcr.
  apply validated_shape in Hd as (_ & Hn & Hc & _).
  apply stored_description_inv in Hdesc as (_ & _ & Hn').
  apply line_list_cons; [| |exact IH].
  - unfold has_newline in *. rewrite !has_char_app, Hn, Hn'. reflexivity.
  - rewrite !has_cr_app, Hc, Hcr. reflexivity.
Qed.

Lemma strip_event_line (d desc : string) :
  starts_nonspace d = true -> stored_description desc = true ->
  strip (event_line d desc) = d ++ " | " ++ desc.
Proof.
  intros Hs Hdesc. rewrite event_line_terminated.
  apply stored_description_inv in Hdesc as (_ & He & _).
  apply (strip_padded "" (d ++ " | " ++ desc) newline); try reflexivity.
  - destruct d; [discriminate | exact Hs].
  - now rewrite <- !app_assoc; apply ends_nonspace_app.
Qed.

Lemma split_event (d desc : string) :
  has_blank d = false -> split1 (d ++ " | " ++ desc) " | " = [d; desc].
Proof. intros H. unfold split1. now rewrite partition_first_field. Qed.

Lemma print_printed (s : string) (w : world) :
  print s w = (Returns tt, printed w [s ++ newline]).
Proof. reflexivity. Qed.

Lemma descriptions_of_cons (q d desc : string)
    (events : list (string * string)) :
  descriptions_of q ((d, desc) :: events)
  = if d =? q then desc :: descriptions_of q events
    else descriptions_of q events.
Proof. unfold descriptions_of. simpl. now destruct (d =? q). Qed.

(** The loop of [view_events] over a file of events shows the
    descriptions recorded under the date, in order, and nothing else. *)
Lemma view_loop_events (parse : string -> res datetime)
    (events : list (string * string)) (q : string) (b : bool) (w : world) :
  Forall (recorded parse) events ->
  validate_date parse q = Returns true ->
  view_loop q (map (fun e => event_line (fst e) (snd e)) events) b w
  = (Returns (b || negb (Nat.eqb (List.length (descriptions_of q events)) 0)),
     printed w (map bullet (descriptions_of q events))).
Proof.
  intros Hev Hq. revert b w.
  induction Hev as [|[d desc] events [Hd Hdesc] _ IH]; intros b w.
  - simpl. unfold ret. now rewrite orb_false_r, printed_nil.
  - simpl in Hd, Hdesc.
    destruct (validated_shape parse _ Hd) as (Bd & _ & _ & Sd & _).
    rewrite descriptions_of_cons. cbn [map fst snd view_loop].
    unfold event_line at 1.
    rewrite (startswith_validated parse d q _ Hd Hq).
    destruct (d =? q) eqn:E.
    + fold (event_line d desc). rewrite (strip_event_line _ _ Sd Hdesc).
      rewrite (split_event d desc Bd). unfold bind, lift, unpack2.
      cbn [snd]. rewrite print_printed, IH, printed_printed.
      now rewrite orb_true_r.
    + apply IH.
Qed.

End Events.

(** ** Deleting events *)

Section Deleting.

Variable filename : string.

Lemma rewrite_loop_run (date desc : string) (events : list string)
    (b : bool) (w : world) (c : string) :
  file w = Some c ->
  rewrite_loop date desc events b w
  = (Returns (b || existsb (matches date desc) events),
     with_file w (c ++ join (filter (kept date desc) events))).
Proof.
  revert b w c; induction events as [|line rest IH]; intros b w c Hf.
  - simpl. unfold ret, with_file. rewrite orb_false_r, app_empty_r.
    destruct w; simpl in *; now subst.
  - cbn [rewrite_loop filter existsb join]. unfold kept at 1.
    destruct (matches date desc line) eqn:M; cbn [negb].
    + rewrite (IH true w c Hf). now rewrite orb_true_r.
    + unfold bind, f_write. rewrite Hf.
      rewrite (IH b {| stdin := stdin w; stdout := stdout w;
                       file := Some (c ++ line) |} (c ++ line) eq_refl).
      unfold with_file. cbn [stdin stdout]. now rewrite app_assoc.
Qed.

Lemma delete_matching_run (date desc : string) (w : world) (c : string) :
  file w = Some c ->
  delete_matching filename date desc w
  = (Returns tt,
     printed (with_file w (join (filter (kept date desc) (readlines c))))
       [((if existsb (matches date desc) (readlines c)
          then deleted_message date else no_match_message) ++ newline)]).
Proof.
  intros Hf. unfold delete_matching, try_except, bind, read_file.
  rewrite Hf. unfold open_truncate.
  rewrite (rewrite_loop_run date desc (readlines c) false
             {| stdin := stdin w; stdout := stdout w; file := Some "" |}
             "" eq_refl).
  cbn [orb append].
  destruct (existsb (matches date desc) (readlines c));
    rewrite print_printed; reflexivity.
Qed.

Lemma delete_matching_missing (date desc : string) (w : world) :
  file w = None ->
  file (snd (delete_matching filename date desc w)) = None.
Proof.
  intros Hf. unfold delete_matching, try_except, bind, read_file.
  rewrite Hf. cbn [isinstance]. rewrite print_printed. exact Hf.
Qed.

Lemma filter_kept_all (date desc : string) (ls : list string) :
  forallb (kept date desc) ls = true -> filter (kept date desc) ls = ls.
Proof.
  induction ls as [|l ls IH]; simpl; [reflexivity|].
  intros H. apply andb_true_iff in H as [Hl Hls].
  now rewrite Hl, IH.
Qed.

Lemma existsb_matches_none (date desc : string) (ls : list string) :
  forallb (kept date desc) ls = true ->
  existsb (matches date desc) ls = false.
Proof.
  induction ls as [|l ls IH]; simpl; [reflexivity|].
  intros H. apply andb_true_iff in H as [Hl Hls].
  unfold kept in Hl. apply negb_true_iff in Hl. now rewrite Hl, IH.
Qed.

Lemma existsb_matches_count (date desc : string) (ls : list string) :
  existsb (matches date desc) ls
  = negb (Nat.eqb (List.length (filter (matches date desc) ls)) 0).
Proof.
  induction ls as [|l ls IH]; simpl; [reflexivity|].
  destruct (matches date desc l); simpl; [reflexivity | exact IH].
Qed.

Lemma filter_kept_length (date desc : string) (ls : list string) :
  List.length (filter (kept date desc) ls)
  + List.length (filter (matches date desc) ls) = List.length ls.
Proof.
  induction ls as [|l ls IH]; simpl; [reflexivity|]. unfold kept at 1.
  destruct (matches date desc l); simpl; lia.
Qed.

Lemma forallb_filter_kept (date desc : string) (ls : list string) :
  forallb (kept date desc) (filter (kept date desc) ls) = true.
Proof.
  induction ls as [|l ls IH]; simpl; [reflexivity|].
  destruct (kept date desc l) eqn:K; simpl; [now rewrite K|exact IH].
Qed.

Lemma with_file_same (w : world) (c : string) :
  file w = Some c -> with_file w c = w.
Proof. destruct w; unfold with_file; simpl; now intros ->. Qed.

End Deleting.

(** ** The invariant of the file *)

Section Invariant.

Lemma record_body_intro (d desc : string) :
  is_iso_date d = true -> desc <> "" ->
  record_body (d ++ " | " ++ desc) = true.
Proof.
  intros Hd Hne. unfold record_body.
  apply iso_date_shape in Hd as Hs. destruct Hs as (Hl & _).
  rewrite <- Hl at 1. rewrite take_app, Hd.
  change 13 with (10 + 3). rewrite <- !drop_drop.
  rewrite <- Hl, drop_app. simpl.
  destruct desc; [congruence | reflexivity].
Qed.

Lemma record_body_inv (b : string) :
  record_body b = true ->
  exists d desc, b = d ++ " | " ++ desc /\ is_iso_date d = true /\ desc <> "".
Proof.
  unfold record_body. rewrite !andb_true_iff, negb_true_iff.
  intros [[Hd Hsep] Hne].
  exists (take 10 b), (drop 13 b). repeat split.
  - apply startswith_inv in Hsep. rewrite drop_drop in Hsep.
    change (10 + String.length " | ") with 13 in Hsep.
    rewrite <- Hsep. symmetry. apply take_drop.
  - exact Hd.
  - now apply String.eqb_neq.
Qed.

(** A record stays a record when text is added to its description. *)
Lemma record_body_app (b x : string) :
  record_body b = true -> record_body (b ++ x) = true.
Proof.
  intros H. apply record_body_inv in H as (d & desc & -> & Hd & Hne).
  rewrite !app_assoc. apply record_body_intro; [exact Hd|].
  destruct desc; [congruence | discriminate].
Qed.

Lemma chomp_terminated (b : string) :
  has_newline b = false -> chomp (b ++ newline) = b.
Proof.
  intros H. unfold chomp.
  rewrite <- (app_empty_r newline).
  now rewrite (break_line_terminated b "" H).
Qed.

Lemma chomp_unterminated (b : string) :
  has_newline b = false -> chomp b = b.
Proof. intros H. unfold chomp. now rewrite break_line_unterminated. Qed.

Lemma has_newline_app (a b : string) :
  has_newline (a ++ b) = has_newline a || has_newline b.
Proof. apply has_char_app. Qed.

Lemma lines_ok_append (ls : list string) (x : string) :
  line_list ls -> forallb line_ok ls = true ->
  has_newline x = false -> record_body x = true ->
  forallb line_ok (split_lines (join ls ++ x ++ newline)) = true.
Proof.
  intros Hls Hok Hx Hr.
  induction Hls as [|l Hne Hnl Hcl|b ls Hb Hcb Hls IH].
  - cbn [join append].
    rewrite <- (app_empty_r newline), (split_lines_terminated x "" Hx).
    cbn [split_lines forallb]. unfold line_ok.
    rewrite (chomp_terminated _ Hx), Hr. reflexivity.
  - cbn [join]. rewrite app_empty_r, <- app_assoc.
    assert (Hlx : has_newline (l ++ x) = false)
      by now rewrite has_newline_app, Hnl, Hx.
    rewrite <- (app_empty_r newline), (split_lines_terminated _ "" Hlx).
    cbn [split_lines forallb]. unfold line_ok.
    rewrite (chomp_terminated _ Hlx).
    cbn [forallb] in Hok. unfold line_ok in Hok.
    rewrite (chomp_unterminated _ Hnl), andb_true_r in Hok.
    now rewrite (record_body_app _ x Hok).
  - cbn [join forallb] in *. apply andb_true_iff in Hok as [Hb' Hok].
    rewrite !app_assoc, (split_lines_terminated _ _ Hb).
    cbn [forallb]. rewrite Hb'. apply (IH Hok).
Qed.

(** What is read after an event was appended: the text read before,
    followed by the line of the event. *)
Lemma universal_newlines_append (c d desc : string) :
  has_newline d = false -> d <> "" -> has_cr d = false ->
  has_cr desc = false ->
  universal_newlines (c ++ event_line d desc)
  = universal_newlines c ++ event_line d desc.
Proof.
  intros Hn Hne Hcd Hc. unfold event_line.
  rewrite universal_newlines_app by now apply startswith_newline.
  f_equal. apply universal_newlines_id.
  now rewrite !has_cr_app, Hcd, Hc.
Qed.

(** Appending an event keeps every line of the file a record. *)
Lemma file_ok_append (c d desc : string) :
  file_ok c = true -> is_iso_date d = true -> desc <> "" ->
  has_newline desc = false -> has_cr desc = false ->
  file_ok (c ++ event_line d desc) = true.
Proof.
  intros Hc Hd Hne Hn Hcr. unfold file_ok, readlines in *.
  destruct (iso_date_shape _ Hd) as (Hl & _ & Hnd & _).
  assert (Hcd : has_cr d = false) by now apply iso_date_no_cr.
  rewrite universal_newlines_append; trivial;
    [|intros ->; discriminate].
  rewrite <- (join_split_lines (universal_newlines c)) at 1.
  rewrite event_line_terminated.
  apply (lines_ok_append _ (d ++ " | " ++ desc));
    [apply split_lines_line_list, universal_newlines_no_cr | exact Hc | |].
  - now rewrite !has_newline_app, Hnd, Hn.
  - now apply record_body_intro.
Qed.

Lemma forallb_filter (f g : string -> bool) (ls : list string) :
  forallb f ls = true -> forallb f (filter g ls) = true.
Proof.
  induction ls as [|l ls IH]; simpl; [trivial|].
  intros H. apply andb_true_iff in H as [Hl Hls].
  destruct (g l); simpl; [now rewrite Hl, IH | now apply IH].
Qed.

(** Leaving lines out keeps every line of the file a record. *)
Lemma file_ok_filter (g : string -> bool) (c : string) :
  file_ok c = true -> file_ok (join (filter g (readlines c))) = true.
Proof.
  unfold file_ok. intros H.
  rewrite readlines_join by apply line_list_filter, readlines_line_list.
  now apply forallb_filter.
Qed.

Lemma keeps_view_loop (date : string) (lines : list string) (b : bool) :
  keeps_file (view_loop date lines b).
Proof.
  revert b; induction lines as [|l lines IH]; intros b; simpl.
  - apply keeps_ret.
  - destruct (startswith l date); [|apply IH].
    apply keeps_bind; [apply keeps_lift|]. intros p.
    apply keeps_bind; [apply keeps_print | intros _; apply IH].
Qed.

Lemma keeps_find_events (filename date : string) :
  keeps_file (find_events filename date).
Proof.
  unfold find_events. apply keeps_try; [|intros e; apply keeps_print].
  apply keeps_bind; [apply keeps_read_file|]. intros c.
  apply keeps_bind; [apply keeps_print|]. intros _.
  apply keeps_bind; [apply keeps_print|]. intros _.
  apply keeps_bind; [apply keeps_view_loop|]. intros b.
  destruct (negb b); [apply keeps_print | apply keeps_ret].
Qed.

Lemma store_ok_same_file (w w1 : world) :
  file w1 = file w -> store_ok w1 = store_ok w.
Proof. unfold store_ok. now intros ->. Qed.

Lemma append_event_run (filename d desc : string) (w : world) :
  append_event filename d desc w
  = (Returns tt,
     {| stdin := stdin w;
        stdout := (stdout w ++ [(added_message d ++ newline)%string])%list;
        file := Some (match file w with
                      | Some c => c ++ event_line d desc
                      | None => event_line d desc
                      end) |}).
Proof.
  reflexivity.
Qed.

(** A line that starts with the date and has no delimiter stops the
    listing with a [ValueError]. *)
Lemma view_loop_raises (date l : string) (lines : list string) (b : bool)
    (w : world) :
  In l lines -> startswith l date = true -> contains " | " l = false ->
  fst (view_loop date lines b w) = Raises ValueError.
Proof.
  intros Hin Hs Hc. revert b w.
  induction lines as [|l0 lines IH]; intros b w; [contradiction|].
  cbn [view_loop]. destruct Hin as [->|Hin].
  - rewrite Hs. unfold split1.
    rewrite (partition_none _ _ (contains_strip _ _ Hc)). reflexivity.
  - destruct (startswith l0 date); [|now apply IH].
    unfold bind, lift. destruct (unpack2 _) as [p|e] eqn:U.
    + rewrite print_printed. now apply IH.
    + unfold unpack2 in U. cbn [fst].
      destruct (split1 _ _) as [|? [|? [|? ?]]]; congruence.
Qed.

End Invariant.

(** ** What [add_event] writes *)

Section Adding.

Variable parse : string -> res datetime.
Variable filename : string.

Lemma stripped_line_is_stored (raw : string) :
  has_newline raw = false -> strip raw <> "" ->
  stored_description (strip raw) = true.
Proof.
  intros Hn Hne. unfold stored_description.
  destruct (strip_shape raw) as [E|[Hs He]]; [contradiction|].
  rewrite Hs, He. unfold has_newline in *.
  now rewrite (has_char_strip _ _ Hn).
Qed.

(** [add_event] leaves the file as it is, or appends the line of the
    date that [get_valid_date] returned and of the stripped, non-empty
    line that was typed after it. *)
Lemma add_event_steps (w : world) :
  let w1 := snd (add_event parse filename w) in
  file w1 = file w
  \/ exists d wd raw wr,
       get_valid_date parse "Enter event date (YYYY-MM-DD): " w
       = (Returns d, wd)
       /\ input "Enter event description: " wd = (Returns raw, wr)
       /\ recorded parse (d, strip raw)
       /\ file w1 = Some (match file w with
                          | Some c => c ++ event_line d (strip raw)
                          | None => event_line d (strip raw)
                          end).
Proof.
  unfold add_event, bind.
  pose proof (keeps_get_valid_date parse
                "Enter event date (YYYY-MM-DD): " w) as K.
  destruct (get_valid_date parse _ w) as [[d|e] w1] eqn:G;
    cbn [snd] in *; [|now left].
  pose proof (get_valid_date_valid parse _ _ _ _ G) as V.
  pose proof (keeps_input "Enter event description: " w1) as K1.
  destruct (input _ w1) as [[raw|e] w2] eqn:I; cbn [snd] in *;
    [|left; congruence].
  pose proof (input_returns _ _ _ _ I) as (Hn & _).
  destruct (strip raw =? "") eqn:E.
  - left. rewrite print_printed. cbn [snd printed file]. congruence.
  - right. exists d, w1, raw, w2. apply String.eqb_neq in E.
    split; [reflexivity|]. split; [exact I|]. split.
    + split; [exact V | now apply stripped_line_is_stored].
    + rewrite append_event_run. cbn [snd file]. now rewrite K1, K.
Qed.

(** [add_event] leaves the file as it is, or appends the line of a
    validated date and a stripped, non-empty description. *)
Lemma add_event_writes (w : world) :
  let w1 := snd (add_event parse filename w) in
  file w1 = file w
  \/ exists d desc,
       recorded parse (d, desc)
       /\ file w1 = Some (match file w with
                          | Some c => c ++ event_line d desc
                          | None => event_line d desc
                          end).
Proof.
  destruct (add_event_steps w) as [E|(d & _ & raw & _ & _ & _ & R & E)];
    [now left | right]. now exists d, (strip raw).
Qed.

Lemma recorded_appends_ok (c d desc : string) :
  recorded parse (d, desc) -> String.length d = 10 ->
  has_cr desc = false -> file_ok c = true ->
  file_ok (c ++ event_line d desc) = true.
Proof.
  intros [Hd Hdesc] Hlen Hcr Hc. cbn [fst snd] in *.
  apply stored_description_inv in Hdesc as (_ & He & Hn).
  apply file_ok_append; trivial.
  - now apply (validated_ten_is_iso parse).
  - intros ->. discriminate.
Qed.

End Adding.

(** * The claims *)

Section Claims.

Variable parse : string -> res datetime.
Variable filename : string.

(** C1, for descriptions without a carriage return.  After any sequence
    of appends to an empty file, by which the program records validated
    dates with the descriptions it was given, none of which holds a
    carriage return, listing the events of a validated date shows exactly
    the descriptions appended under that date, in the order of the
    appends. *)
Theorem appended_events_are_listed (events : list (string * string))
    (q : string) (w : world) :
  Forall (plain parse) events ->
  validate_date parse q = Returns true ->
  file w = Some "" ->
  let w1 := snd (append_events filename events w) in
  let found := descriptions_of q events in
  file w1 = Some (join (map (fun e => event_line (fst e) (snd e)) events))
  /\ find_events filename q w1
     = (Returns tt,
        printed w1
          (listing_header q ++ map bullet found
           ++ match found with
              | [] => [(no_events_message ++ newline)%string]
              | _ => []
              end)%list).
Proof.
  intros Hpl Hq Hw w1 found.
  assert (Hev : Forall (recorded parse) events)
    by (eapply Forall_impl; [|exact Hpl]; now intros e [He _]).
  destruct (append_events_run filename events w "" Hw) as [_ Hf].
  fold w1 in Hf. rewrite appended_join in Hf. simpl in Hf.
  split; [exact Hf|].
  unfold find_events, try_except, bind, read_file. rewrite Hf.
  rewrite !print_printed, printed_printed.
  rewrite (readlines_join _ (event_lines_line_list parse events Hpl)).
  rewrite (view_loop_events parse events q false _ Hev Hq).
  fold found. rewrite printed_printed. cbn [orb].
  destruct found; cbn [List.length Nat.eqb negb map].
  - rewrite print_printed, printed_printed. reflexivity.
  - unfold ret. now rewrite List.app_nil_r.
Qed.

(** C2.  For every content of the file, [delete_matching] leaves out the
    lines that start with the date and contain the description, and only
    those: the lines of the new file are the other lines, in their order.
    None of them matches, and a description that a later listing of the
    date takes from a line does not contain the deleted text. *)
Theorem delete_matching_removes_matches (date desc c : string) (w : world) :
  file w = Some c ->
  let w1 := snd (delete_matching filename date desc w) in
  exists c1,
    file w1 = Some c1
    /\ readlines c1 = filter (kept date desc) (readlines c)
    /\ forallb (kept date desc) (readlines c1) = true
    /\ (forall l, In l (readlines c1) <->
                  In l (readlines c) /\ matches date desc l = false)
    /\ (forall l a b,
          In l (readlines c1) -> startswith l date = true ->
          split1 (strip l) " | " = [a; b] -> contains desc b = false).
Proof.
  intros Hf w1. unfold w1. rewrite (delete_matching_run filename _ _ _ c Hf).
  exists (join (filter (kept date desc) (readlines c))).
  assert (E : readlines (join (filter (kept date desc) (readlines c)))
              = filter (kept date desc) (readlines c))
    by apply readlines_join, line_list_filter, readlines_line_list.
  rewrite E.
  assert (Hin : forall l, In l (filter (kept date desc) (readlines c)) <->
                          In l (readlines c) /\ matches date desc l = false).
  { intros l. rewrite filter_In. unfold kept.
    now rewrite negb_true_iff. }
  split; [reflexivity|]. split; [reflexivity|].
  split; [apply forallb_filter_kept|]. split; [exact Hin|].
  intros l a b Hl Hs Hsplit. apply Hin in Hl as [_ Hm].
  unfold matches in Hm. rewrite Hs in Hm. cbn [andb] in Hm.
  unfold split1 in Hsplit.
  destruct (partition " | " (strip l)) as [[a' b']|] eqn:P;
    [|discriminate].
  injection Hsplit as -> ->. apply partition_some in P.
  destruct (contains desc b) eqn:Cb; [|reflexivity].
  apply (contains_app_r _ " | "), (contains_app_r _ a) in Cb.
  rewrite <- P in Cb.
  now rewrite (contains_strip _ _ Hm) in Cb.
Qed.

(** C3.  A date before the year 1000 written as YYYY-MM-DD is refused:
    whatever the parser, when it reads a text of ten characters as such a
    date, [validate_date] answers false, since ["%Y"] writes the year
    without leading zeros and the text of the date is shorter than the
    input. *)
Theorem validate_date_refuses_early_years (s : string) (dt : datetime) :
  parse s = Returns dt -> (year dt < 1000)%Z -> String.length s = 10 ->
  validate_date parse s = Returns false.
Proof.
  intros Hp Hy Hlen. unfold validate_date. rewrite Hp.
  destruct (strftime_Ymd dt =? s) eqn:E; [|reflexivity].
  apply String.eqb_eq in E. apply (f_equal String.length) in E.
  pose proof (valid_date_bounds _ _ _ (in_range dt)) as (Hy1 & _ & _).
  pose proof (str_of_int_short (year dt)) as Hs.
  unfold strftime_Ymd in E. rewrite length_app in E.
  change (String.length (month_day_text (month dt) (day dt))) with 6 in E.
  lia.
Qed.

(** C4, as the program has it.  [delete_matching] returns nothing and keeps
    no count: it tells the user that the event was deleted when at least
    one line was left out, and that no matching event was found when none
    was; neither case is an error. *)
Theorem delete_matching_reports_found (date desc c : string) (w : world) :
  file w = Some c ->
  let r := delete_matching filename date desc w in
  let n := removed_count date desc c in
  fst r = Returns tt
  /\ stdout (snd r)
     = (stdout w ++ [((if Nat.eqb n 0 then no_match_message
                       else deleted_message date) ++ newline)%string])%list
  /\ exists c1, file (snd r) = Some c1
                /\ List.length (readlines c1) + n = List.length (readlines c).
Proof.
  intros Hf r n. unfold r, n, removed_count.
  rewrite (delete_matching_run filename _ _ _ c Hf).
  rewrite existsb_matches_count. cbn [fst snd printed stdout with_file].
  split; [reflexivity|]. split.
  - now destruct (Nat.eqb _ 0).
  - eexists. split; [reflexivity|].
    rewrite readlines_join
      by apply line_list_filter, readlines_line_list.
    apply filter_kept_length.
Qed.

(** C5, as the program has it.  When no line both starts with the date
    and contains the description, [delete_matching] reports that no
    matching event was found and writes the file back as it was read: a
    file without carriage return is, character for character, what it
    was, and in another one each CR LF and each CR has become LF. *)
Theorem delete_matching_no_match (date desc c : string) (w : world) :
  file w = Some c ->
  forallb (kept date desc) (readlines c) = true ->
  delete_matching filename date desc w
  = (Returns tt,
     printed (with_file w (universal_newlines c))
       [no_match_message ++ newline])
  /\ (has_cr c = false ->
      file (snd (delete_matching filename date desc w)) = Some c).
Proof.
  intros Hf Hk. rewrite (delete_matching_run filename _ _ _ c Hf).
  rewrite (filter_kept_all _ _ _ Hk), join_readlines.
  rewrite (existsb_matches_none _ _ _ Hk).
  split; [reflexivity|]. intros Hcr. cbn [snd printed with_file file].
  now rewrite universal_newlines_id.
Qed.

(** C7.  When the year and the month are read as integers and the month
    is below 1 or above 12, [display_calendar] shows the message about the
    month and nothing else: no title, no row of week days, no day. *)
Theorem display_calendar_invalid_month (w w1 w2 : world)
    (ytext mtext : string) (y m : Z) :
  input "Enter year (e.g., 2025): " w = (Returns ytext, w1) ->
  py_int (strip ytext) = Returns y ->
  input "Enter month (1-12): " w1 = (Returns mtext, w2) ->
  py_int (strip mtext) = Returns m ->
  (m < 1 \/ m > 12)%Z ->
  display_calendar w
  = (Returns tt, printed w2 [invalid_month_message ++ newline])
  /\ stdout (snd (display_calendar w))
     = (stdout w ++ ["Enter year (e.g., 2025): "; "Enter month (1-12): ";
                     (invalid_month_message ++ newline)%string])%list.
Proof.
  intros Iy Py Im Pm Hm.
  assert (E : display_calendar w
              = (Returns tt, printed w2 [invalid_month_message ++ newline])).
  { unfold display_calendar, try_except, bind, lift.
    rewrite Iy, Py, Im, Pm.
    assert (Hb : ((m <? 1) || (m >? 12))%Z = true).
    { apply orb_true_iff. destruct Hm; [left | right].
      - now apply Z.ltb_lt.
      - apply Z.gtb_lt. lia. }
    rewrite Hb. apply print_printed. }
  split; [exact E|]. rewrite E. cbn [snd printed stdout].
  apply input_stdout in Iy, Im. rewrite Im, Iy.
  now rewrite <- !List.app_assoc.
Qed.

(** C8, as the program has it.  An empty file satisfies the invariant of
    the store, that every line is a valid date of ten characters, the
    delimiter and a non-empty description.  [__init__], [view_events] and
    [delete_event] keep it, and [add_event] keeps it when the date it
    takes has ten characters and the description it takes, once stripped,
    holds no carriage return. *)
Theorem store_invariant_preserved :
  (forall w, file w = Some "" -> store_ok w = true)
  /\ (forall w,
         store_ok w = true ->
         store_ok (snd (init w)) = true
         /\ store_ok (snd (view_events parse filename w)) = true
         /\ store_ok (snd (delete_event parse filename w)) = true
         /\ ((forall d wd raw wr,
                 get_valid_date parse "Enter event date (YYYY-MM-DD): " w
                 = (Returns d, wd) ->
                 input "Enter event description: " wd = (Returns raw, wr) ->
                 String.length d = 10 /\ has_cr (strip raw) = false) ->
             store_ok (snd (add_event parse filename w)) = true)).
Proof.
  split; [intros w Hf; unfold store_ok; now rewrite Hf|].
  intros w Hw. split; [|split; [|split]].
  - unfold init. destruct (file w) eqn:Hf; [exact Hw | reflexivity].
  - pose proof (keeps_bind
                  (get_valid_date parse
                     "Enter date to view events (YYYY-MM-DD): ")
                  (find_events filename)
                  (keeps_get_valid_date parse _)
                  (keeps_find_events filename) w) as K.
    now rewrite (store_ok_same_file w (snd (view_events parse filename w)) K).
  - unfold delete_event, bind.
    pose proof (keeps_get_valid_date parse
                  "Enter event date (YYYY-MM-DD): " w) as K.
    destruct (get_valid_date parse _ w) as [[d|e] w1] eqn:G;
      cbn [snd] in *; [|now rewrite (store_ok_same_file _ _ K)].
    pose proof (keeps_input "Enter event description to delete: " w1)
      as K1.
    destruct (input _ w1) as [[raw|e] w2] eqn:I; cbn [snd] in *;
      [|rewrite (store_ok_same_file w w2); congruence].
    assert (Hw2 : store_ok w2 = true)
      by (rewrite (store_ok_same_file w w2); congruence).
    destruct (strip raw =? "") eqn:E.
    + rewrite print_printed. exact Hw2.
    + unfold store_ok in *. destruct (file w2) as [c|] eqn:Hf.
      * rewrite (delete_matching_run filename _ _ _ c Hf).
        cbn [snd printed with_file file]. now apply file_ok_filter.
      * now rewrite (delete_matching_missing filename _ _ _ Hf).
  - intros Htyped.
    destruct (add_event_steps parse filename w)
      as [E|(d & wd & raw & wr & G & I & Hrec & E)].
    + now rewrite (store_ok_same_file _ _ E).
    + destruct (Htyped d wd raw wr G I) as [Hlen Hcr].
      unfold store_ok in *. rewrite E. destruct (file w) as [c|].
      * now apply (recorded_appends_ok parse).
      * now apply (recorded_appends_ok parse "").
Qed.

(** C9.  When the file has a line whose first ten characters are the date
    asked for and which has no delimiter, [view_events] raises
    [ValueError]: the unpacking of the split line fails, and the handler
    of the operation takes I/O errors only. *)
Theorem view_events_unpack_error (w w1 : world) (date c l : string) :
  get_valid_date parse "Enter date to view events (YYYY-MM-DD): " w
  = (Returns date, w1) ->
  file w = Some c -> In l (readlines c) ->
  take 10 l = date -> contains " | " l = false ->
  fst (view_events parse filename w) = Raises ValueError.
Proof.
  intros G Hf Hin Ht Hc.
  pose proof (keeps_get_valid_date parse
                "Enter date to view events (YYYY-MM-DD): " w) as K.
  unfold view_events, bind. rewrite G in *. cbn [snd] in K.
  unfold find_events, try_except, bind, read_file. rewrite K, Hf.
  rewrite !print_printed.
  assert (Hs : startswith l date = true).
  { rewrite <- Ht. rewrite <- (take_drop 10 l) at 1. apply startswith_app. }
  pose proof (view_loop_raises date l (readlines c) false
                (printed (printed w1 [(newline ++ "Events for " ++ date
                                       ++ ":") ++ newline])
                   [rule40 ++ newline]) Hin Hs Hc) as R.
  destruct (view_loop date (readlines c) false _) as [[b|e] w2];
    cbn [fst] in R; [discriminate|].
  injection R as ->. reflexivity.
Qed.

End Claims.

Lemma appended_events_are_listed_two_events :
  Forall (plain Sample.parse) Sample.two_events
  /\ validate_date Sample.parse "2025-05-20" = Returns true
  /\ let w1 := snd (append_events Sample.filename Sample.two_events
                      (Sample.console "" (Some ""))) in
     file w1 = Some (join (map (fun e => event_line (fst e) (snd e))
                             Sample.two_events))
     /\ find_events Sample.filename "2025-05-20" w1
        = (Returns tt,
           printed w1
             (listing_header "2025-05-20"
              ++ [bullet "Team meeting"; bullet "Dentist"])%list).
Proof.
  assert (H : Forall (plain Sample.parse) Sample.two_events)
    by (repeat constructor).
  assert (Hq : validate_date Sample.parse "2025-05-20" = Returns true)
    by reflexivity.
  split; [exact H|]. split; [exact Hq|].
  exact (appended_events_are_listed Sample.parse Sample.filename
           Sample.two_events "2025-05-20" (Sample.console "" (Some ""))
           H Hq eq_refl).
Defined.

(** A description with a carriage return inside is recorded as it was
    typed, and read back as two lines: the listing shows its first part
    only. *)
Lemma appended_description_is_cut_at_cr :
  let events := [("2025-05-20", String "a" (String CR "b"))] in
  let w1 := snd (append_events Sample.filename events
                   (Sample.console "" (Some ""))) in
  Forall (recorded Sample.parse) events
  /\ descriptions_of "2025-05-20" events = [String "a" (String CR "b")]
  /\ file w1 = Some (join (map (fun e => event_line (fst e) (snd e))
                             events))
  /\ find_events Sample.filename "2025-05-20" w1
     = (Returns tt,
        printed w1 (listing_header "2025-05-20" ++ [bullet "a"])%list)
  /\ find_events Sample.filename "2025-05-20" w1
     <> (Returns tt,
         printed w1
           (listing_header "2025-05-20"
            ++ map bullet (descriptions_of "2025-05-20" events))%list).
Proof.
  intros events w1.
  split; [repeat constructor|]. split; [reflexivity|].
  split; [reflexivity|]. split; [reflexivity|].
  intros E. vm_compute in E. discriminate E.
Qed.

Lemma delete_matching_removes_matches_example :
  let w := Sample.console ""
             (Some (event_line "2025-05-20" "Team meeting"
                    ++ event_line "2025-05-21" "Team lunch"
                    ++ event_line "2025-05-20" "Dentist")) in
  file w = Some (event_line "2025-05-20" "Team meeting"
                 ++ event_line "2025-05-21" "Team lunch"
                 ++ event_line "2025-05-20" "Dentist")
  /\ exists c1,
       file (snd (delete_matching Sample.filename "2025-05-20" "Team" w))
       = Some c1
       /\ readlines c1
          = [event_line "2025-05-21" "Team lunch";
             event_line "2025-05-20" "Dentist"].
Proof.
  intros w. split; [reflexivity|].
  destruct (delete_matching_removes_matches Sample.filename
              "2025-05-20" "Team" _ w eq_refl) as (c1 & H1 & H2 & _).
  exists c1. split; [exact H1 | exact H2].
Defined.

Lemma validate_date_refuses_early_years_example :
  validate_date Sample.parse "0999-01-01" = Returns false.
Proof.
  destruct (Sample.parse "0999-01-01") as [dt|e] eqn:E; [|discriminate].
  apply (validate_date_refuses_early_years Sample.parse "0999-01-01" dt E);
    [|reflexivity].
  injection E as <-. cbn [year]. lia.
Defined.

(** The report of [delete_matching] is the same whether one line or two
    were left out: no number of deleted lines can be read from it. *)
Lemma delete_matching_returns_no_count :
  ~ exists count : res unit * list string -> nat,
      forall (date desc c : string) (w : world),
        file w = Some c ->
        let r := delete_matching Sample.filename date desc w in
        count (fst r, stdout (snd r)) = removed_count date desc c.
Proof.
  intros [count H].
  pose proof (H "2025-05-20" "Team" (event_line "2025-05-20" "Team meeting")
                (Sample.console "" (Some (event_line "2025-05-20"
                                            "Team meeting")))
                eq_refl) as H1.
  pose proof (H "2025-05-20" "Team"
                (event_line "2025-05-20" "Team meeting"
                 ++ event_line "2025-05-20" "Team lunch")
                (Sample.console "" (Some (event_line "2025-05-20"
                                            "Team meeting"
                                          ++ event_line "2025-05-20"
                                               "Team lunch")))
                eq_refl) as H2.
  vm_compute in H1, H2. congruence.
Qed.

Lemma delete_matching_reports_found_example :
  let w := Sample.console ""
             (Some (event_line "2025-05-20" "Team meeting"
                    ++ event_line "2025-05-20" "Team lunch")) in
  stdout (snd (delete_matching Sample.filename "2025-05-20" "Team" w))
  = [deleted_message "2025-05-20" ++ newline].
Proof.
  intros w.
  destruct (delete_matching_reports_found Sample.filename
              "2025-05-20" "Team" _ w eq_refl) as (_ & H & _).
  exact H.
Defined.

(** A file whose line ends with CR LF is written back with LF, although
    no line matches. *)
Lemma delete_matching_rewrites_line_ends :
  let c := ("2025-05-20 | Dentist" ++ String CR newline)%string in
  let w := Sample.console "" (Some c) in
  forallb (kept "2025-05-21" "Team") (readlines c) = true
  /\ removed_count "2025-05-21" "Team" c = 0
  /\ file (snd (delete_matching Sample.filename "2025-05-21" "Team" w))
     = Some ("2025-05-20 | Dentist" ++ newline)
  /\ file (snd (delete_matching Sample.filename "2025-05-21" "Team" w))
     <> file w.
Proof.
  intros c w. split; [reflexivity|]. split; [reflexivity|].
  split; [reflexivity|]. intros E. vm_compute in E. discriminate E.
Qed.

Lemma delete_matching_no_match_example :
  let w := Sample.console "" (Some (event_line "2025-05-20" "Dentist")) in
  file (snd (delete_matching Sample.filename "2025-05-20" "Team" w))
  = Some (event_line "2025-05-20" "Dentist").
Proof.
  intros w.
  destruct (delete_matching_no_match Sample.filename
              "2025-05-20" "Team" _ w eq_refl eq_refl) as (_ & H).
  exact (H eq_refl).
Defined.

(** C6.  On a string of twenty nines the parser raises [OverflowError],
    which is not a [ValueError]: [validate_date] does not return false, the
    exception leaves it. *)
Theorem validate_date_overflow_escapes :
  validate_date Sample.parse "99999999999999999999" = Raises OverflowError.
Proof. now apply validate_date_propagates. Qed.

Lemma display_calendar_invalid_month_example :
  display_calendar (Sample.console (Sample.typed ["2025"; "13"]) None)
  = (Returns tt,
     {| stdin := "";
        stdout := ["Enter year (e.g., 2025): "; "Enter month (1-12): ";
                   invalid_month_message ++ newline];
        file := None |})
  /\ display_calendar (Sample.console (Sample.typed ["2025"; "0"]) None)
     = (Returns tt,
        {| stdin := "";
           stdout := ["Enter year (e.g., 2025): "; "Enter month (1-12): ";
                      invalid_month_message ++ newline];
           file := None |}).
Proof.
  split.
  - apply (display_calendar_invalid_month
             (Sample.console (Sample.typed ["2025"; "13"]) None)
             _ _ "2025" "13" 2025 13 eq_refl eq_refl eq_refl eq_refl).
    right. lia.
  - apply (display_calendar_invalid_month
             (Sample.console (Sample.typed ["2025"; "0"]) None)
             _ _ "2025" "0" 2025 0 eq_refl eq_refl eq_refl eq_refl).
    left. lia.
Defined.

(** [add_event] breaks the invariant of the store in two ways.  A
    description typed with a carriage return inside is written as it is
    and read back as two lines, the second of which is no record.  And
    the date 999-01-01, of nine characters, is taken and written. *)
Lemma add_event_breaks_store_invariant :
  let w := Sample.console
             (Sample.typed ["2025-05-20"; String "a" (String CR "b")])
             (Some "") in
  let w' := Sample.console (Sample.typed ["999-01-01"; "Old"]) (Some "") in
  store_ok w = true
  /\ file (snd (add_event Sample.parse Sample.filename w))
     = Some ("2025-05-20 | a" ++ String CR ("b" ++ newline))
  /\ store_ok (snd (add_event Sample.parse Sample.filename w)) = false
  /\ store_ok w' = true
  /\ file (snd (add_event Sample.parse Sample.filename w'))
     = Some ("999-01-01 | Old" ++ newline)
  /\ store_ok (snd (add_event Sample.parse Sample.filename w')) = false.
Proof. intros w w'. repeat split. Qed.

Lemma store_invariant_preserved_example :
  let w := Sample.console
             (Sample.typed ["2025-05-21"; "Team lunch"])
             (Some (event_line "2025-05-20" "Team meeting")) in
  store_ok w = true
  /\ store_ok (snd (add_event Sample.parse Sample.filename w)) = true
  /\ store_ok (snd (delete_event Sample.parse Sample.filename w)) = true.
Proof.
  intros w.
  destruct (store_invariant_preserved Sample.parse Sample.filename)
    as [_ H].
  destruct (H w eq_refl) as (_ & _ & Hdel & Hadd).
  split; [reflexivity|]. split; [|exact Hdel].
  apply Hadd. intros d wd raw wr G I.
  vm_compute in G. injection G as <- <-.
  vm_compute in I. injection I as <- <-.
  split; reflexivity.
Defined.

Lemma view_events_unpack_error_example :
  fst (view_events Sample.parse Sample.filename
         (Sample.console (Sample.typed ["2025-05-20"])
            (Some ("2025-05-20 Team meeting" ++ newline))))
  = Raises ValueError.
Proof.
  apply (view_events_unpack_error Sample.parse Sample.filename
           (Sample.console (Sample.typed ["2025-05-20"])
              (Some ("2025-05-20 Team meeting" ++ newline)))
           _ "2025-05-20" ("2025-05-20 Team meeting" ++ newline)
           ("2025-05-20 Team meeting" ++ newline)
           eq_refl eq_refl (or_introl eq_refl) eq_refl eq_refl).
Defined.

(** C10.  A valid date before the year 1000 typed between blanks as
    YYYY-MM-DD is stripped and then refused, and the same date typed
    without its leading zero is accepted and written in nine characters:
    [add_event] asks for the date a second time and appends the line
    [999-01-01 | Old]. *)
Theorem add_event_stores_short_year :
  add_event Sample.parse Sample.filename
    (Sample.console (Sample.typed [" 0999-01-01 "; "999-01-01"; " Old "])
       (Some ""))
  = (Returns tt,
     {| stdin := "";
        stdout := ["Enter event date (YYYY-MM-DD): ";
                   "Invalid date format. Please use YYYY-MM-DD (e.g., 2025-05-20)"
                   ++ newline;
                   "Enter event date (YYYY-MM-DD): ";
                   "Enter event description: ";
                   "Event added successfully for 999-01-01!" ++ newline];
        file := Some ("999-01-01 | Old" ++ newline) |}).
Proof. reflexivity. Qed.

(** * Further properties of the program *)

(** ** Relations that every step of a computation keeps *)

Section Preserving.

Variable R : world -> world -> Prop.
Hypothesis R_refl : forall w, R w w.
Hypothesis R_trans : forall w1 w2 w3, R w1 w2 -> R w2 w3 -> R w1 w3.

Lemma preserves_ret {A} (a : A) : preserves R (ret a).
Proof. intros w. apply R_refl. Qed.

Lemma preserves_raise {A} (e : exn) : preserves R (raise (A := A) e).
Proof. intros w. apply R_refl. Qed.

Lemma preserves_lift {A} (r : res A) : preserves R (lift r).
Proof. intros w. apply R_refl. Qed.

Lemma preserves_bind {A B} (m : io A) (k : A -> io B) :
  preserves R m -> (forall a, preserves R (k a)) -> preserves R (bind m k).
Proof.
  intros Hm Hk w. unfold bind. specialize (Hm w).
  destruct (m w) as [[a|e] w1]; cbn [snd] in *; [|exact Hm].
  exact (R_trans _ _ _ Hm (Hk a w1)).
Qed.

Lemma preserves_try {A} (body : io A) (cls : exn) (handler : exn -> io A) :
  preserves R body -> (forall e, preserves R (handler e)) ->
  preserves R (try_except body cls handler).
Proof.
  intros Hb Hh w. unfold try_except. specialize (Hb w).
  destruct (body w) as [[a|e] w1]; cbn [snd] in *; [exact Hb|].
  destruct (isinstance e cls); [|exact Hb].
  exact (R_trans _ _ _ Hb (Hh e w1)).
Qed.

Hypothesis R_write_out : forall s, preserves R (write_out s).
Hypothesis R_input : forall p, preserves R (input p).
Hypothesis R_read_file : preserves R read_file.

Lemma preserves_print (s : string) : preserves R (print s).
Proof. apply R_write_out. Qed.

Lemma preserves_display_menu : preserves R display_menu.
Proof.
  unfold display_menu.
  repeat (apply preserves_bind; [apply preserves_print | intros _]).
  apply preserves_print.
Qed.

Lemma preserves_get_valid_date_loop (parse : string -> res datetime)
    (fuel : nat) (prompt : string) :
  preserves R (get_valid_date_loop parse fuel prompt).
Proof.
  induction fuel as [|fuel IH]; cbn [get_valid_date_loop];
    [apply preserves_raise|].
  apply preserves_bind; [apply R_input | intros raw].
  apply preserves_bind; [apply preserves_lift | intros [|]].
  - apply preserves_ret.
  - apply preserves_bind; [apply preserves_print | intros _; exact IH].
Qed.

Lemma preserves_get_valid_date (parse : string -> res datetime)
    (prompt : string) :
  preserves R (get_valid_date parse prompt).
Proof. intros w. apply preserves_get_valid_date_loop. Qed.

Lemma preserves_print_week (week : list Z) : preserves R (print_week week).
Proof.
  induction week as [|d week IH]; cbn [print_week]; [apply preserves_ret|].
  apply preserves_bind; [|intros _; exact IH].
  destruct (d =? 0)%Z; apply R_write_out.
Qed.

Lemma preserves_print_weeks (cal : list (list Z)) :
  preserves R (print_weeks cal).
Proof.
  induction cal as [|week cal IH]; cbn [print_weeks]; [apply preserves_ret|].
  apply preserves_bind; [apply preserves_print_week | intros _].
  apply preserves_bind; [apply preserves_print | intros _; exact IH].
Qed.

Lemma preserves_display_calendar : preserves R display_calendar.
Proof.
  unfold display_calendar.
  apply preserves_try; [|intros _; apply preserves_print].
  apply preserves_bind; [apply R_input | intros ytext].
  apply preserves_bind; [apply preserves_lift | intros y].
  apply preserves_bind; [apply R_input | intros mtext].
  apply preserves_bind; [apply preserves_lift | intros m].
  destruct ((m <? 1) || (m >? 12))%Z; [apply preserves_print|].
  apply preserves_bind; [apply preserves_print | intros _].
  apply preserves_bind; [apply preserves_print | intros _].
  apply preserves_print_weeks.
Qed.

Lemma preserves_view_loop (date : string) (lines : list string) (b : bool) :
  preserves R (view_loop date lines b).
Proof.
  revert b; induction lines as [|l lines IH]; intros b; cbn [view_loop].
  - apply preserves_ret.
  - destruct (startswith l date); [|apply IH].
    apply preserves_bind; [apply preserves_lift | intros p].
    apply preserves_bind; [apply preserves_print | intros _; apply IH].
Qed.

Lemma preserves_find_events (filename date : string) :
  preserves R (find_events filename date).
Proof.
  unfold find_events.
  apply preserves_try; [|intros e; apply preserves_print].
  apply preserves_bind; [apply R_read_file | intros c].
  apply preserves_bind; [apply preserves_print | intros _].
  apply preserves_bind; [apply preserves_print | intros _].
  apply preserves_bind; [apply preserves_view_loop | intros b].
  destruct (negb b); [apply preserves_print | apply preserves_ret].
Qed.

Lemma preserves_view_events (parse : string -> res datetime)
    (filename : string) :
  preserves R (view_events parse filename).
Proof.
  unfold view_events.
  apply preserves_bind; [apply preserves_get_valid_date | intros d].
  apply preserves_find_events.
Qed.

Hypothesis R_f_write : forall text, preserves R (f_write text).
Hypothesis R_open_truncate : preserves R open_truncate.

Lemma preserves_add_event (parse : string -> res datetime)
    (filename : string) :
  preserves R (add_event parse filename).
Proof.
  unfold add_event.
  apply preserves_bind; [apply preserves_get_valid_date | intros d].
  apply preserves_bind; [apply R_input | intros raw].
  destruct (strip raw =? ""); [apply preserves_print|].
  unfold append_event.
  apply preserves_try; [|intros e; apply preserves_print].
  apply preserves_bind; [apply R_f_write | intros _; apply preserves_print].
Qed.

Lemma preserves_rewrite_loop (date desc : string) (events : list string)
    (b : bool) :
  preserves R (rewrite_loop date desc events b).
Proof.
  revert b; induction events as [|l events IH]; intros b;
    cbn [rewrite_loop]; [apply preserves_ret|].
  destruct (negb (matches date desc l)); [|apply IH].
  apply preserves_bind; [apply R_f_write | intros _; apply IH].
Qed.

Lemma preserves_delete_event (parse : string -> res datetime)
    (filename : string) :
  preserves R (delete_event parse filename).
Proof.
  unfold delete_event.
  apply preserves_bind; [apply preserves_get_valid_date | intros d].
  apply preserves_bind; [apply R_input | intros raw].
  destruct (strip raw =? ""); [apply preserves_print|].
  unfold delete_matching.
  apply preserves_try; [|intros e; apply preserves_print].
  apply preserves_bind; [apply R_read_file | intros c].
  apply preserves_bind; [apply R_open_truncate | intros _].
  apply preserves_bind; [apply preserves_rewrite_loop | intros [|]];
    apply preserves_print.
Qed.

End Preserving.

Section RunPreserving.

Variable R : world -> world -> Prop.
Hypothesis R_refl : forall w, R w w.
Hypothesis R_trans : forall w1 w2 w3, R w1 w2 -> R w2 w3 -> R w1 w3.
Hypothesis R_write_out : forall s, preserves R (write_out s).
Hypothesis R_input : forall p, preserves R (input p).

Variable parse : string -> res datetime.
Variable filename : string.

Hypothesis R_display : preserves R display_calendar.
Hypothesis R_add : preserves R (add_event parse filename).
Hypothesis R_view : preserves R (view_events parse filename).
Hypothesis R_delete : preserves R (delete_event parse filename).

(** What the four operations keep, the menu loop keeps. *)
Lemma preserves_run_loop (fuel : nat) :
  preserves R (run_loop parse filename fuel).
Proof.
  induction fuel as [|fuel IH]; cbn [run_loop];
    [now apply preserves_raise|].
  apply (preserves_bind R R_trans);
    [now apply preserves_display_menu | intros _].
  apply (preserves_bind R R_trans); [apply R_input | intros raw].
  repeat match goal with
         | |- preserves R (if ?b then _ else _) => destruct b
         | |- preserves R (bind _ _) =>
             apply (preserves_bind R R_trans);
             [first [assumption | now apply preserves_print] | intros _]
         end;
    try exact IH; now apply preserves_print.
Qed.

Lemma preserves_run : preserves R (run parse filename).
Proof. intros w. apply preserves_run_loop. Qed.

End RunPreserving.

(** ** The four relations *)

Section Relations.

Lemma reads_forward_refl (w : world) : reads_forward w w.
Proof. unfold reads_forward. lia. Qed.

Lemma reads_forward_trans (w1 w2 w3 : world) :
  reads_forward w1 w2 -> reads_forward w2 w3 -> reads_forward w1 w3.
Proof. unfold reads_forward. lia. Qed.

Lemma reads_forward_write_out (s : string) :
  preserves reads_forward (write_out s).
Proof. intros w. unfold reads_forward. simpl. lia. Qed.

Lemma reads_forward_input (p : string) : preserves reads_forward (input p).
Proof.
  intros w. unfold reads_forward.
  destruct (input p w) as [[l|e] w1] eqn:I; cbn [snd].
  - apply input_returns in I. lia.
  - unfold input in I. destruct (stdin w) as [|c s] eqn:E.
    + injection I as _ <-. simpl. lia.
    + cbv iota beta in I. destruct (break_line (String c s)); discriminate.
Qed.

Lemma reads_forward_read_file : preserves reads_forward read_file.
Proof.
  intros w. unfold read_file, reads_forward. destruct (file w); simpl; lia.
Qed.

Lemma reads_forward_f_write (text : string) :
  preserves reads_forward (f_write text).
Proof. intros w. unfold reads_forward. simpl. lia. Qed.

Lemma reads_forward_open_truncate : preserves reads_forward open_truncate.
Proof. intros w. unfold reads_forward. simpl. lia. Qed.

Lemma file_stays_refl (w : world) : file_stays w w.
Proof. now intros H. Qed.

Lemma file_stays_trans (w1 w2 w3 : world) :
  file_stays w1 w2 -> file_stays w2 w3 -> file_stays w1 w3.
Proof. unfold file_stays. auto. Qed.

Lemma file_stays_of_same (m : io unit) :
  preserves same_file m -> preserves file_stays m.
Proof. intros H w Hf. now rewrite (H w). Qed.

Lemma same_file_refl (w : world) : same_file w w.
Proof. reflexivity. Qed.

Lemma same_file_trans (w1 w2 w3 : world) :
  same_file w1 w2 -> same_file w2 w3 -> same_file w1 w3.
Proof. unfold same_file. congruence. Qed.

Lemma same_file_write_out (s : string) : preserves same_file (write_out s).
Proof. now intros w. Qed.

Lemma same_file_input (p : string) : preserves same_file (input p).
Proof. intros w. apply keeps_input. Qed.

Lemma same_file_read_file : preserves same_file read_file.
Proof. intros w. apply keeps_read_file. Qed.

End Relations.

(** ** The menu loop *)

Section RunFacts.

Variable parse : string -> res datetime.
Variable filename : string.

Lemma bind_ext {A B} (m : io A) (k1 k2 : A -> io B) (w : world) :
  (forall a w1, m w = (Returns a, w1) -> k1 a w1 = k2 a w1) ->
  bind m k1 w = bind m k2 w.
Proof.
  intros H. unfold bind. destruct (m w) as [[a|e] w1]; [|reflexivity].
  now apply H.
Qed.

Lemma reads_forward_at {A} (m : io A) (w w1 : world) (r : res A) :
  preserves reads_forward m -> m w = (r, w1) ->
  String.length (stdin w1) <= String.length (stdin w).
Proof. intros H E. specialize (H w). now rewrite E in H. Qed.

Lemma reads_forward_display_menu : preserves reads_forward display_menu.
Proof.
  apply preserves_display_menu;
    [exact reads_forward_trans | exact reads_forward_write_out].
Qed.

Lemma reads_forward_display_calendar :
  preserves reads_forward display_calendar.
Proof.
  apply preserves_display_calendar;
    [exact reads_forward_refl | exact reads_forward_trans
     | exact reads_forward_write_out | exact reads_forward_input].
Qed.

Lemma reads_forward_add_event :
  preserves reads_forward (add_event parse filename).
Proof.
  apply preserves_add_event;
    [exact reads_forward_refl | exact reads_forward_trans
     | exact reads_forward_write_out | exact reads_forward_input
     | exact reads_forward_f_write].
Qed.

Lemma reads_forward_view_events :
  preserves reads_forward (view_events parse filename).
Proof.
  apply preserves_view_events;
    [exact reads_forward_refl | exact reads_forward_trans
     | exact reads_forward_write_out | exact reads_forward_input
     | exact reads_forward_read_file].
Qed.

Lemma reads_forward_delete_event :
  preserves reads_forward (delete_event parse filename).
Proof.
  apply preserves_delete_event;
    [exact reads_forward_refl | exact reads_forward_trans
     | exact reads_forward_write_out | exact reads_forward_input
     | exact reads_forward_read_file | exact reads_forward_f_write
     | exact reads_forward_open_truncate].
Qed.

(** The fuel given by [run] is enough: more changes nothing. *)
Lemma run_loop_fuel (n m : nat) (w : world) :
  String.length (stdin w) < n -> String.length (stdin w) < m ->
  run_loop parse filename n w = run_loop parse filename m w.
Proof.
  revert m w; induction n as [|n IH]; intros [|m] w Hn Hm; try lia.
  cbn [run_loop].
  apply bind_ext. intros [] w1 E1.
  apply (reads_forward_at _ _ _ _ reads_forward_display_menu) in E1.
  apply bind_ext. intros raw w2 E2.
  apply input_returns in E2 as (_ & _ & E2).
  repeat match goal with
         | |- (if ?b then _ else _) _ = (if ?b then _ else _) _ =>
             destruct b
         end;
    try reflexivity;
    (apply bind_ext; intros [] w3 E3;
     first [ apply (reads_forward_at _ _ _ _ reads_forward_display_calendar)
               in E3
           | apply (reads_forward_at _ _ _ _ reads_forward_add_event) in E3
           | apply (reads_forward_at _ _ _ _ reads_forward_view_events) in E3
           | apply (reads_forward_at _ _ _ _ reads_forward_delete_event)
               in E3
           | apply (reads_forward_at _ _ _ _
                      (reads_forward_write_out
                         (invalid_choice_message ++ newline))) in E3 ];
     apply IH; lia).
Qed.

(** The loop of [run] as an equation: one turn, then [run] again. *)
Lemma run_turn (w : world) :
  run parse filename w
  = (display_menu ;;;
     raw <- input "Enter your choice (1-5): " ;;
     let choice := strip raw in
     if choice =? "1" then display_calendar ;;; run parse filename
     else if choice =? "2" then add_event parse filename ;;; run parse filename
     else if choice =? "3" then
       view_events parse filename ;;; run parse filename
     else if choice =? "4" then
       delete_event parse filename ;;; run parse filename
     else if choice =? "5" then print goodbye_message
     else print invalid_choice_message ;;; run parse filename) w.
Proof.
  unfold run at 1. cbn [run_loop].
  apply bind_ext. intros [] w1 E1.
  apply (reads_forward_at _ _ _ _ reads_forward_display_menu) in E1.
  apply bind_ext. intros raw w2 E2.
  apply input_returns in E2 as (_ & _ & E2).
  cbv zeta.
  repeat match goal with
         | |- (if ?b then _ else _) _ = (if ?b then _ else _) _ =>
             destruct b
         end;
    try reflexivity;
    (apply bind_ext; intros [] w3 E3; unfold run;
     first [ apply (reads_forward_at _ _ _ _ reads_forward_display_calendar)
               in E3
           | apply (reads_forward_at _ _ _ _ reads_forward_add_event) in E3
           | apply (reads_forward_at _ _ _ _ reads_forward_view_events) in E3
           | apply (reads_forward_at _ _ _ _ reads_forward_delete_event)
               in E3
           | apply (reads_forward_at _ _ _ _
                      (reads_forward_write_out
                         (invalid_choice_message ++ newline))) in E3 ];
     apply run_loop_fuel; lia).
Qed.

End RunFacts.

(** ** Asking for a date *)

Section AskingDate.

Variable parse : string -> res datetime.

(** X1.  [get_valid_date] returns nothing but a text that [validate_date]
    accepts: the text that ["%Y-%m-%d"] gives for the date the parser reads
    in it, with no blank at either end.  It leaves the file as it is. *)
Theorem get_valid_date_returns_valid (prompt d : string) (w w1 : world) :
  get_valid_date parse prompt w = (Returns d, w1) ->
  validate_date parse d = Returns true
  /\ (exists dt, parse d = Returns dt /\ strftime_Ymd dt = d)
  /\ strip d = d
  /\ file w1 = file w.
Proof.
  intros G.
  pose proof (get_valid_date_valid parse prompt d w w1 G) as V.
  pose proof (keeps_get_valid_date parse prompt w) as K.
  rewrite G in K.
  split; [exact V|]. split; [now apply validate_date_true|].
  split; [|exact K].
  apply validated_shape in V as (_ & _ & _ & Hs & He).
  rewrite <- (app_empty_r d) at 1.
  now apply (strip_padded "" d "").
Qed.

(** X2.  A line that does not validate is answered with the message about
    the format, and the question is asked again on the rest of the
    input. *)
Theorem get_valid_date_asks_again (prompt bad rest : string) (w : world) :
  has_newline bad = false ->
  stdin w = bad ++ newline ++ rest ->
  validate_date parse (strip bad) = Returns false ->
  get_valid_date parse prompt w
  = get_valid_date parse prompt
      {| stdin := rest;
         stdout := (stdout w
                    ++ [prompt; (invalid_date_message ++ newline)%string])%list;
         file := file w |}.
Proof.
  intros Hn Hs V. unfold get_valid_date at 1. cbn [get_valid_date_loop].
  unfold bind at 1. rewrite (input_line prompt bad rest w Hn Hs).
  unfold bind at 1, lift. rewrite V.
  unfold bind, print, write_out. cbn [stdin stdout file].
  rewrite <- List.app_assoc. cbn [List.app].
  unfold get_valid_date. apply get_valid_date_loop_fuel; cbn [stdin].
  - rewrite Hs, !length_app. simpl. lia.
  - lia.
Qed.

Lemma break_line_cons (c : ascii) (s : string) :
  Ascii.eqb c LF = false ->
  break_line (String c s)
  = (String c (fst (break_line s)), snd (break_line s)).
Proof.
  intros E. cbn [break_line]. rewrite E. now destruct (break_line s).
Qed.

Lemma split_lines_break (s : string) :
  s <> "" ->
  exists l ls,
    split_lines s = l :: ls /\ fst (break_line s) = chomp l
    /\ split_lines (snd (break_line s)) = ls.
Proof.
  induction s as [|c s IH]; intros Hne; [congruence|].
  destruct (Ascii.eqb c LF) eqn:E.
  - exists newline, (split_lines s). cbn [split_lines break_line].
    rewrite E. now repeat split.
  - rewrite (break_line_cons c s E). cbn [split_lines fst snd]. rewrite E.
    destruct s as [|b s].
    + exists (String c ""), []. repeat split.
      unfold chomp. now rewrite (break_line_cons c "" E).
    + destruct IH as (l & ls & Hr & Hf & Hs); [discriminate|].
      rewrite Hr. exists (String c l), ls. repeat split; [|exact Hs].
      unfold chomp. rewrite (break_line_cons c l E). cbn [fst].
      now rewrite Hf.
Qed.

Lemma typed_lines_break (c : ascii) (s : string) :
  typed_lines (String c s)
  = fst (break_line (String c s))
    :: typed_lines (snd (break_line (String c s))).
Proof.
  destruct (split_lines_break (String c s)) as (l & ls & Hr & Hf & Hs);
    [discriminate|].
  unfold typed_lines. rewrite Hr, Hf, Hs. reflexivity.
Qed.

Lemma get_valid_date_loop_exhausts (fuel : nat) (prompt : string)
    (w : world) :
  String.length (stdin w) < fuel ->
  Forall (fun l => validate_date parse (strip l) = Returns false)
    (typed_lines (stdin w)) ->
  fst (get_valid_date_loop parse fuel prompt w) = Raises EOFError
  /\ stdin (snd (get_valid_date_loop parse fuel prompt w)) = "".
Proof.
  revert w; induction fuel as [|fuel IH]; intros w Hlen Hall; [lia|].
  cbn [get_valid_date_loop].
  destruct (stdin w) as [|c s] eqn:Es.
  - assert (I : input prompt w
                = (Raises EOFError,
                   {| stdin := ""; stdout := (stdout w ++ [prompt])%list;
                      file := file w |}))
      by (unfold input; now rewrite Es).
    unfold bind. rewrite I. now split.
  - rewrite typed_lines_break in Hall.
    pose proof (break_line_shorter c s) as Hsh.
    assert (I : input prompt w
                = (Returns (fst (break_line (String c s))),
                   {| stdin := snd (break_line (String c s));
                      stdout := (stdout w ++ [prompt])%list;
                      file := file w |}))
      by (unfold input; rewrite Es; now destruct (break_line (String c s))).
    apply Forall_cons_iff in Hall as [Hl Hr].
    unfold bind, lift. rewrite I, Hl. unfold print, write_out.
    apply IH; cbn [stdin]; [simpl in Hlen; lia | exact Hr].
Qed.

(** X3.  When none of the lines left in the input validates, the question
    is asked until the input ends, and [get_valid_date] raises [EOFError]:
    it never returns then, nor goes on for ever. *)
Theorem get_valid_date_end_of_input (prompt : string) (w : world) :
  Forall (fun l => validate_date parse (strip l) = Returns false)
    (typed_lines (stdin w)) ->
  fst (get_valid_date parse prompt w) = Raises EOFError
  /\ stdin (snd (get_valid_date parse prompt w)) = "".
Proof. intros H. apply get_valid_date_loop_exhausts; [lia | exact H]. Qed.

(** X4.  Whatever the parser answers, a text that [validate_date] accepts
    is a valid calendar date written as its year without leading zeros, a
    dash, the month on two digits, a dash and the day on two digits: no
    impossible day or month, no blank, no missing zero in the month or the
    day.  When it has ten characters it is the date written as
    YYYY-MM-DD. *)
Theorem validate_date_accepts_canonical_only (s : string) :
  validate_date parse s = Returns true ->
  (exists y m d,
      valid_date y m d = true
      /\ s = (str_of_int y ++ "-" ++ pad2 m ++ "-" ++ pad2 d)%string)
  /\ (String.length s = 10 ->
      exists y m d, read_iso s = Some (y, m, d) /\ valid_date y m d = true
                    /\ s = iso_format y m d)
  /\ strip s = s.
Proof.
  intros V. split; [|split].
  - apply validate_date_true in V as (dt & _ & <-).
    exists (year dt), (month dt), (day dt).
    split; [apply in_range | reflexivity].
  - intros Hlen. pose proof (validated_ten_is_iso parse s V Hlen) as I.
    unfold is_iso_date in I.
    destruct (read_iso s) as [[[y m] d]|] eqn:R; [|discriminate].
    exists y, m, d. repeat split; trivial.
    symmetry. now apply read_iso_canonical.
  - apply validated_shape in V as (_ & _ & _ & Hs & He).
    rewrite <- (app_empty_r s) at 1.
    now apply (strip_padded "" s "").
Qed.

(** X22.  [validate_date] compares two texts: it answers true exactly when
    the parser returns a date whose ["%Y-%m-%d"] text is the input, and
    false exactly when the parser returns a date with another text or
    raises a [ValueError].  So ["2025-5-2"] is refused whatever date the
    parser reads in it. *)
Theorem validate_date_compares_texts :
  (forall s,
      validate_date parse s = Returns true <->
      exists dt, parse s = Returns dt /\ strftime_Ymd dt = s)
  /\ (forall s,
         validate_date parse s = Returns false <->
         (exists dt, parse s = Returns dt /\ strftime_Ymd dt <> s)
         \/ (exists e, parse s = Raises e /\ isinstance e ValueError = true))
  /\ (forall dt,
         parse "2025-5-2" = Returns dt ->
         validate_date parse "2025-5-2" = Returns false).
Proof.
  assert (Hno : forall s,
             validate_date parse s = Returns false <->
             (exists dt, parse s = Returns dt /\ strftime_Ymd dt <> s)
             \/ (exists e, parse s = Raises e
                           /\ isinstance e ValueError = true)).
  { intros s. unfold validate_date. destruct (parse s) as [dt|e]; split.
    - intros [= H]. left. exists dt. split; [reflexivity|].
      now apply String.eqb_neq.
    - intros [(dt' & [= <-] & H)|(e & [=] & _)].
      apply String.eqb_neq in H. now rewrite H.
    - destruct (isinstance e ValueError) eqn:I; [|discriminate].
      intros _. right. now exists e.
    - intros [(dt & [=] & _)|(e' & [= <-] & ->)]. reflexivity. }
  split; [apply validate_date_true|]. split; [exact Hno|].
  intros dt Hp. apply Hno. left. exists dt. split; [exact Hp|].
  intros E. pose proof (f_equal String.length E) as L.
  unfold strftime_Ymd in E, L. rewrite length_app in L.
  change (String.length (month_day_text (month dt) (day dt))) with 6 in L.
  destruct (str_of_int (year dt)) as [|a [|b [|c r]]];
    cbn [String.length] in L; try lia.
  cbn in E. congruence.
Qed.

End AskingDate.

(** ** Showing a month *)

Section ShowingMonth.

Local Open Scope Z_scope.

Lemma py_int_raises (s : string) (e : exn) :
  py_int s = Raises e -> e = ValueError.
Proof.
  unfold py_int.
  destruct (match strip s with
            | String "+" r => digits_value 0 false r
            | String "-" r => option_map Z.opp (digits_value 0 false r)
            | _ => digits_value 0 false (strip s)
            end%string) as [z|].
  - destruct (count_digits (strip s) <=? max_str_digits)%nat;
      [discriminate | now intros [= <-]].
  - now intros [= <-].
Qed.

Lemma print_week_run (week : list Z) (w : world) :
  print_week week w = (Returns tt, printed w (map cell week)).
Proof.
  revert w; induction week as [|d week IH]; intros w.
  - cbn [print_week map]. unfold ret. now rewrite printed_nil.
  - cbn [print_week map]. unfold bind.
    assert (E : (if d =? 0 then print_end_space "  "
                 else print_end_space (format_2d d)) w
                = (Returns tt, printed w [cell d]))
      by (unfold cell; now destruct (d =? 0)).
    rewrite E, IH, printed_printed. reflexivity.
Qed.

Lemma print_weeks_run (cal : list (list Z)) (w : world) :
  print_weeks cal w = (Returns tt, printed w (grid cal)).
Proof.
  revert w; induction cal as [|week cal IH]; intros w.
  - cbn [print_weeks grid flat_map]. unfold ret. now rewrite printed_nil.
  - cbn [print_weeks grid flat_map]. unfold bind.
    rewrite print_week_run, print_printed, IH, !printed_printed.
    unfold week_row, grid. now rewrite <- !List.app_assoc.
Qed.

Lemma concat_chunks7 (fuel : nat) (days : list Z) :
  (List.length days <= fuel)%nat -> concat (chunks7 fuel days) = days.
Proof.
  revert days; induction fuel as [|fuel IH]; intros days Hlen.
  - destruct days; [reflexivity | simpl in Hlen; lia].
  - destruct days as [|d days]; [reflexivity|].
    cbn [chunks7 concat]. rewrite IH.
    + apply firstn_skipn.
    + rewrite length_skipn. simpl in *. lia.
Qed.

Lemma chunks7_weeks (k fuel : nat) (days : list Z) :
  List.length days = (7 * k)%nat -> (List.length days <= fuel)%nat ->
  Forall (fun week => List.length week = 7%nat) (chunks7 fuel days).
Proof.
  revert fuel days; induction k as [|k IH]; intros fuel days Hk Hlen.
  - destruct days; [|simpl in Hk; lia]. destruct fuel; constructor.
  - destruct days as [|d days]; [simpl in Hk; lia|].
    destruct fuel as [|fuel]; [simpl in Hlen; lia|].
    cbn [chunks7]. constructor.
    + rewrite length_firstn. lia.
    + apply IH; rewrite length_skipn; lia.
Qed.

Lemma days_in_month_range (y m : Z) :
  1 <= m <= 12 -> 28 <= days_in_month y m <= 31.
Proof.
  intros Hm.
  assert (H : m = 1 \/ m = 2 \/ m = 3 \/ m = 4 \/ m = 5 \/ m = 6 \/ m = 7
              \/ m = 8 \/ m = 9 \/ m = 10 \/ m = 11 \/ m = 12) by lia.
  unfold days_in_month.
  repeat (destruct H as [->|H]); subst; try destruct (isleap y); lia.
Qed.

Lemma filter_days (a b n : nat) :
  filter (fun d => negb (d =? 0))
    (repeat 0 a ++ map Z.of_nat (seq 1 n) ++ repeat 0 b)%list
  = map Z.of_nat (seq 1 n).
Proof.
  assert (Hz : forall k, filter (fun d => negb (d =? 0)) (repeat 0 k) = []).
  { induction k as [|k IH]; [reflexivity | exact IH]. }
  rewrite !filter_app, !Hz, List.app_nil_r. cbn [List.app].
  apply forallb_filter_id. apply forallb_forall.
  intros d Hd. apply in_map_iff in Hd as (k & <- & Hk).
  apply in_seq in Hk. apply negb_true_iff, Z.eqb_neq. lia.
Qed.

Lemma cell_width (d : Z) : 0 <= d <= 31 -> String.length (cell d) = 3%nat.
Proof.
  intros Hd.
  assert (Hall : forallb (fun k => Nat.eqb (String.length (cell k)) 3)
                   (map Z.of_nat (seq 0 32)) = true) by reflexivity.
  rewrite forallb_forall in Hall. apply Nat.eqb_eq, Hall.
  apply in_map_iff. exists (Z.to_nat d). split; [lia|].
  apply in_seq. lia.
Qed.

(** The month as [calendar.monthcalendar] lays it out: weeks of seven
    days, the days of the month in order between the zeros. *)
Lemma monthcalendar_layout (y m : Z) :
  1 <= m <= 12 ->
  Forall (fun week => List.length week = 7%nat) (monthcalendar y m)
  /\ concat (monthcalendar y m)
     = (repeat 0 (Z.to_nat (weekday y m 1))
        ++ map Z.of_nat (seq 1 (Z.to_nat (days_in_month y m)))
        ++ repeat 0 (Z.to_nat ((- weekday y m 1 - days_in_month y m)
                               mod 7)))%list.
Proof.
  intros Hm. pose proof (days_in_month_range y m Hm) as Hn.
  assert (Hw : 0 <= weekday y m 1 < 7)
    by (unfold weekday; apply Z.mod_pos_bound; lia).
  unfold monthcalendar. rewrite (Z.mod_small (weekday y m 1) 7) by lia.
  set (d1 := weekday y m 1) in *. set (n := days_in_month y m) in *.
  set (days := (repeat 0 (Z.to_nat d1) ++ map Z.of_nat (seq 1 (Z.to_nat n))
                ++ repeat 0 (Z.to_nat ((- d1 - n) mod 7)))%list).
  split; [|now apply concat_chunks7].
  pose proof (Z.mod_pos_bound (- d1 - n) 7 eq_refl) as Hb.
  assert (Hlen : List.length days
                 = Z.to_nat (d1 + n + (- d1 - n) mod 7)).
  { unfold days. rewrite !List.length_app, !repeat_length, length_map,
      length_seq. lia. }
  apply (chunks7_weeks (Z.to_nat ((d1 + n + (- d1 - n) mod 7) / 7)));
    [|lia].
  rewrite Hlen.
  assert (Hdiv : (d1 + n + (- d1 - n) mod 7) mod 7 = 0).
  { rewrite Zplus_mod_idemp_r.
    replace (d1 + n + (- d1 - n)) with 0 by lia. reflexivity. }
  pose proof (Z.div_mod (d1 + n + (- d1 - n) mod 7) 7) as Hdm.
  assert (0 <= (d1 + n + (- d1 - n) mod 7) / 7)
    by (apply Z.div_pos; lia).
  lia.
Qed.

End ShowingMonth.

Section ShowingMonthProperties.

Local Open Scope Z_scope.

(** X5.  When the year typed is not an integer, [display_calendar] says
    that the input must be numeric and does not ask for the month; when
    the year is an integer and the month typed is not, it says the same
    after the second question.  Nothing of a calendar is shown. *)
Theorem display_calendar_not_numeric (w w1 : world) (ytext : string) :
  input "Enter year (e.g., 2025): " w = (Returns ytext, w1) ->
  (forall e,
      py_int (strip ytext) = Raises e ->
      display_calendar w
      = (Returns tt, printed w1 [(numeric_input_message ++ newline)%string]))
  /\ (forall y mtext w2 e,
         py_int (strip ytext) = Returns y ->
         input "Enter month (1-12): " w1 = (Returns mtext, w2) ->
         py_int (strip mtext) = Raises e ->
         display_calendar w
         = (Returns tt,
            printed w2 [(numeric_input_message ++ newline)%string])).
Proof.
  intros Iy. split.
  - intros e Py. pose proof (py_int_raises _ _ Py) as ->.
    unfold display_calendar, try_except, bind, lift. rewrite Iy, Py.
    cbn [isinstance]. apply print_printed.
  - intros y mtext w2 e Py Im Pm. pose proof (py_int_raises _ _ Pm) as ->.
    unfold display_calendar, try_except, bind, lift.
    rewrite Iy, Py, Im, Pm. cbn [isinstance]. apply print_printed.
Qed.

(** X6.  For a month from 1 to 12, [display_calendar] shows the title, the
    row of week days and one row for each week.  Every row has seven cells
    of three characters, so that the days stand under the week days; the
    numbered cells are the days of the month, each once and in order, and
    the first of them stands in the column of its week day. *)
Theorem display_calendar_shows_month (w w1 w2 : world)
    (ytext mtext : string) (y m : Z) :
  input "Enter year (e.g., 2025): " w = (Returns ytext, w1) ->
  py_int (strip ytext) = Returns y ->
  input "Enter month (1-12): " w1 = (Returns mtext, w2) ->
  py_int (strip mtext) = Returns m ->
  1 <= m <= 12 ->
  let cal := monthcalendar y m in
  display_calendar w
  = (Returns tt,
     printed w2 (calendar_title y m :: weekday_row :: grid cal))
  /\ Forall (fun week => List.length week = 7%nat) cal
  /\ (forall week d, In week cal -> In d week ->
                     String.length (cell d) = 3%nat)
  /\ filter (fun d => negb (d =? 0)) (concat cal)
     = map Z.of_nat (seq 1 (Z.to_nat (days_in_month y m)))
  /\ firstn (S (Z.to_nat (weekday y m 1))) (concat cal)
     = (repeat 0 (Z.to_nat (weekday y m 1)) ++ [1])%list.
Proof.
  intros Iy Py Im Pm Hm cal.
  destruct (monthcalendar_layout y m Hm) as [Hweeks Hcat].
  fold cal in Hweeks, Hcat.
  pose proof (days_in_month_range y m Hm) as Hn.
  split; [|split; [exact Hweeks|split; [|split]]].
  - unfold display_calendar, try_except, bind, lift.
    rewrite Iy, Py, Im, Pm.
    assert (Hb : ((m <? 1) || (m >? 12)) = false).
    { apply orb_false_iff. split; [apply Z.ltb_ge; lia|].
      rewrite Z.gtb_ltb. apply Z.ltb_ge. lia. }
    rewrite Hb, !print_printed, print_weeks_run, !printed_printed.
    reflexivity.
  - intros week d Hweek Hd. apply cell_width.
    assert (Hin : In d (concat cal)) by (apply in_concat; eauto).
    rewrite Hcat in Hin. rewrite !in_app_iff in Hin.
    destruct Hin as [Hin|[Hin|Hin]].
    + apply repeat_spec in Hin. lia.
    + apply in_map_iff in Hin as (k & <- & Hk). apply in_seq in Hk. lia.
    + apply repeat_spec in Hin. lia.
  - rewrite Hcat. apply filter_days.
  - rewrite Hcat.
    replace (S (Z.to_nat (weekday y m 1)))
      with (List.length (repeat 0%Z (Z.to_nat (weekday y m 1))) + 1)%nat
      by (rewrite repeat_length; lia).
    rewrite firstn_app_2. f_equal.
    destruct (Z.to_nat (days_in_month y m)) as [|n] eqn:E; [lia|].
    reflexivity.
Qed.

End ShowingMonthProperties.

(** ** Listing, and the file when it is missing *)

Section ListingProperties.

Variable parse : string -> res datetime.
Variable filename : string.

Lemma view_loop_listing (date : string) (lines : list string) (b : bool)
    (w : world) :
  view_loop date lines b w
  = (snd (listing date lines b), printed w (fst (listing date lines b))).
Proof.
  revert b w; induction lines as [|l lines IH]; intros b w.
  - cbn [view_loop listing fst snd]. unfold ret. now rewrite printed_nil.
  - cbn [view_loop listing]. destruct (startswith l date); [|apply IH].
    unfold bind, lift.
    destruct (unpack2 (split1 (strip l) " | ")) as [p|e].
    + rewrite print_printed, IH, printed_printed.
      destruct (listing date lines true) as [out r]. reflexivity.
    + cbn [fst snd]. now rewrite printed_nil.
Qed.

Lemma listing_raises (date : string) (lines : list string) (b : bool)
    (e : exn) :
  snd (listing date lines b) = Raises e -> e = ValueError.
Proof.
  revert b; induction lines as [|l lines IH]; intros b;
    cbn [listing]; [discriminate|].
  destruct (startswith l date); [|apply IH].
  destruct (unpack2 (split1 (strip l) " | ")) as [p|e'] eqn:U.
  - specialize (IH true). destruct (listing date lines true). exact IH.
  - unfold unpack2 in U.
    destruct (split1 _ _) as [|? [|? [|? ?]]]; cbn [snd]; congruence.
Qed.

Lemma find_events_report (date : string) (w : world) :
  find_events filename date w
  = (fst (find_report filename date (file w)),
     printed w (snd (find_report filename date (file w)))).
Proof.
  unfold find_events, try_except, bind, read_file, find_report.
  destruct (file w) as [c|] eqn:Hf.
  - rewrite !print_printed, view_loop_listing, !printed_printed.
    pose proof (listing_raises date (readlines c) false) as Hr.
    destruct (listing date (readlines c) false) as [out [found|e]];
      cbn [fst snd] in *.
    + destruct found; cbn [negb].
      * unfold ret. now rewrite List.app_nil_r.
      * rewrite print_printed, printed_printed. reflexivity.
    + rewrite (Hr e eq_refl). reflexivity.
  - cbn [isinstance]. now rewrite print_printed.
Qed.

(** X7.  What [view_events] shows for a date, and whether it raises,
    depends on the file and on the date alone: asked again while the file
    is the same, it answers the same. *)
Theorem find_events_repeatable (date : string) (w w1 : world) :
  file w1 = file w ->
  exists (r : res unit) (out : list string),
    find_events filename date w = (r, printed w out)
    /\ find_events filename date w1 = (r, printed w1 out)
    /\ find_events filename date (snd (find_events filename date w))
       = (r, printed (printed w out) out).
Proof.
  intros Hf.
  exists (fst (find_report filename date (file w))),
    (snd (find_report filename date (file w))).
  rewrite !find_events_report. cbn [snd printed file]. rewrite Hf.
  now repeat split.
Qed.

(** X8.  [display_calendar] and [view_events] never change the file,
    whatever is typed and whatever the file holds. *)
Theorem display_and_view_leave_file (w : world) :
  file (snd (display_calendar w)) = file w
  /\ file (snd (view_events parse filename w)) = file w.
Proof.
  split.
  - apply (preserves_display_calendar same_file same_file_refl
             same_file_trans same_file_write_out same_file_input).
  - apply (preserves_view_events same_file same_file_refl same_file_trans
             same_file_write_out same_file_input same_file_read_file).
Qed.

(** X9.  When the file does not exist, listing and deleting tell the user
    that the file cannot be read and create nothing, whereas adding an
    event creates the file with that one record. *)
Theorem missing_file_is_reported (date desc : string) (w : world) :
  file w = None ->
  find_events filename date w
  = (Returns tt,
     printed w [("Error reading from file: "
                 ++ str_exn filename FileNotFoundError
                 ++ ". Please try again.") ++ newline])
  /\ delete_matching filename date desc w
     = (Returns tt,
        printed w [("Error accessing file: "
                    ++ str_exn filename FileNotFoundError
                    ++ ". Please try again.") ++ newline])
  /\ file (snd (append_event filename date desc w))
     = Some (event_line date desc).
Proof.
  intros Hf. repeat split.
  - rewrite find_events_report, Hf. reflexivity.
  - unfold delete_matching, try_except, bind, read_file. rewrite Hf.
    cbn [isinstance]. now rewrite print_printed.
  - rewrite append_event_run. cbn [snd file]. now rewrite Hf.
Qed.

End ListingProperties.

(** ** Adding and deleting *)

Section AddingDeleting.

Variable parse : string -> res datetime.
Variable filename : string.

Lemma split_lines_cons_nonempty (c : ascii) (s : string) :
  split_lines (String c s) <> [].
Proof.
  cbn [split_lines]. destruct (Ascii.eqb c LF); [discriminate|].
  destruct (split_lines s); discriminate.
Qed.

Lemma split_lines_app_ends (c t : string) :
  ends_with_newline c = true ->
  split_lines (c ++ t) = (split_lines c ++ split_lines t)%list.
Proof.
  induction c as [|a c IH]; intros H; [reflexivity|].
  destruct c as [|b c].
  - cbn [ends_with_newline] in H. cbn [append split_lines]. now rewrite H.
  - change (ends_with_newline (String a (String b c)))
      with (ends_with_newline (String b c)) in H.
    specialize (IH H).
    change ((String a (String b c)) ++ t)
      with (String a (String b c ++ t)).
    cbn [split_lines] in *. rewrite IH.
    destruct (Ascii.eqb a LF); [reflexivity|].
    pose proof (split_lines_cons_nonempty b c) as Hne.
    cbn [split_lines] in Hne.
    destruct (if Ascii.eqb b LF then newline :: split_lines c
              else match split_lines c with
                   | [] => [String b ""]
                   | l :: ls => String b l :: ls
                   end); [congruence | reflexivity].
Qed.

Lemma split_lines_event_line (l d desc : string) :
  has_newline l = false -> has_newline d = false ->
  has_newline desc = false ->
  split_lines (l ++ event_line d desc) = [l ++ event_line d desc].
Proof.
  intros Hl Hd Hdesc. rewrite event_line_terminated, <- app_assoc.
  rewrite <- (app_empty_r newline) at 1.
  rewrite split_lines_terminated; [reflexivity|].
  now rewrite !has_newline_app, Hl, Hd, Hdesc.
Qed.

Lemma has_cr_event_line (d desc : string) :
  has_cr d = false -> has_cr desc = false ->
  has_cr (event_line d desc) = false.
Proof.
  intros Hd Hdesc. unfold event_line.
  now rewrite !has_cr_app, Hd, Hdesc.
Qed.

Lemma contains_refl (s : string) : contains s s = true.
Proof.
  assert (H : startswith s s = true).
  { induction s as [|c s IH]; [reflexivity|]. cbn [startswith].
    now rewrite Ascii.eqb_refl, IH. }
  destruct s; cbn [contains]; now rewrite H.
Qed.

Lemma matches_own_line (d desc : string) :
  matches d desc (event_line d desc) = true.
Proof.
  unfold matches, event_line. rewrite startswith_app. cbn [andb].
  apply contains_app_r, (contains_app_r desc " | "), contains_app_l.
  apply contains_refl.
Qed.

(** X10.  Deleting an event that was just added gives back the file as it
    was, when the file ended with a line end (or was empty) and held no
    other line that matches, and neither the file nor the event holds a
    carriage return. *)
Theorem delete_undoes_append (d desc c : string) (w : world) :
  file w = Some c ->
  ends_with_newline c = true -> has_cr c = false ->
  has_newline d = false -> has_cr d = false ->
  has_newline desc = false -> has_cr desc = false ->
  forallb (kept d desc) (readlines c) = true ->
  let w1 := snd (append_event filename d desc w) in
  file w1 = Some (c ++ event_line d desc)
  /\ delete_matching filename d desc w1
     = (Returns tt,
        printed (with_file w1 c) [(deleted_message d ++ newline)%string]).
Proof.
  intros Hf He Hcc Hd Hcd Hdesc Hcdesc Hk w1.
  assert (Hf1 : file w1 = Some (c ++ event_line d desc))
    by (unfold w1; rewrite append_event_run; cbn [snd file];
        now rewrite Hf).
  split; [exact Hf1|].
  rewrite (delete_matching_run filename d desc w1 _ Hf1).
  rewrite readlines_plain in Hk by exact Hcc.
  rewrite readlines_plain
    by now rewrite has_cr_app, Hcc, has_cr_event_line.
  rewrite (split_lines_app_ends c _ He).
  pose proof (split_lines_event_line "" d desc eq_refl Hd Hdesc) as Hev.
  cbn [append] in Hev. rewrite Hev.
  rewrite filter_app, existsb_app, (filter_kept_all d desc _ Hk).
  cbn [filter existsb]. unfold kept at 1.
  rewrite (matches_own_line d desc). cbn [negb orb].
  now rewrite List.app_nil_r, join_split_lines, orb_true_r.
Qed.

(** X11.  A record appended to a file whose last line has no line end is
    glued to that line: the file has as many lines as before, and the
    record is not on a line of its own.  Neither the file nor the record
    holds a carriage return here. *)
Theorem append_after_unterminated_line (d desc c l : string) (w : world) :
  file w = Some (c ++ l) ->
  ends_with_newline c = true -> has_cr c = false ->
  l <> "" -> has_newline l = false -> has_cr l = false ->
  has_newline d = false -> has_cr d = false ->
  has_newline desc = false -> has_cr desc = false ->
  exists c1,
    file (snd (append_event filename d desc w)) = Some c1
    /\ readlines (c ++ l) = (readlines c ++ [l])%list
    /\ readlines c1
       = (readlines c ++ [(l ++ event_line d desc)%string])%list.
Proof.
  intros Hf He Hcc Hne Hl Hcl Hd Hcd Hdesc Hcdesc.
  exists ((c ++ l) ++ event_line d desc). split; [|split].
  - rewrite append_event_run. cbn [snd file]. now rewrite Hf.
  - rewrite !readlines_plain; [|exact Hcc|now rewrite has_cr_app, Hcc, Hcl].
    rewrite (split_lines_app_ends c l He).
    now rewrite (split_lines_unterminated l Hne Hl).
  - rewrite !readlines_plain;
      [|exact Hcc
       |now rewrite !has_cr_app, Hcc, Hcl, has_cr_event_line].
    rewrite app_assoc, (split_lines_app_ends c _ He). f_equal.
    now apply split_lines_event_line.
Qed.

(** X12.  The description typed for a deletion is looked for in the whole
    line.  A record of the date is deleted as soon as the text occurs in
    its description: its line matches and is not in the new file.  And
    when the text occurs in the date itself, every line that starts with
    the date is deleted. *)
Theorem delete_matching_is_lenient (date desc c : string) (w : world) :
  file w = Some c ->
  exists c1,
    file (snd (delete_matching filename date desc w)) = Some c1
    /\ (forall stored,
          contains desc stored = true ->
          matches date desc (event_line date stored) = true
          /\ ~ In (event_line date stored) (readlines c1))
    /\ (contains desc date = true ->
        readlines c1
        = filter (fun l => negb (startswith l date)) (readlines c)).
Proof.
  intros Hf.
  rewrite (delete_matching_run filename date desc w c Hf).
  eexists. split; [reflexivity|].
  rewrite readlines_join
    by apply line_list_filter, readlines_line_list.
  split.
  - intros stored Hs.
    assert (Hm : matches date desc (event_line date stored) = true).
    { unfold matches, event_line. rewrite startswith_app. cbn [andb].
      now apply contains_app_r, (contains_app_r desc " | "),
        contains_app_l. }
    split; [exact Hm|]. intros Hin. apply filter_In in Hin as [_ Hk].
    unfold kept in Hk. now rewrite Hm in Hk.
  - intros Hc. apply filter_ext. intros l. unfold kept, matches.
    destruct (startswith l date) eqn:S; [|reflexivity].
    apply startswith_inv in S. rewrite S.
    now rewrite (contains_app_l desc date _ Hc).
Qed.

(** X13.  [delete_event] refuses a description made of blanks: it says
    that the description cannot be empty and leaves the file as it is,
    although the empty text occurs in every line. *)
Theorem delete_event_refuses_blank (w w1 w2 : world) (d raw : string) :
  get_valid_date parse "Enter event date (YYYY-MM-DD): " w
  = (Returns d, w1) ->
  input "Enter event description to delete: " w1 = (Returns raw, w2) ->
  all_space raw = true ->
  delete_event parse filename w
  = (Returns tt, printed w2 [(empty_description_message ++ newline)%string])
  /\ file (snd (delete_event parse filename w)) = file w
  /\ forall l, startswith l d = true -> matches d (strip raw) l = true.
Proof.
  intros G I Hall. pose proof (strip_all_space raw Hall) as Hs.
  assert (E : delete_event parse filename w
              = (Returns tt,
                 printed w2 [(empty_description_message ++ newline)%string])).
  { unfold delete_event, bind. rewrite G, I, Hs. apply print_printed. }
  split; [exact E|]. split.
  - rewrite E. cbn [snd printed file].
    pose proof (keeps_get_valid_date parse
                  "Enter event date (YYYY-MM-DD): " w) as K.
    pose proof (keeps_input "Enter event description to delete: " w1) as K1.
    rewrite G in K. rewrite I in K1. cbn [snd] in *. congruence.
  - intros l Hl. rewrite Hs. unfold matches. rewrite Hl.
    now destruct l.
Qed.

(** X14.  [add_event] only appends: what the file held stays at its place,
    and what is added is nothing or the one record of a validated date and
    a stripped, non-empty description. *)
Theorem add_event_appends_only (c : string) (w : world) :
  file w = Some c ->
  exists t,
    file (snd (add_event parse filename w)) = Some (c ++ t)
    /\ (t = "" \/ exists d desc, recorded parse (d, desc)
                                 /\ t = event_line d desc).
Proof.
  intros Hf.
  destruct (add_event_writes parse filename w) as [E|(d & desc & Hr & E)].
  - exists "". rewrite E, Hf, app_empty_r. split; [reflexivity | now left].
  - exists (event_line d desc). rewrite E, Hf.
    split; [reflexivity | right; now exists d, desc].
Qed.

(** X23.  [add_event] strips the two lines it reads.  When the first
    line, stripped, is accepted by [validate_date], the record written is
    that text, the delimiter and the second line stripped, followed by a
    line end; a second line of blanks is refused as empty and nothing is
    written.  Neither field of the record has a blank at either end. *)
Theorem add_event_writes_stripped_fields (w : world)
    (dline raw rest : string) :
  has_newline dline = false -> has_newline raw = false ->
  stdin w = dline ++ newline ++ raw ++ newline ++ rest ->
  validate_date parse (strip dline) = Returns true ->
  let date := strip dline in
  let description := strip raw in
  let shown := (stdout w ++ ["Enter event date (YYYY-MM-DD): ";
                             "Enter event description: "])%list in
  (description = "" ->
   add_event parse filename w
   = (Returns tt,
      {| stdin := rest;
         stdout := (shown
                    ++ [("Event description cannot be empty."
                         ++ newline)%string])%list;
         file := file w |}))
  /\ (description <> "" ->
      add_event parse filename w
      = (Returns tt,
         {| stdin := rest;
            stdout := (shown
                       ++ [("Event added successfully for " ++ date ++ "!"
                            ++ newline)%string])%list;
            file := Some (match file w with
                          | Some c => c ++ date ++ " | " ++ description
                                      ++ newline
                          | None => date ++ " | " ++ description ++ newline
                          end) |})
      /\ starts_nonspace description = true
      /\ ends_nonspace description = true)
  /\ (all_space raw = true -> description = "")
  /\ starts_nonspace date = true /\ ends_nonspace date = true.
Proof.
  intros Hn1 Hn2 Hin V date description shown.
  destruct (validated_shape parse _ V) as (_ & _ & _ & Hs & He).
  pose proof (input_line "Enter event date (YYYY-MM-DD): " _ _ w Hn1 Hin)
    as I1.
  pose proof (get_valid_date_accepts parse _ _ _ _ I1 V) as G.
  pose proof (input_line "Enter event description: " raw rest
                {| stdin := raw ++ newline ++ rest;
                   stdout := (stdout w
                              ++ ["Enter event date (YYYY-MM-DD): "])%list;
                   file := file w |} Hn2 eq_refl) as I2.
  cbn [stdout file] in I2.
  assert (Hrun : forall k : string -> string -> io unit,
             (d0 <- get_valid_date parse "Enter event date (YYYY-MM-DD): " ;;
              raw0 <- input "Enter event description: " ;; k d0 raw0) w
             = k date raw
                 {| stdin := rest; stdout := shown; file := file w |}).
  { intros k. unfold bind. rewrite G, I2. unfold shown.
    now rewrite <- List.app_assoc. }
  split; [|split; [|split; [|now split]]].
  - intros E. unfold add_event. rewrite Hrun. fold description.
    rewrite E. reflexivity.
  - intros Hne. split.
    + unfold add_event. rewrite Hrun. fold description.
      apply String.eqb_neq in Hne. rewrite Hne, append_event_run.
      cbn [stdin stdout file]. unfold added_message, event_line.
      destruct (file w); now rewrite ?app_assoc.
    + destruct (strip_shape raw) as [E|E]; [contradiction | exact E].
  - intros Hall. now apply strip_all_space.
Qed.

End AddingDeleting.

(** ** The menu *)

Section MenuProperties.

Variable parse : string -> res datetime.
Variable filename : string.

Lemma display_menu_run (w : world) :
  display_menu w = (Returns tt, at_menu w).
Proof.
  unfold display_menu, bind, at_menu. rewrite !print_printed.
  now rewrite !printed_printed.
Qed.

Lemma run_after_menu (w : world) :
  run parse filename w
  = (raw <- input "Enter your choice (1-5): " ;;
     let choice := strip raw in
     if choice =? "1" then display_calendar ;;; run parse filename
     else if choice =? "2" then add_event parse filename ;;; run parse filename
     else if choice =? "3" then
       view_events parse filename ;;; run parse filename
     else if choice =? "4" then
       delete_event parse filename ;;; run parse filename
     else if choice =? "5" then print goodbye_message
     else print invalid_choice_message ;;; run parse filename) (at_menu w).
Proof.
  rewrite run_turn. unfold bind at 1. now rewrite display_menu_run.
Qed.

(** X15.  After the menu, the choice 5, with or without blanks around it,
    ends [run]: the farewell is shown, [run] returns, the file is as it
    was and the rest of the input is not read. *)
Theorem run_exits_on_five (w w1 : world) (raw : string) :
  input "Enter your choice (1-5): " (at_menu w) = (Returns raw, w1) ->
  strip raw = "5" ->
  run parse filename w
  = (Returns tt, printed w1 [(goodbye_message ++ newline)%string])
  /\ file (snd (run parse filename w)) = file w.
Proof.
  intros I Hs.
  assert (E : run parse filename w
              = (Returns tt,
                 printed w1 [(goodbye_message ++ newline)%string])).
  { rewrite run_after_menu. unfold bind. rewrite I. cbv zeta. rewrite Hs.
    cbn [String.eqb Ascii.eqb Bool.eqb]. apply print_printed. }
  split; [exact E|]. rewrite E. cbn [snd printed file].
  pose proof (keeps_input "Enter your choice (1-5): " (at_menu w)) as K.
  rewrite I in K. exact K.
Qed.

(** X16.  A choice that is none of 1 to 5 is answered with the message
    about the choice, and the menu is shown again: [run] goes on with the
    rest of the input and does not stop. *)
Theorem run_asks_again (w w1 : world) (raw : string) :
  input "Enter your choice (1-5): " (at_menu w) = (Returns raw, w1) ->
  ~ In (strip raw) ["1"; "2"; "3"; "4"; "5"] ->
  run parse filename w
  = run parse filename
      (printed w1 [(invalid_choice_message ++ newline)%string]).
Proof.
  intros I Hn. rewrite run_after_menu. unfold bind at 1. rewrite I.
  cbv zeta.
  repeat match goal with
         | |- (if (?s =? ?t) then _ else _) _ = _ =>
             destruct (String.eqb_spec s t) as [E|_];
             [exfalso; apply Hn; rewrite E; simpl; tauto|]
         end.
  unfold bind. now rewrite print_printed.
Qed.

(** X17.  The choices 1 to 4 run the four operations, and [run] goes on
    after each of them: what the operation returned is dropped, and an
    exception that leaves the operation leaves [run] as well. *)
Theorem run_dispatches (w w1 : world) (raw : string) :
  input "Enter your choice (1-5): " (at_menu w) = (Returns raw, w1) ->
  (strip raw = "1" ->
   run parse filename w = (display_calendar ;;; run parse filename) w1)
  /\ (strip raw = "2" ->
      run parse filename w
      = (add_event parse filename ;;; run parse filename) w1)
  /\ (strip raw = "3" ->
      run parse filename w
      = (view_events parse filename ;;; run parse filename) w1)
  /\ (strip raw = "4" ->
      run parse filename w
      = (delete_event parse filename ;;; run parse filename) w1).
Proof.
  intros I.
  repeat split; intros Hs; rewrite run_after_menu; unfold bind at 1;
    rewrite I; cbv zeta; rewrite Hs; reflexivity.
Qed.

Lemma run_loop_returns_after_goodbye (fuel : nat) (w : world)
    (r : res unit * world) :
  run_loop parse filename fuel w = r ->
  fst r = Returns tt ->
  exists out,
    stdout (snd r) = (out ++ [(goodbye_message ++ newline)%string])%list.
Proof.
  revert w r; induction fuel as [|fuel IH]; intros w r E;
    [subst; discriminate|].
  cbn [run_loop] in E. unfold bind at 1 in E. rewrite display_menu_run in E.
  unfold bind at 1 in E.
  destruct (input "Enter your choice (1-5): " (at_menu w)) as [[raw|e] w1];
    [|subst; discriminate].
  cbv zeta in E.
  repeat match type of E with
         | (if ?b then _ else _) _ = _ => destruct b
         end;
    try (unfold bind in E;
         match type of E with
         | (let (_, _) := ?op w1 in _) = _ =>
             destruct (op w1) as [[[]|e] w2];
             [exact (IH _ _ E) | subst; discriminate]
         end).
  intros _. subst r. rewrite print_printed. cbn [snd printed stdout]. eauto.
Qed.

(** X18.  [run] returns only after the farewell: when it returns, the last
    text shown is the farewell of choice 5.  At the end of the input it
    does not return, it raises. *)
Theorem run_returns_after_goodbye (w : world) :
  fst (run parse filename w) = Returns tt ->
  exists out,
    stdout (snd (run parse filename w))
    = (out ++ [(goodbye_message ++ newline)%string])%list.
Proof.
  now apply (run_loop_returns_after_goodbye (S (String.length (stdin w))) w).
Qed.

End MenuProperties.

(** ** What the whole session keeps *)

Section SessionProperties.

Variable parse : string -> res datetime.
Variable filename : string.

Lemma file_stays_write_out (s : string) : preserves file_stays (write_out s).
Proof. now intros w H. Qed.

Lemma file_stays_input (p : string) : preserves file_stays (input p).
Proof. intros w H. now rewrite keeps_input. Qed.

Lemma file_stays_read_file : preserves file_stays read_file.
Proof. intros w H. now rewrite keeps_read_file. Qed.

Lemma file_stays_f_write (text : string) : preserves file_stays (f_write text).
Proof. intros w H. discriminate. Qed.

Lemma file_stays_open_truncate : preserves file_stays open_truncate.
Proof. intros w H. discriminate. Qed.

Lemma output_grows_refl (w : world) : output_grows w w.
Proof. exists []. now rewrite List.app_nil_r. Qed.

Lemma output_grows_trans (w1 w2 w3 : world) :
  output_grows w1 w2 -> output_grows w2 w3 -> output_grows w1 w3.
Proof.
  intros [a Ha] [b Hb]. exists (a ++ b)%list.
  now rewrite Hb, Ha, List.app_assoc.
Qed.

Lemma output_grows_write_out (s : string) :
  preserves output_grows (write_out s).
Proof. intros w. now exists [s]. Qed.

Lemma output_grows_input (p : string) : preserves output_grows (input p).
Proof.
  intros w. exists [p]. unfold input.
  destruct (stdin w) as [|c s]; [reflexivity|].
  cbv iota beta. now destruct (break_line (String c s)).
Qed.

Lemma output_grows_read_file : preserves output_grows read_file.
Proof.
  intros w. unfold read_file. destruct (file w); apply output_grows_refl.
Qed.

Lemma output_grows_f_write (text : string) :
  preserves output_grows (f_write text).
Proof. intros w. exists []. cbn. now rewrite List.app_nil_r. Qed.

Lemma output_grows_open_truncate : preserves output_grows open_truncate.
Proof. intros w. exists []. cbn. now rewrite List.app_nil_r. Qed.

Lemma file_stays_run : preserves file_stays (run parse filename).
Proof.
  apply (preserves_run file_stays file_stays_refl file_stays_trans
           file_stays_write_out file_stays_input).
  - apply (preserves_display_calendar file_stays file_stays_refl
             file_stays_trans file_stays_write_out file_stays_input).
  - apply (preserves_add_event file_stays file_stays_refl file_stays_trans
             file_stays_write_out file_stays_input file_stays_f_write).
  - apply (preserves_view_events file_stays file_stays_refl file_stays_trans
             file_stays_write_out file_stays_input file_stays_read_file).
  - apply (preserves_delete_event file_stays file_stays_refl
             file_stays_trans file_stays_write_out file_stays_input
             file_stays_read_file file_stays_f_write
             file_stays_open_truncate).
Qed.

Lemma output_grows_run : preserves output_grows (run parse filename).
Proof.
  apply (preserves_run output_grows output_grows_refl output_grows_trans
           output_grows_write_out output_grows_input).
  - apply (preserves_display_calendar output_grows output_grows_refl
             output_grows_trans output_grows_write_out output_grows_input).
  - apply (preserves_add_event output_grows output_grows_refl
             output_grows_trans output_grows_write_out output_grows_input
             output_grows_f_write).
  - apply (preserves_view_events output_grows output_grows_refl
             output_grows_trans output_grows_write_out output_grows_input
             output_grows_read_file).
  - apply (preserves_delete_event output_grows output_grows_refl
             output_grows_trans output_grows_write_out output_grows_input
             output_grows_read_file output_grows_f_write
             output_grows_open_truncate).
Qed.

(** X19.  Through a whole session of [run], whatever is typed and however
    it ends, a file that exists is never removed, nothing is put back
    into the input, and what was shown stays shown. *)
Theorem run_keeps_store (w : world) :
  (file w <> None -> file (snd (run parse filename w)) <> None)
  /\ String.length (stdin (snd (run parse filename w)))
     <= String.length (stdin w)
  /\ (exists out,
        stdout (snd (run parse filename w)) = (stdout w ++ out)%list).
Proof.
  split; [apply file_stays_run|]. split; [|apply output_grows_run].
  apply (preserves_run reads_forward reads_forward_refl reads_forward_trans
           reads_forward_write_out reads_forward_input).
  - apply reads_forward_display_calendar.
  - apply reads_forward_add_event.
  - apply reads_forward_view_events.
  - apply reads_forward_delete_event.
Qed.

End SessionProperties.

Section MainProperties.

Variable parse : string -> res datetime.

(** X20.  [main] greets first, and once it has started the events file
    exists, whether it was there or not. *)
Theorem main_creates_store (w : world) :
  file (snd (main parse w)) <> None
  /\ exists out,
       stdout (snd (main parse w))
       = (stdout w ++ (welcome_message ++ newline)%string :: out)%list.
Proof.
  unfold main, bind. rewrite print_printed.
  set (w1 := printed w [(welcome_message ++ newline)%string]).
  assert (Hinit : exists w2,
             init w1 = (Returns tt, w2) /\ file w2 <> None
             /\ stdout w2 = stdout w1).
  { unfold init. destruct (file w1) as [c|] eqn:Hf.
    - exists w1. repeat split. congruence.
    - eexists. now repeat split. }
  destruct Hinit as (w2 & -> & Hf & Hout).
  split; [now apply file_stays_run|].
  destruct (output_grows_run parse "events.txt" w2) as [out Ho].
  exists out. rewrite Ho, Hout. unfold w1. cbn [printed stdout].
  now rewrite <- List.app_assoc.
Qed.

(** X21.  Starting the program on a file that exists changes nothing in
    it: [__init__] creates the file only when it is missing, so that
    [main] is the greeting followed by [run] on the file as it was left. *)
Theorem main_keeps_existing_file (c : string) (w : world) :
  file w = Some c ->
  main parse w
  = run parse "events.txt" (printed w [(welcome_message ++ newline)%string])
  /\ file (printed w [(welcome_message ++ newline)%string]) = Some c.
Proof.
  intros Hf. split; [|exact Hf].
  unfold main, bind. rewrite print_printed. unfold init.
  cbn [printed file]. now rewrite Hf.
Qed.

End MainProperties.

(** ** The properties above on a sample session *)

Lemma get_valid_date_returns_valid_example :
  validate_date Sample.parse "999-05-20" = Returns true
  /\ strip "999-05-20" = "999-05-20".
Proof.
  destruct (get_valid_date_returns_valid Sample.parse
              "Enter event date (YYYY-MM-DD): " "999-05-20"
              (Sample.console (Sample.typed ["20 May"; " 999-05-20 "]) None)
              _ eq_refl) as (H1 & _ & H2 & _).
  split; [exact H1 | exact H2].
Defined.

Lemma get_valid_date_asks_again_example :
  get_valid_date Sample.parse "Date: "
    (Sample.console (Sample.typed ["2025-5-2"; "2025-05-02"]) None)
  = get_valid_date Sample.parse "Date: "
      {| stdin := Sample.typed ["2025-05-02"];
         stdout := ["Date: "; invalid_date_message ++ newline];
         file := None |}.
Proof.
  apply (get_valid_date_asks_again Sample.parse "Date: " "2025-5-2"
           (Sample.typed ["2025-05-02"])
           (Sample.console (Sample.typed ["2025-5-2"; "2025-05-02"]) None)
           eq_refl eq_refl eq_refl).
Defined.

Lemma get_valid_date_end_of_input_example :
  fst (get_valid_date Sample.parse "Date: "
         (Sample.console (Sample.typed ["2025-5-2"; "tomorrow"]) None))
  = Raises EOFError.
Proof.
  apply (get_valid_date_end_of_input Sample.parse "Date: "
           (Sample.console (Sample.typed ["2025-5-2"; "tomorrow"]) None)).
  repeat constructor.
Defined.

Lemma validate_date_accepts_canonical_only_example :
  (exists y m d, read_iso "2024-02-29" = Some (y, m, d)
                 /\ valid_date y m d = true
                 /\ "2024-02-29" = iso_format y m d)
  /\ strip "2024-02-29" = "2024-02-29".
Proof.
  destruct (validate_date_accepts_canonical_only Sample.parse "2024-02-29"
              eq_refl) as (_ & H1 & H2).
  split; [exact (H1 eq_refl) | exact H2].
Defined.

Lemma display_calendar_not_numeric_example :
  display_calendar (Sample.console (Sample.typed ["next year"; "5"]) None)
  = (Returns tt,
     {| stdin := Sample.typed ["5"];
        stdout := ["Enter year (e.g., 2025): ";
                   numeric_input_message ++ newline];
        file := None |}).
Proof.
  destruct (display_calendar_not_numeric
              (Sample.console (Sample.typed ["next year"; "5"]) None)
              _ "next year" eq_refl) as [H _].
  exact (H ValueError eq_refl).
Defined.

Lemma display_calendar_shows_month_example :
  stdout (snd (display_calendar
                 (Sample.console (Sample.typed ["2025"; "5"]) None)))
  = ["Enter year (e.g., 2025): "; "Enter month (1-12): ";
     calendar_title 2025 5; weekday_row;
     "   "; "   "; "   "; " 1 "; " 2 "; " 3 "; " 4 "; newline;
     " 5 "; " 6 "; " 7 "; " 8 "; " 9 "; "10 "; "11 "; newline;
     "12 "; "13 "; "14 "; "15 "; "16 "; "17 "; "18 "; newline;
     "19 "; "20 "; "21 "; "22 "; "23 "; "24 "; "25 "; newline;
     "26 "; "27 "; "28 "; "29 "; "30 "; "31 "; "   "; newline].
Proof.
  destruct (display_calendar_shows_month
              (Sample.console (Sample.typed ["2025"; "5"]) None)
              _ _ "2025" "5" 2025 5 eq_refl eq_refl eq_refl eq_refl)
    as [H _]; [lia|].
  rewrite H. reflexivity.
Defined.

Lemma find_events_repeatable_example :
  let w := Sample.console "" (Some (event_line "2025-05-20" "Dentist")) in
  exists r out,
    find_events Sample.filename "2025-05-20" w = (r, printed w out)
    /\ find_events Sample.filename "2025-05-20"
         (snd (find_events Sample.filename "2025-05-20" w))
       = (r, printed (printed w out) out).
Proof.
  intros w.
  destruct (find_events_repeatable Sample.filename "2025-05-20" w w eq_refl)
    as (r & out & H1 & _ & H3).
  exists r, out. split; [exact H1 | exact H3].
Defined.

Lemma missing_file_is_reported_example :
  file (snd (delete_matching Sample.filename "2025-05-20" "Dentist"
               (Sample.console "" None))) = None
  /\ file (snd (append_event Sample.filename "2025-05-20" "Dentist"
                  (Sample.console "" None)))
     = Some (event_line "2025-05-20" "Dentist").
Proof.
  destruct (missing_file_is_reported Sample.filename "2025-05-20" "Dentist"
              (Sample.console "" None) eq_refl) as (_ & H2 & H3).
  split; [now rewrite H2 | exact H3].
Defined.

Lemma delete_undoes_append_example :
  let w := Sample.console "" (Some (event_line "2025-05-20" "Dentist")) in
  file (snd (delete_matching Sample.filename "2025-05-21" "Team lunch"
               (snd (append_event Sample.filename "2025-05-21" "Team lunch"
                       w))))
  = file w.
Proof.
  intros w.
  destruct (delete_undoes_append Sample.filename "2025-05-21" "Team lunch"
              (event_line "2025-05-20" "Dentist") w
              eq_refl eq_refl eq_refl eq_refl eq_refl eq_refl eq_refl
              eq_refl) as [_ H].
  now rewrite H.
Defined.

Lemma append_after_unterminated_line_example :
  exists c1,
    file (snd (append_event Sample.filename "2025-05-21" "Team lunch"
                 (Sample.console "" (Some "2025-05-20 | Dentist"))))
    = Some c1
    /\ readlines c1
       = ["2025-05-20 | Dentist" ++ event_line "2025-05-21" "Team lunch"].
Proof.
  destruct (append_after_unterminated_line Sample.filename
              "2025-05-21" "Team lunch" "" "2025-05-20 | Dentist"
              (Sample.console "" (Some "2025-05-20 | Dentist"))
              eq_refl eq_refl eq_refl) as (c1 & H1 & _ & H3);
    [discriminate | reflexivity ..|].
  exists c1. split; [exact H1 | exact H3].
Defined.

Lemma delete_matching_is_lenient_example :
  exists c1,
    file (snd (delete_matching Sample.filename "2025-05-20" "05"
                 (Sample.console ""
                    (Some (event_line "2025-05-20" "Team meeting"
                           ++ event_line "2025-05-21" "Team lunch"
                           ++ event_line "2025-05-20" "Dentist")))))
    = Some c1
    /\ ~ In (event_line "2025-05-20" "Due 05 June") (readlines c1)
    /\ readlines c1 = [event_line "2025-05-21" "Team lunch"].
Proof.
  destruct (delete_matching_is_lenient Sample.filename "2025-05-20" "05"
              _ (Sample.console ""
                   (Some (event_line "2025-05-20" "Team meeting"
                          ++ event_line "2025-05-21" "Team lunch"
                          ++ event_line "2025-05-20" "Dentist")))
              eq_refl) as (c1 & H1 & H2 & H3).
  exists c1. split; [exact H1|]. split.
  - exact (proj2 (H2 "Due 05 June" eq_refl)).
  - exact (H3 eq_refl).
Defined.

Lemma delete_event_refuses_blank_example :
  let w := Sample.console (Sample.typed ["2025-05-20"; "  "])
             (Some (event_line "2025-05-20" "Dentist")) in
  file (snd (delete_event Sample.parse Sample.filename w)) = file w.
Proof.
  intros w.
  destruct (delete_event_refuses_blank Sample.parse Sample.filename w
              _ _ "2025-05-20" "  " eq_refl eq_refl eq_refl)
    as (_ & H & _).
  exact H.
Defined.

Lemma add_event_appends_only_example :
  exists t,
    file (snd (add_event Sample.parse Sample.filename
                 (Sample.console (Sample.typed ["2025-05-21"; "Team lunch"])
                    (Some (event_line "2025-05-20" "Dentist")))))
    = Some (event_line "2025-05-20" "Dentist" ++ t).
Proof.
  destruct (add_event_appends_only Sample.parse Sample.filename
              (event_line "2025-05-20" "Dentist")
              (Sample.console (Sample.typed ["2025-05-21"; "Team lunch"])
                 (Some (event_line "2025-05-20" "Dentist")))
              eq_refl) as (t & H & _).
  exists t. exact H.
Defined.

Lemma run_exits_on_five_example :
  let w := Sample.console (Sample.typed [" 5 "; "2"]) (Some "") in
  fst (run Sample.parse Sample.filename w) = Returns tt
  /\ stdin (snd (run Sample.parse Sample.filename w)) = Sample.typed ["2"]
  /\ file (snd (run Sample.parse Sample.filename w)) = file w.
Proof.
  intros w.
  destruct (run_exits_on_five Sample.parse Sample.filename w _ " 5 "
              eq_refl eq_refl) as [H1 H2].
  rewrite H1. repeat split.
Defined.

Lemma run_asks_again_example :
  run Sample.parse Sample.filename
    (Sample.console (Sample.typed ["6"; "5"]) None)
  = run Sample.parse Sample.filename
      {| stdin := Sample.typed ["5"];
         stdout := (menu_lines
                    ++ ["Enter your choice (1-5): ";
                        (invalid_choice_message ++ newline)%string])%list;
         file := None |}.
Proof.
  apply (run_asks_again Sample.parse Sample.filename
           (Sample.console (Sample.typed ["6"; "5"]) None) _ "6" eq_refl).
  intros [H|[H|[H|[H|[H|[]]]]]]; discriminate.
Defined.

Lemma run_dispatches_example :
  let w := Sample.console
             (Sample.typed ["2"; "2025-05-20"; "Dentist"; "5"]) (Some "") in
  run Sample.parse Sample.filename w
  = (add_event Sample.parse Sample.filename
     ;;; run Sample.parse Sample.filename)
      {| stdin := Sample.typed ["2025-05-20"; "Dentist"; "5"];
         stdout := (menu_lines ++ ["Enter your choice (1-5): "])%list;
         file := Some "" |}.
Proof.
  intros w.
  destruct (run_dispatches Sample.parse Sample.filename w _ "2" eq_refl)
    as (_ & H & _).
  exact (H eq_refl).
Defined.

Lemma run_returns_after_goodbye_example :
  exists out,
    stdout (snd (run Sample.parse Sample.filename
                   (Sample.console
                      (Sample.typed ["2"; "2025-05-20"; "Dentist"; "5"])
                      (Some ""))))
    = (out ++ [(goodbye_message ++ newline)%string])%list.
Proof.
  apply (run_returns_after_goodbye Sample.parse Sample.filename
           (Sample.console
              (Sample.typed ["2"; "2025-05-20"; "Dentist"; "5"])
              (Some ""))).
  reflexivity.
Defined.

Lemma run_keeps_store_example :
  let w := Sample.console
             (Sample.typed ["2"; "2025-05-20"; "Dentist"; "4"; "2025-05-20";
                            "Team"; "3"; "2025-05-20"; "5"])
             (Some (event_line "2025-05-20" "Team meeting")) in
  file (snd (run Sample.parse Sample.filename w)) <> None.
Proof.
  intros w.
  destruct (run_keeps_store Sample.parse Sample.filename w) as (H & _).
  now apply H.
Defined.

Lemma main_creates_store_example :
  file (snd (main Sample.parse (Sample.console "" None))) <> None.
Proof.
  exact (proj1 (main_creates_store Sample.parse (Sample.console "" None))).
Defined.

Lemma main_keeps_existing_file_example :
  file (snd (main Sample.parse
               (Sample.console (Sample.typed ["5"])
                  (Some (event_line "2025-05-20" "Dentist")))))
  = Some (event_line "2025-05-20" "Dentist").
Proof.
  destruct (main_keeps_existing_file Sample.parse
              (event_line "2025-05-20" "Dentist")
              (Sample.console (Sample.typed ["5"])
                 (Some (event_line "2025-05-20" "Dentist")))
              eq_refl) as [H _].
  rewrite H. reflexivity.
Defined.

Lemma validate_date_compares_texts_example :
  validate_date Sample.parse "2025-5-2" = Returns false.
Proof.
  destruct (validate_date_compares_texts Sample.parse) as (_ & _ & H).
  destruct (Sample.parse "2025-5-2") as [dt|e] eqn:E; [|discriminate].
  exact (H dt eq_refl).
Defined.

Lemma add_event_writes_stripped_fields_example :
  add_event Sample.parse Sample.filename
    (Sample.console (Sample.typed ["  2025-05-20 "; " Team meeting  "])
       (Some ""))
  = (Returns tt,
     {| stdin := "";
        stdout := ["Enter event date (YYYY-MM-DD): ";
                   "Enter event description: ";
                   "Event added successfully for 2025-05-20!" ++ newline];
        file := Some ("2025-05-20 | Team meeting" ++ newline) |})
  /\ add_event Sample.parse Sample.filename
       (Sample.console (Sample.typed ["2025-05-20"; "   "]) (Some ""))
     = (Returns tt,
        {| stdin := "";
           stdout := ["Enter event date (YYYY-MM-DD): ";
                      "Enter event description: ";
                      "Event description cannot be empty." ++ newline];
           file := Some "" |}).
Proof.
  split.
  - destruct (add_event_writes_stripped_fields Sample.parse Sample.filename
                (Sample.console
                   (Sample.typed ["  2025-05-20 "; " Team meeting  "])
                   (Some ""))
                "  2025-05-20 " " Team meeting  " ""
                eq_refl eq_refl eq_refl eq_refl)
      as (_ & H & _).
    destruct H as (H & _); [discriminate | exact H].
  - destruct (add_event_writes_stripped_fields Sample.parse Sample.filename
                (Sample.console (Sample.typed ["2025-05-20"; "   "])
                   (Some ""))
                "2025-05-20" "   " ""
                eq_refl eq_refl eq_refl eq_refl)
      as (H & _).
    exact (H eq_refl).
Defined.
